(** * Sunbeam manifest engine: layered configuration and the manifest-write step

    A shallow embedding of [sunbeam/core/manifest.py] and of
    [CaasFeature.add_manifest_section] from [sunbeam/features/caas/feature.py].

    Python values are embedded as the inductive [pyval]; a Python [dict] is an
    association list in insertion order whose keys are pairwise distinct (the
    predicate [dict_wf] records that invariant of every Python dict).
    Exceptions are explicit: a call either [Returned] a value or [Raised] an
    exception. *)

From Stdlib Require Import ZArith Lia Ascii.
From stdpp Require Import base decidable option list strings gmap.

Open Scope string_scope.
Open Scope list_scope.
Set Warnings "-register-all".

(** ** Python values *)

(** The classes of the modelled code. *)
Inductive pyclass : Set :=
  | JujuManifestCls
  | CharmManifestCls
  | TerraformManifestCls
  | CaasConfigCls
  | SoftwareConfigCls
  | ManifestCls.

(** Runtime values: YAML scalars, lists, dicts, [pathlib.Path]s (a list of
    components) and instances of the model classes (class plus attribute
    dictionary). Floats and timestamps are outside this universe. *)
Inductive pyval : Type :=
  | PNone
  | PBool (b : bool)
  | PInt (n : Z)
  | PStr (s : string)
  | PPath (parts : list string)
  | PList (xs : list pyval)
  | PDict (items : list (string * pyval))
  | PObj (cls : pyclass) (attrs : list (string * pyval)).

(** Exceptions of the modelled code, with their message. *)
Inductive pyexn : Type :=
  | ValueError (msg : string)
  | YAMLError (msg : string)
  | IOError (msg : string)
  | AttributeError (msg : string)
  | ManifestItemNotFoundException (msg : string)
  | ClusterServiceUnavailableException (msg : string)
  | PyException (msg : string).

(** [str(e)] *)
Definition exn_str (e : pyexn) : string :=
  match e with
  | ValueError m | YAMLError m | IOError m | AttributeError m
  | ManifestItemNotFoundException m
  | ClusterServiceUnavailableException m | PyException m => m
  end.

Inductive outcome (A : Type) : Type :=
  | Returned (a : A)
  | Raised (e : pyexn).
Arguments Returned {A} a.
Arguments Raised {A} e.

Definition bind {A B} (c : outcome A) (k : A -> outcome B) : outcome B :=
  match c with
  | Returned a => k a
  | Raised e => Raised e
  end.

Notation "x <- c ;; k" := (bind c (fun x => k))
  (at level 100, c at next level, right associativity, only parsing).

(** ** Dictionaries *)

Definition dict (V : Type) : Type := list (string * V).

Section Dict.
Context {V : Type}.

(** [d.get(k)] *)
Fixpoint dict_get (d : dict V) (k : string) : option V :=
  match d with
  | [] => None
  | (k', v) :: d' => if String.eqb k k' then Some v else dict_get d' k
  end.

(** [k in d] *)
Definition dict_contains (k : string) (d : dict V) : bool :=
  match dict_get d k with Some _ => true | None => false end.

(** [d[k] = v]: an existing key keeps its position, a new key goes last. *)
Fixpoint dict_set (d : dict V) (k : string) (v : V) : dict V :=
  match d with
  | [] => [(k, v)]
  | (k', v') :: d' =>
      if String.eqb k k' then (k', v) :: d' else (k', v') :: dict_set d' k v
  end.

(** [d.keys()] *)
Definition dict_keys (d : dict V) : list string := fst <$> d.

(** [{k: v for k, v in items}] *)
Definition dict_of_items (items : list (string * V)) : dict V :=
  fold_left (fun d kv => dict_set d (fst kv) (snd kv)) items [].

(** Keys of a Python dict are pairwise distinct. *)
Definition dict_wf (d : dict V) : Prop := NoDup (dict_keys d).
End Dict.

(** ** The configuration schema *)

Record JujuManifest : Type := mkJujuManifest {
  bootstrap_args : list string;
  scale_args : list string
}.

(** [JujuManifest()] *)
Definition JujuManifest_default : JujuManifest := mkJujuManifest [] [].

Definition opt_str (o : option string) : pyval :=
  match o with Some s => PStr s | None => PNone end.

(** [CharmManifest(channel=channel)]: revision and config default to None. *)
Definition CharmManifest (channel : option string) : pyval :=
  PObj CharmManifestCls
    [("channel", opt_str channel); ("revision", PNone); ("config", PNone)].

(** [TerraformManifest(source=source)] *)
Definition TerraformManifest (source : list string) : pyval :=
  PObj TerraformManifestCls [("source", PPath source)].

(** [SoftwareConfig]: [charms] maps a charm name to a [CharmManifest]
    instance, [terraform] a plan name to a [TerraformManifest] instance and
    [extra] is pydantic's bag of undeclared fields ([extra="allow"]), whose
    keys are never the declared field names. *)
Record SoftwareConfig : Type := mkSoftwareConfig {
  juju : JujuManifest;
  charms : dict pyval;
  terraform : dict pyval;
  extra : dict pyval
}.

Record Manifest : Type := mkManifest {
  deployment : dict pyval;
  software : SoftwareConfig
}.

Definition software_wf (s : SoftwareConfig) : Prop :=
  dict_wf (charms s) /\ dict_wf (terraform s) /\ dict_wf (extra s).

(** ** [SoftwareConfig.get_default] *)

(** The three dictionaries a feature fragment contributes to. *)
Inductive section_kind : Set := KCharms | KTerraform | KExtra.

Definition section_of (kind : section_kind) (s : SoftwareConfig) : dict pyval :=
  match kind with
  | KCharms => charms s
  | KTerraform => terraform s
  | KExtra => extra s
  end.

(** The noun used by the collision message of each loop. *)
Definition kind_word (kind : section_kind) : string :=
  match kind with
  | KCharms => "charm"
  | KTerraform => "tfplan"
  | KExtra => "extra key"
  end.

(** [f"Feature {feature} overrides charm {charm}"] and its two siblings. *)
Definition override_msg (kind : section_kind) (feature key : string) : string :=
  "Feature " +:+ feature +:+ " overrides " +:+ kind_word kind +:+ " " +:+ key.

(** One inner loop of [get_default]:
    [for key, value in items: if key in acc: raise ValueError(...); acc[key] = value] *)
Fixpoint add_entries (kind : section_kind) (feature : string)
    (items : dict pyval) (acc : dict pyval) : outcome (dict pyval) :=
  match items with
  | [] => Returned acc
  | (key, value) :: rest =>
      if dict_contains key acc
      then Raised (ValueError (override_msg kind feature key))
      else add_entries kind feature rest (dict_set acc key value)
  end.

(** The accumulators [charms], [terraform] and [extra] of [get_default]. *)
Record accum : Type := mkAccum {
  acc_charms : dict pyval;
  acc_terraform : dict pyval;
  acc_extra : dict pyval
}.

(** The outer loop [for feature, software in feature_softwares.items()]. *)
Fixpoint add_features (fs : dict SoftwareConfig) (acc : accum) : outcome accum :=
  match fs with
  | [] => Returned acc
  | (feature, sw) :: rest =>
      c <- add_entries KCharms feature (charms sw) (acc_charms acc) ;;
      t <- add_entries KTerraform feature (terraform sw) (acc_terraform acc) ;;
      e <- add_entries KExtra feature (extra sw) (acc_extra acc) ;;
      add_features rest (mkAccum c t e)
  end.

Section Defaults.
(** [sunbeam.versions] is not part of the modelled sources: its two tables
    and the snap root directory are parameters. *)
Variable MANIFEST_CHARM_VERSIONS : dict string.
Variable TERRAFORM_DIR_NAMES : dict string.
Variable snap_root : list string.

Definition core_charms : dict pyval :=
  dict_of_items
    (map (fun cv => (fst cv, CharmManifest (Some (snd cv))))
         MANIFEST_CHARM_VERSIONS).

Definition core_terraform : dict pyval :=
  dict_of_items
    (map (fun td => (fst td, TerraformManifest (snap_root ++ ["etc"; snd td])))
         TERRAFORM_DIR_NAMES).

Definition get_default (feature_softwares : option (dict SoftwareConfig))
    : outcome SoftwareConfig :=
  match feature_softwares with
  | None =>
      Returned (mkSoftwareConfig JujuManifest_default core_charms core_terraform [])
  | Some fs =>
      acc <- add_features fs (mkAccum core_charms core_terraform []) ;;
      Returned (mkSoftwareConfig JujuManifest_default
                  (acc_charms acc) (acc_terraform acc) (acc_extra acc))
  end.

(** [Manifest.get_default] *)
Definition Manifest_get_default (feature_softwares : option (dict SoftwareConfig))
    : outcome Manifest :=
  sc <- get_default feature_softwares ;;
  Returned (mkManifest [] sc).
End Defaults.

(** The contract of the assembly, in the specification's words. The keys a
    list of fragments contributes to one section, in order: *)
Definition feature_keys (kind : section_kind) (fs : dict SoftwareConfig) : list string :=
  (fs : list (string * SoftwareConfig))
    ≫= (fun fsw => dict_keys (section_of kind (snd fsw))).

(** and the entries they contribute: *)
Definition feature_entries (kind : section_kind) (fs : dict SoftwareConfig) : dict pyval :=
  (fs : list (string * SoftwareConfig))
    ≫= (fun fsw => (section_of kind (snd fsw) : list (string * pyval))).

Definition acc_section (kind : section_kind) (acc : accum) : dict pyval :=
  match kind with
  | KCharms => acc_charms acc
  | KTerraform => acc_terraform acc
  | KExtra => acc_extra acc
  end.

(** [collides base kind fs feature key]: fragment [feature] contributes [key]
    to section [kind] although the accumulated configuration, that is the
    core defaults [base] and the fragments before [feature], has it already. *)
Definition collides (base : accum) (kind : section_kind)
    (fs : dict SoftwareConfig) (feature key : string) : Prop :=
  exists pre sw post,
    fs = pre ++ (feature, sw) :: post
    /\ key ∈ dict_keys (section_of kind sw)
    /\ key ∈ dict_keys (acc_section kind base) ++ feature_keys kind pre.

(** Every fragment is a well-formed configuration. *)
Definition fragments_wf (fs : dict SoftwareConfig) : Prop :=
  Forall (fun fsw => software_wf (snd fsw)) fs.

(** ** Validation against the default *)

Section Validation.
(** [repr] of a [dict_keys] view, used only inside the error messages. *)
Variable repr_keys : list string -> string.

(** [set(d.keys())] *)
Definition key_set (d : dict pyval) : gset string := list_to_set (dict_keys d).

(** Truthiness of a dict: non-empty. *)
Definition dict_truthy {V} (d : dict V) : bool :=
  match d with [] => false | _ => true end.

Definition validate_terraform_keys (self default_software_config : SoftwareConfig)
    : outcome unit :=
  if dict_truthy (terraform self) then
    let tf_keys := key_set (terraform self) in
    let all_tfplans := dict_keys (terraform default_software_config) in
    if negb (bool_decide (tf_keys ⊆ list_to_set all_tfplans)) then
      Raised (ValueError
        ("Manifest Software Terraform keys should be one of "
           +:+ repr_keys all_tfplans +:+ " "))
    else Returned tt
  else Returned tt.

Definition validate_charm_keys (self default_software_config : SoftwareConfig)
    : outcome unit :=
  if dict_truthy (charms self) then
    let charms_keys := key_set (charms self) in
    let all_charms := dict_keys (charms default_software_config) in
    if negb (bool_decide (charms_keys ⊆ list_to_set all_charms)) then
      Raised (ValueError
        ("Manifest Software charms keys should be one of "
           +:+ repr_keys all_charms +:+ " "))
    else Returned tt
  else Returned tt.

Definition validate_against_default (self default_software_config : SoftwareConfig)
    : outcome unit :=
  _ <- validate_terraform_keys self default_software_config ;;
  validate_charm_keys self default_software_config.

(** [Manifest.validate_against_default] *)
Definition Manifest_validate_against_default (self default_manifest : Manifest)
    : outcome unit :=
  validate_against_default (software self) (software default_manifest).
End Validation.

(** ** Merging *)

(** Modelled from the spec: [sunbeam.utils.merge_dict] is not among the
    sources. Section 4.1 of the specification gives its contract: keys of
    [base] only and keys of [override] only are carried through; for a key of
    both, two mappings are merged recursively and anything else is replaced by
    [override]'s value. [merge_dict_with] is the loop over [override]'s items
    and [merge_value] the rule for one key that both sides have. *)
Definition merge_dict_with (mv : pyval -> pyval -> pyval)
    (d u : dict pyval) : dict pyval :=
  fold_left
    (fun acc kv =>
       match dict_get acc (fst kv) with
       | Some dv => dict_set acc (fst kv) (mv dv (snd kv))
       | None => dict_set acc (fst kv) (snd kv)
       end)
    u d.

Fixpoint merge_value (dv v : pyval) {struct v} : pyval :=
  match v with
  | PDict u =>
      match dv with
      | PDict d => PDict (merge_dict_with (fun dv' v' => merge_value dv' v') d u)
      | _ => v
      end
  | _ => v
  end.

Definition merge_dict (d u : dict pyval) : dict pyval :=
  merge_dict_with merge_value d u.

(** [copy.deepcopy]: on immutable values a copy is the value itself; the
    object identities it creates are the subject of module [Heap]. *)
Definition deepcopy {A : Type} (a : A) : A := a.

(** [JujuManifest.model_dump()] *)
Definition juju_model_dump (j : JujuManifest) : dict pyval :=
  [("bootstrap_args", PList (map PStr (bootstrap_args j)));
   ("scale_args", PList (map PStr (scale_args j)))].

(** pydantic's validation of a [list[str]] field. *)
Fixpoint str_items (xs : list pyval) : option (list string) :=
  match xs with
  | [] => Some []
  | PStr s :: xs' =>
      match str_items xs' with Some l => Some (s :: l) | None => None end
  | _ => None
  end.

Definition juju_field (kw : dict pyval) (name : string) : outcome (list string) :=
  match dict_get kw name with
  | None => Returned []
  | Some (PList xs) =>
      match str_items xs with
      | Some l => Returned l
      | None => Raised (ValueError ("validation error for JujuManifest: " +:+ name))
      end
  | Some _ => Raised (ValueError ("validation error for JujuManifest: " +:+ name))
  end.

(** [JujuManifest] built from keyword arguments [kw]: undeclared keys are ignored, a missing field takes
    its default [[]], a field that is not a list of strings is rejected with
    pydantic's [ValidationError] (a [ValueError]). *)
Definition JujuManifest_init (kw : dict pyval) : outcome JujuManifest :=
  b <- juju_field kw "bootstrap_args" ;;
  s <- juju_field kw "scale_args" ;;
  Returned (mkJujuManifest b s).

(** [SoftwareConfig.merge] *)
Definition merge (self other : SoftwareConfig) : outcome SoftwareConfig :=
  juju <- JujuManifest_init
            (merge_dict (juju_model_dump (juju self)) (juju_model_dump (juju other))) ;;
  let charms := merge_dict (deepcopy (charms self)) (deepcopy (charms other)) in
  let terraform := merge_dict (deepcopy (terraform self)) (deepcopy (terraform other)) in
  let extra := merge_dict (deepcopy (extra self)) (deepcopy (extra other)) in
  Returned (mkSoftwareConfig juju charms terraform extra).

(** [Manifest.merge] *)
Definition Manifest_merge (self other : Manifest) : outcome Manifest :=
  let deployment :=
    merge_dict (deepcopy (deployment self)) (deepcopy (deployment other)) in
  software <- merge (software self) (software other) ;;
  Returned (mkManifest deployment software).

(** The merge contract in the specification's words, for one key: what the
    result holds given what [base] and [override] hold. *)
Definition merged_entry (base override : option pyval) : option pyval :=
  match base, override with
  | None, None => None
  | Some b, None => Some b
  | None, Some o => Some o
  | Some (PDict b), Some (PDict o) => Some (PDict (merge_dict b o))
  | Some _, Some o => Some o
  end.

(** What one key holds after the loop of [merge_dict_with]. *)
Definition merged_entry_with (mv : pyval -> pyval -> pyval)
    (b o : option pyval) : option pyval :=
  match b, o with
  | None, None => None
  | Some x, None => Some x
  | None, Some y => Some y
  | Some x, Some y => Some (mv x y)
  end.

(** Every dictionary nested in a value has pairwise distinct keys. *)
Fixpoint pyval_wf (v : pyval) : Prop :=
  match v with
  | PList xs => fold_right (fun x P => pyval_wf x /\ P) True xs
  | PDict items =>
      NoDup (dict_keys items)
      /\ fold_right (fun kv P => pyval_wf (snd kv) /\ P) True items
  | PObj _ attrs =>
      NoDup (dict_keys attrs)
      /\ fold_right (fun kv P => pyval_wf (snd kv) /\ P) True attrs
  | _ => True
  end.

Definition dict_deep_wf (d : dict pyval) : Prop := pyval_wf (PDict d).

Definition software_deep_wf (s : SoftwareConfig) : Prop :=
  dict_deep_wf (charms s) /\ dict_deep_wf (terraform s) /\ dict_deep_wf (extra s).

Definition manifest_deep_wf (m : Manifest) : Prop :=
  dict_deep_wf (deployment m) /\ software_deep_wf (software m).

(** ** Python equality on parsed manifests *)

Definition strs_eqb (p q : list string) : bool :=
  bool_decide (p = q).

Definition pyclass_eqb (c d : pyclass) : bool :=
  match c, d with
  | JujuManifestCls, JujuManifestCls
  | CharmManifestCls, CharmManifestCls
  | TerraformManifestCls, TerraformManifestCls
  | CaasConfigCls, CaasConfigCls
  | SoftwareConfigCls, SoftwareConfigCls
  | ManifestCls, ManifestCls => true
  | _, _ => false
  end.

(** [a == b]: [True == 1] and [False == 0] hold, lists compare pointwise and
    dictionaries compare regardless of insertion order. *)
Fixpoint py_eqb (a b : pyval) {struct a} : bool :=
  match a, b with
  | PNone, PNone => true
  | PBool x, PBool y => Bool.eqb x y
  | PBool x, PInt n => Z.eqb (if x then 1 else 0) n
  | PInt n, PBool y => Z.eqb n (if y then 1 else 0)
  | PInt n, PInt m => Z.eqb n m
  | PStr s, PStr t => String.eqb s t
  | PPath p, PPath q => strs_eqb p q
  | PList xs, PList ys =>
      (fix go (xs ys : list pyval) {struct xs} : bool :=
         match xs, ys with
         | [], [] => true
         | x :: xs', y :: ys' => py_eqb x y && go xs' ys'
         | _, _ => false
         end) xs ys
  | PDict d, PDict e =>
      Nat.eqb (length d) (length e)
      && forallb (fun kv => match dict_get e (fst kv) with
                            | Some v' => py_eqb (snd kv) v'
                            | None => false
                            end) d
  | PObj c d, PObj c' e =>
      pyclass_eqb c c'
      && Nat.eqb (length d) (length e)
      && forallb (fun kv => match dict_get e (fst kv) with
                            | Some v' => py_eqb (snd kv) v'
                            | None => false
                            end) d
  | _, _ => false
  end.

(** ** The manifest-write step *)

(** [ResultType] and [Result] of [sunbeam.core.common]; [message] is [None]
    where the source passes no second argument. *)
Inductive ResultType : Set := COMPLETED | FAILED | SKIPPED.

Record Result : Type := mkResult {
  result_type : ResultType;
  message : option pyval
}.

(** Modelled from the spec: the [RiskLevel] enumeration of
    [sunbeam.core.common] is absent; the specification distinguishes the most
    conservative (stable) tier from every other tier. *)
Inductive RiskLevel : Type :=
  | STABLE
  | NonStable (tier : string).

Definition risk_is_stable (r : RiskLevel) : bool :=
  match r with STABLE => true | NonStable _ => false end.

(** Modelled from the spec: the Manifest Store Adapter (the cluster client) is
    an external collaborator. The store is append-only, the newest item last;
    an item is a dictionary with the serialized manifest under ["data"]; both
    calls fail with [ClusterServiceUnavailableException] when the service is
    unreachable, and reading an empty store fails with
    [ManifestItemNotFoundException]. *)
Record ClusterDB : Type := mkClusterDB {
  available : bool;
  manifest_items : list (dict pyval)
}.

Definition get_latest_manifest (db : ClusterDB) : outcome (dict pyval) :=
  if available db then
    match last (manifest_items db) with
    | Some item => Returned item
    | None => Raised (ManifestItemNotFoundException "ManifestItem not found")
    end
  else Raised (ClusterServiceUnavailableException "Cluster service unavailable").

(** What the step observes and touches, in order. *)
Inductive event : Type :=
  | EvReadFile (path : list string)
  | EvGetLatestManifest
  | EvAddManifest (data : string).

(** The instance fields of [AddManifestStep]; [manifest_content] is [PNone]
    for Python's [None]. *)
Record AddManifestStep : Type := mkAddManifestStep {
  manifest_file : option (list string);
  clear : bool;
  manifest_content : pyval
}.

(** [AddManifestStep(client, manifest_file, clear)] *)
Definition AddManifestStep_init (manifest_file : option (list string)) (clear : bool)
    : AddManifestStep :=
  mkAddManifestStep manifest_file clear PNone.

Definition set_manifest_content (self : AddManifestStep) (c : pyval) : AddManifestStep :=
  mkAddManifestStep (manifest_file self) (clear self) c.

(** [EMPTY_MANIFEST] *)
Definition EMPTY_MANIFEST : pyval :=
  PDict [("charms", PDict []); ("terraform", PDict [])].

(** [x is None] *)
Definition is_None (v : pyval) : bool :=
  match v with PNone => true | _ => false end.

(** [except (yaml.YAMLError, IOError)] *)
Definition is_load_error (e : pyexn) : bool :=
  match e with YAMLError _ | IOError _ => true | _ => false end.

Section Step.
(** The YAML library, the rendering of a risk level inside the file name, the
    identifier the store assigns to its next item and the machine the step
    runs on: the snap directory, the inferred risk level and the outcome of
    opening and reading each file. *)
Variable safe_load : string -> outcome pyval.
Variable safe_dump : pyval -> outcome string.
Variable risk_str : RiskLevel -> string.
Variable assign_id : list (dict pyval) -> pyval.
Variable snap_root : list string.
Variable infer_risk : RiskLevel.
Variable read_file : list string -> outcome string.

(** [embedded_manifest_path] *)
Definition embedded_manifest_path (risk : RiskLevel) : list string :=
  snap_root ++ ["etc"; "manifests"; risk_str risk +:+ ".yml"].

(** [yaml.safe_load] of a value that need not be text: anything else is used
    as a stream and has no [read] attribute. *)
Definition safe_load_value (v : pyval) : outcome pyval :=
  match v with
  | PStr s => safe_load s
  | _ => Raised (AttributeError "object has no attribute 'read'")
  end.

(** Modelled from the spec: [add_manifest] of the store adapter appends an
    item and returns the identifier assigned to it. *)
Definition add_manifest (db : ClusterDB) (data : string) : outcome (pyval * ClusterDB) :=
  if available db then
    let id := assign_id (manifest_items db) in
    Returned (id, mkClusterDB true
                    (manifest_items db ++ [[("manifestid", id); ("data", PStr data)]]))
  else Raised (ClusterServiceUnavailableException "Cluster service unavailable").

(** The first [try] block of [is_skip]: the embedded manifest is loaded, then
    the user's file if there is one, else the clear request is honoured. *)
Definition load_manifests (self : AddManifestStep)
    : outcome (pyval * AddManifestStep) * list event :=
  let risk := infer_risk in
  let path := embedded_manifest_path risk in
  match (bytes <- read_file path ;; safe_load bytes) with
  | Raised e => (Raised e, [EvReadFile path])
  | Returned embedded_manifest =>
      match manifest_file self with
      | Some file =>
          match (text <- read_file file ;; safe_load text) with
          | Raised e => (Raised e, [EvReadFile path; EvReadFile file])
          | Returned content =>
              (Returned (embedded_manifest, set_manifest_content self content),
               [EvReadFile path; EvReadFile file])
          end
      | None =>
          if clear self
          then (Returned (embedded_manifest, set_manifest_content self EMPTY_MANIFEST),
                [EvReadFile path])
          else (Returned (embedded_manifest, self), [EvReadFile path])
      end
  end.

(** The tail of [is_skip], from [if self.manifest_content is None] on. *)
Definition compare_with_latest (self : AddManifestStep)
    (latest_manifest : option (dict pyval)) : outcome Result :=
  if is_None (manifest_content self) then Returned (mkResult SKIPPED None)
  else
    match latest_manifest with
    | Some item =>
        if dict_truthy item then
          stored <- safe_load_value
                      (match dict_get item "data" with
                       | Some data => data
                       | None => PDict []
                       end) ;;
          if py_eqb stored (manifest_content self)
          then Returned (mkResult SKIPPED None)
          else Returned (mkResult COMPLETED None)
        else Returned (mkResult COMPLETED None)
    | None => Returned (mkResult COMPLETED None)
    end.

(** [AddManifestStep.is_skip]: the outcome of the call, the step with its
    updated [manifest_content], and the accesses made. *)
Definition is_skip (db : ClusterDB) (self : AddManifestStep)
    : outcome Result * AddManifestStep * list event :=
  let risk := infer_risk in
  match load_manifests self with
  | (Raised e, tr) =>
      if is_load_error e
      then (Returned (mkResult FAILED (Some (PStr (exn_str e)))), self, tr)
      else (Raised e, self, tr)
  | (Returned (embedded_manifest, self1), tr) =>
      let tr' := tr ++ [EvGetLatestManifest] in
      match get_latest_manifest db with
      | Returned latest_manifest =>
          (compare_with_latest self1 (Some latest_manifest), self1, tr')
      | Raised (ManifestItemNotFoundException _) =>
          if is_None (manifest_content self1) then
            if risk_is_stable risk
            then (Returned (mkResult SKIPPED None), self1, tr')
            else
              let self2 := set_manifest_content self1 embedded_manifest in
              (compare_with_latest self2 None, self2, tr')
          else (compare_with_latest self1 None, self1, tr')
      | Raised (ClusterServiceUnavailableException m) =>
          (Returned (mkResult FAILED (Some (PStr m))), self1, tr')
      | Raised e => (Raised e, self1, tr')
      end
  end.

(** [AddManifestStep.run]: [except Exception] catches every exception of the
    [try] block. *)
Definition run (db : ClusterDB) (self : AddManifestStep)
    : outcome Result * ClusterDB * list event :=
  match safe_dump (manifest_content self) with
  | Raised e => (Returned (mkResult FAILED (Some (PStr (exn_str e)))), db, [])
  | Returned data =>
      match add_manifest db data with
      | Returned (id, db') =>
          (Returned (mkResult COMPLETED (Some id)), db', [EvAddManifest data])
      | Raised e =>
          (Returned (mkResult FAILED (Some (PStr (exn_str e)))), db,
           [EvAddManifest data])
      end
  end.
End Step.

(** ** [CaasFeature.add_manifest_section] *)

(** [CaasConfig()] with the declared defaults. *)
Definition CaasConfig_default : pyval :=
  PObj CaasConfigCls
    [("image_name", PNone); ("image_url", PNone); ("container_format", PNone);
     ("disk_format", PNone); ("properties", PDict [])].

(** [isinstance(v, CaasConfig)] *)
Definition is_CaasConfig (v : pyval) : bool :=
  match v with PObj CaasConfigCls _ => true | _ => false end.

(** [software_config.extra[key] = v] *)
Definition set_extra (s : SoftwareConfig) (key : string) (v : pyval) : SoftwareConfig :=
  mkSoftwareConfig (juju s) (charms s) (terraform s) (dict_set (extra s) key v).

Section Caas.
(** pydantic's construction of a [CaasConfig] from keyword arguments, and
    [repr], which only feeds the error message. *)
Variable CaasConfig_init : dict pyval -> outcome pyval.
Variable py_repr : pyval -> string.

(** The call returns the configuration as it has mutated it. *)
Definition add_manifest_section (software_config : SoftwareConfig)
    : outcome SoftwareConfig :=
  let caas_config :=
    match dict_get (extra software_config) "caas_config" with
    | Some v => v
    | None => PNone
    end in
  if is_None caas_config then
    Returned (set_extra software_config "caas_config" CaasConfig_default)
  else if is_CaasConfig caas_config then
    Returned software_config
  else
    match caas_config with
    | PDict kw =>
        c <- CaasConfig_init kw ;;
        Returned (set_extra software_config "caas_config" c)
    | _ =>
        Raised (ValueError ("Invalid caas_config in manifest: " +:+ py_repr caas_config))
    end.
End Caas.

(** ** Object identities: merging on a heap

    The functions above compute with values. Whether [merge] leaves its
    operands alone is a question about objects, so this module runs
    [SoftwareConfig.merge] and [Manifest.merge] on a heap of mutable cells:
    a reference is an immutable atom or the address of a list, a dict or an
    instance, and a model instance holds references to its fields. *)
Module Heap.

Inductive atom : Type :=
  | ANone
  | ABool (b : bool)
  | AInt (n : Z)
  | AStr (s : string)
  | APath (parts : list string).

Inductive ref : Type :=
  | RImm (a : atom)
  | RLoc (l : nat).

Inductive cell : Type :=
  | CList (xs : list ref)
  | CDict (items : list (string * ref))
  | CObj (cls : pyclass) (attrs : list (string * ref)).

(** The address of the cell allocated next is the length of the heap. *)
Abbreviation heap := (list cell).

Definition ref_locs (r : ref) : list nat :=
  match r with RImm _ => [] | RLoc l => [l] end.

Definition cell_refs (c : cell) : list ref :=
  match c with
  | CList xs => xs
  | CDict items => snd <$> items
  | CObj _ attrs => snd <$> attrs
  end.

(** The addresses a cell points to. *)
Definition cell_locs (c : cell) : list nat :=
  cell_refs c ≫= ref_locs.

(** [reach h r l]: the object at [l] can be reached from [r] in [h]. *)
Inductive reach (h : heap) : ref -> nat -> Prop :=
  | reach_here (l : nat) : reach h (RLoc l) l
  | reach_step (r : ref) (l l' : nat) (c : cell) :
      reach h r l -> h !! l = Some c -> l' ∈ cell_locs c -> reach h r l'.

(** Computations that read and update the heap and may raise; the heap
    survives an exception. *)
Definition M (A : Type) : Type := heap -> outcome A * heap.

Definition ret {A} (a : A) : M A := fun h => (Returned a, h).

Definition raise {A} (e : pyexn) : M A := fun h => (Raised e, h).

Definition and_then {A B} (c : M A) (k : A -> M B) : M B :=
  fun h =>
    match c h with
    | (Returned a, h') => k a h'
    | (Raised e, h') => (Raised e, h')
    end.

Notation "x <~ c ;; k" := (and_then c (fun x => k))
  (at level 100, c at next level, right associativity, only parsing).

(** A new object. *)
Definition alloc (c : cell) : M ref :=
  fun h => (Returned (RLoc (length h)), h ++ [c]).

(** The object behind a reference; atoms have no cell. *)
Definition read (r : ref) : M cell :=
  fun h =>
    match r with
    | RLoc l =>
        match h !! l with
        | Some c => (Returned c, h)
        | None => (Raised (PyException "no such object"), h)
        end
    | RImm _ => (Raised (AttributeError "not a container"), h)
    end.

(** In-place update of an object. *)
Definition write (r : ref) (c : cell) : M unit :=
  fun h =>
    match r with
    | RLoc l =>
        if decide (l < length h) then (Returned tt, <[l:=c]> h)
        else (Raised (PyException "no such object"), h)
    | RImm _ => (Raised (AttributeError "not a container"), h)
    end.

Definition shift_ref (n : nat) (r : ref) : ref :=
  match r with RImm a => RImm a | RLoc l => RLoc (n + l) end.

Definition shift_cell (n : nat) (c : cell) : cell :=
  match c with
  | CList xs => CList (shift_ref n <$> xs)
  | CDict items => CDict ((fun kv => (fst kv, shift_ref n (snd kv))) <$> items)
  | CObj cls attrs => CObj cls ((fun kv => (fst kv, shift_ref n (snd kv))) <$> attrs)
  end.

(** [copy.deepcopy]: atoms are returned as they are; for an object the object
    graph is cloned at the end of the heap, so that the copy is isomorphic to
    the original, sharing and cycles included. Cells the argument does not
    reach are cloned too and stay unreachable. *)
Definition deepcopy (r : ref) : M ref :=
  fun h =>
    match r with
    | RImm a => (Returned (RImm a), h)
    | RLoc l =>
        (Returned (RLoc (length h + l)), h ++ (shift_cell (length h) <$> h))
    end.

(** [obj.name] *)
Definition getattr (obj : ref) (name : string) : M ref :=
  c <~ read obj ;;
  match c with
  | CObj _ attrs =>
      match dict_get attrs name with
      | Some r => ret r
      | None => raise (AttributeError name)
      end
  | _ => raise (AttributeError name)
  end.

(** [obj.name = v] *)
Definition setattr (obj : ref) (name : string) (v : ref) : M unit :=
  c <~ read obj ;;
  match c with
  | CObj cls attrs => write obj (CObj cls (dict_set attrs name v))
  | _ => raise (AttributeError name)
  end.

(** The property [SoftwareConfig.extra]: an instance whose
    [__pydantic_extra__] is [None] is given an empty dict first. *)
Definition extra (self : ref) : M ref :=
  e <~ getattr self "__pydantic_extra__" ;;
  match e with
  | RImm ANone =>
      e' <~ alloc (CDict []) ;;
      _ <~ setattr self "__pydantic_extra__" e' ;;
      ret e'
  | _ => ret e
  end.

(** The strings of a list of strings. *)
Fixpoint str_atoms (xs : list ref) : option (list string) :=
  match xs with
  | [] => Some []
  | RImm (AStr s) :: xs' =>
      match str_atoms xs' with Some l => Some (s :: l) | None => None end
  | _ => None
  end.

(** A [list[str]] field, serialized or validated: the strings are read and
    a new list is built from them. *)
Definition copy_str_list (r : ref) : M ref :=
  c <~ read r ;;
  match c with
  | CList xs =>
      match str_atoms xs with
      | Some l => alloc (CList ((fun s => RImm (AStr s)) <$> l))
      | None => raise (ValueError "validation error: list of strings expected")
      end
  | _ => raise (ValueError "validation error: list of strings expected")
  end.

(** [JujuManifest.model_dump()] *)
Definition juju_model_dump (j : ref) : M ref :=
  b <~ getattr j "bootstrap_args" ;;
  b' <~ copy_str_list b ;;
  s <~ getattr j "scale_args" ;;
  s' <~ copy_str_list s ;;
  alloc (CDict [("bootstrap_args", b'); ("scale_args", s')]).

Definition juju_field (items : dict ref) (name : string) : M ref :=
  match dict_get items name with
  | Some r => copy_str_list r
  | None => alloc (CList [])
  end.

(** [JujuManifest] built from the keyword arguments held by the dict [kw]. *)
Definition JujuManifest_init (kw : ref) : M ref :=
  c <~ read kw ;;
  match c with
  | CDict items =>
      b <~ juju_field items "bootstrap_args" ;;
      s <~ juju_field items "scale_args" ;;
      alloc (CObj JujuManifestCls [("bootstrap_args", b); ("scale_args", s)])
  | _ => raise (PyException "argument after ** must be a mapping")
  end.

(** [SoftwareConfig(juju=juju, charms=charms, terraform=terraform, **extra)]:
    the instance keeps the objects it is given; the unpacked items of
    [extra] are collected in a new dict. *)
Definition SoftwareConfig_init (juju charms terraform extra : ref) : M ref :=
  c <~ read extra ;;
  match c with
  | CDict items =>
      e <~ alloc (CDict items) ;;
      alloc (CObj SoftwareConfigCls
               [("juju", juju); ("charms", charms); ("terraform", terraform);
                ("__pydantic_extra__", e)])
  | _ => raise (PyException "argument after ** must be a mapping")
  end.

(** [Manifest(deployment=deployment, software=software)] *)
Definition Manifest_init (deployment software : ref) : M ref :=
  alloc (CObj ManifestCls [("deployment", deployment); ("software", software)]).

Section Merge.
(** [sunbeam.utils.merge_dict] is not among the sources: here it is any
    function of two references. *)
Variable merge_dict : ref -> ref -> M ref.

(** [SoftwareConfig.merge] *)
Definition merge (self other : ref) : M ref :=
  sj <~ getattr self "juju" ;;
  sd <~ juju_model_dump sj ;;
  oj <~ getattr other "juju" ;;
  od <~ juju_model_dump oj ;;
  jd <~ merge_dict sd od ;;
  juju <~ JujuManifest_init jd ;;
  sc <~ getattr self "charms" ;;
  sc' <~ deepcopy sc ;;
  oc <~ getattr other "charms" ;;
  oc' <~ deepcopy oc ;;
  charms <~ merge_dict sc' oc' ;;
  st <~ getattr self "terraform" ;;
  st' <~ deepcopy st ;;
  ot <~ getattr other "terraform" ;;
  ot' <~ deepcopy ot ;;
  terraform <~ merge_dict st' ot' ;;
  se <~ extra self ;;
  se' <~ deepcopy se ;;
  oe <~ extra other ;;
  oe' <~ deepcopy oe ;;
  extra <~ merge_dict se' oe' ;;
  SoftwareConfig_init juju charms terraform extra.

(** [Manifest.merge] *)
Definition Manifest_merge (self other : ref) : M ref :=
  sd <~ getattr self "deployment" ;;
  sd' <~ deepcopy sd ;;
  od <~ getattr other "deployment" ;;
  od' <~ deepcopy od ;;
  deployment <~ merge_dict sd' od' ;;
  ss <~ getattr self "software" ;;
  os <~ getattr other "software" ;;
  software <~ merge ss os ;;
  Manifest_init deployment software.
End Merge.

(** What [merge_dict] may touch, whatever its code: the objects it can reach
    from its two arguments and the objects it creates. Every other object is
    left as it was, a created or updated object points only to such objects,
    and so does the result. *)
Definition within (h : heap) (d u : ref) (l : nat) : Prop :=
  length h <= l \/ reach h d l \/ reach h u l.

Definition local (f : ref -> ref -> M ref) : Prop :=
  forall (d u : ref) (h : heap),
    length h <= length (snd (f d u h))
    /\ (forall l c, h !! l = Some c -> ~ within h d u l -> snd (f d u h) !! l = Some c)
    /\ (forall l c, snd (f d u h) !! l = Some c ->
          h !! l = Some c \/ forall l', l' ∈ cell_locs c -> within h d u l')
    /\ (forall l, fst (f d u h) = Returned (RLoc l) -> within h d u l).

(** The attribute [name] of the instance [obj] in [h], if there is one. *)
Definition attr_of (h : heap) (obj : ref) (name : string) : option ref :=
  match obj with
  | RLoc l =>
      match h !! l with
      | Some (CObj _ attrs) => dict_get attrs name
      | _ => None
      end
  | RImm _ => None
  end.

(** [obj] is a [SoftwareConfig] as pydantic builds it: with [extra="allow"]
    its [__pydantic_extra__] is set, to a dict. *)
Definition extra_set (h : heap) (obj : ref) : Prop :=
  exists e, attr_of h obj "__pydantic_extra__" = Some e /\ e <> RImm ANone.

(** [obj] is a [Manifest] whose software layer is such a [SoftwareConfig]. *)
Definition software_extra_set (h : heap) (obj : ref) : Prop :=
  exists s, attr_of h obj "software" = Some s /\ extra_set h s.

(** [preserves h0 h]: every object of [h0] is in [h] as it was. *)
Definition preserves (h0 h : heap) : Prop :=
  forall l c, h0 !! l = Some c -> h !! l = Some c.

(** [fresh n r]: [r] is an atom or an object created at or after address [n]. *)
Definition fresh (n : nat) (r : ref) : Prop :=
  match r with RLoc l => n <= l | RImm _ => True end.

Definition cell_fresh (n : nat) (c : cell) : Prop :=
  forall l, l ∈ cell_locs c -> n <= l.

(** [closed_above n h]: the objects created at or after [n] point only to
    objects created at or after [n]. *)
Definition closed_above (n : nat) (h : heap) : Prop :=
  forall l c, n <= l -> h !! l = Some c -> cell_fresh n c.

(** The invariant of a call started in [h0]: the objects of [h0] are intact
    and nothing created since points back into [h0]. *)
Definition isolated (h0 h : heap) : Prop :=
  length h0 <= length h /\ preserves h0 h /\ closed_above (length h0) h.

(** For a set [S] of addresses: a reference, and a cell, that stay in [S]. *)
Definition ref_within (S : nat -> Prop) (r : ref) : Prop :=
  match r with RLoc l => S l | RImm _ => True end.

Definition cell_within (S : nat -> Prop) (c : cell) : Prop :=
  forall l, l ∈ cell_locs c -> S l.

(** [confined h0 S h]: since [h0], only objects of [S] were created or
    updated, and they point into [S]. *)
Definition confined (h0 : heap) (S : nat -> Prop) (h : heap) : Prop :=
  length h0 <= length h
  /\ (forall l c, h0 !! l = Some c -> ~ S l -> h !! l = Some c)
  /\ (forall l c, h !! l = Some c -> h0 !! l = Some c \/ cell_within S c).

(** [hoare I c Q]: [c] maintains the invariant [I], whether it returns or
    raises, and what it returns satisfies [Q]. *)
Definition hoare {A} (I : heap -> Prop) (c : M A) (Q : A -> Prop) : Prop :=
  forall h, I h -> I (snd (c h)) /\ forall a, fst (c h) = Returned a -> Q a.

(** [isinstance(r, Mapping)] *)
Definition is_mapping (h : heap) (r : ref) : bool :=
  match r with
  | RLoc l => match h !! l with Some (CDict _) => true | _ => false end
  | RImm _ => false
  end.

(** Modelled from the spec: an implementation of the contract of section 4.1
    that updates its first argument in place and returns it, the behaviour
    the callers guard against by copying. [fuel] bounds the depth of the
    recursion, as the interpreter's recursion limit does. *)
Fixpoint merge_dict_inplace (fuel : nat) (d u : ref) : M ref :=
  match fuel with
  | O => raise (PyException "maximum recursion depth exceeded")
  | S fuel' =>
      uc <~ read u ;;
      match uc with
      | CDict items =>
          _ <~ fold_left
                 (fun (acc : M unit) (kv : string * ref) =>
                    _ <~ acc ;;
                    dc <~ read d ;;
                    match dc with
                    | CDict ditems =>
                        v <~ match dict_get ditems (fst kv) with
                             | Some dv =>
                                 fun h =>
                                   if is_mapping h dv && is_mapping h (snd kv)
                                   then merge_dict_inplace fuel' dv (snd kv) h
                                   else ret (snd kv) h
                             | None => ret (snd kv)
                             end ;;
                        dc' <~ read d ;;
                        match dc' with
                        | CDict ditems' => write d (CDict (dict_set ditems' (fst kv) v))
                        | _ => raise (AttributeError "not a mapping")
                        end
                    | _ => raise (AttributeError "not a mapping")
                    end)
                 items (ret tt) ;;
          ret d
      | _ => raise (AttributeError "not a mapping")
      end
  end.

End Heap.

(** ** A machine to run the examples on *)

Module Example.
(** A YAML loader and dumper defined on the documents of the examples. *)
Definition safe_load (s : string) : outcome pyval :=
  if String.eqb s "" then Returned PNone
  else if String.eqb s "software: {}" then Returned (PDict [("software", PDict [])])
  else if String.eqb s "deployment: {}" then Returned (PDict [("deployment", PDict [])])
  else Raised (YAMLError "could not find expected ':'").

Definition safe_dump (v : pyval) : outcome string :=
  if py_eqb v (PDict [("software", PDict [])]) then Returned "software: {}"
  else if py_eqb v (PDict [("deployment", PDict [])]) then Returned "deployment: {}"
  else Raised (YAMLError "cannot represent an object").

Definition risk_str (r : RiskLevel) : string :=
  match r with STABLE => "stable" | NonStable tier => tier end.

Definition assign_id (items : list (dict pyval)) : pyval :=
  PInt (Z.of_nat (length items)).

Definition snap_root : list string := ["snap"; "openstack"; "current"].

(** A snap with the embedded manifests of two tiers and a user's manifest. *)
Definition read_file (path : list string) : outcome string :=
  if bool_decide (path = snap_root ++ ["etc"; "manifests"; "stable.yml"])
  then Returned "deployment: {}"
  else if bool_decide (path = snap_root ++ ["etc"; "manifests"; "edge.yml"])
  then Returned "deployment: {}"
  else if bool_decide (path = ["home"; "ubuntu"; "manifest.yml"])
  then Returned "software: {}"
  else Raised (IOError "[Errno 2] No such file or directory").

(** A machine whose snap has lost its embedded manifests. *)
Definition read_file_broken (path : list string) : outcome string :=
  Raised (IOError "[Errno 2] No such file or directory").

Definition stored (data : string) : dict pyval :=
  [("manifestid", PInt 0); ("data", PStr data)].

Definition repr_keys (ks : list string) : string :=
  "dict_keys([" +:+ String.concat ", " ks +:+ "])".

Definition CaasConfig_init (kw : dict pyval) : outcome pyval :=
  Returned (PObj CaasConfigCls kw).

Definition py_repr (v : pyval) : string :=
  match v with
  | PStr s => "'" +:+ s +:+ "'"
  | PNone => "None"
  | _ => "<object>"
  end.

(** The fragment of the caas feature and a second fragment claiming the same
    charm. *)
Definition caas_fragment : SoftwareConfig :=
  mkSoftwareConfig JujuManifest_default
    [("magnum-k8s", CharmManifest (Some "2024.1/stable"))]
    [("caas-setup", TerraformManifest ["features"; "caas"; "etc"; "caas-setup"])]
    [].

Definition rival_fragment : SoftwareConfig :=
  mkSoftwareConfig JujuManifest_default
    [("magnum-k8s", CharmManifest (Some "2024.1/edge"))] [] [].

Definition channel_layer : SoftwareConfig :=
  mkSoftwareConfig (mkJujuManifest ["--debug"] [])
    [("magnum-k8s", CharmManifest (Some "2024.1/stable"))]
    []
    [("caas_config", PDict [("image_name", PStr "fedora"); ("properties", PDict [])])].

Definition revision_layer : SoftwareConfig :=
  mkSoftwareConfig JujuManifest_default
    []
    []
    [("caas_config", PDict [("image_url", PStr "http://images/fedora.qcow2")])].
(** Two [Manifest] objects and their [SoftwareConfig]s on a heap: the first
    at addresses 0 to 8 and 17 to 18, the second at 9 to 16 and 19 to 20. *)
Definition objects : list Heap.cell :=
  [ Heap.CList [Heap.RImm (Heap.AStr "--debug")];
    Heap.CList [];
    Heap.CObj JujuManifestCls
      [("bootstrap_args", Heap.RLoc 0); ("scale_args", Heap.RLoc 1)];
    Heap.CObj CharmManifestCls
      [("channel", Heap.RImm (Heap.AStr "2024.1/stable"));
       ("revision", Heap.RImm Heap.ANone); ("config", Heap.RImm Heap.ANone)];
    Heap.CDict [("magnum-k8s", Heap.RLoc 3)];
    Heap.CDict [];
    Heap.CDict [("image_name", Heap.RImm (Heap.AStr "fedora"))];
    Heap.CDict [("caas_config", Heap.RLoc 6)];
    Heap.CObj SoftwareConfigCls
      [("juju", Heap.RLoc 2); ("charms", Heap.RLoc 4); ("terraform", Heap.RLoc 5);
       ("__pydantic_extra__", Heap.RLoc 7)];
    Heap.CList [];
    Heap.CList [];
    Heap.CObj JujuManifestCls
      [("bootstrap_args", Heap.RLoc 9); ("scale_args", Heap.RLoc 10)];
    Heap.CDict [];
    Heap.CDict [];
    Heap.CDict [("image_url", Heap.RImm (Heap.AStr "http://images/fedora.qcow2"))];
    Heap.CDict [("caas_config", Heap.RLoc 14)];
    Heap.CObj SoftwareConfigCls
      [("juju", Heap.RLoc 11); ("charms", Heap.RLoc 12); ("terraform", Heap.RLoc 13);
       ("__pydantic_extra__", Heap.RLoc 15)];
    Heap.CDict [("region", Heap.RImm (Heap.AStr "one"))];
    Heap.CObj ManifestCls [("deployment", Heap.RLoc 17); ("software", Heap.RLoc 8)];
    Heap.CDict [];
    Heap.CObj ManifestCls [("deployment", Heap.RLoc 19); ("software", Heap.RLoc 16)] ].
End Example.

(** ** Assembly and validation, further notions *)

(** A fragment with its [juju] section replaced. *)
Definition with_juju (j : JujuManifest) (s : SoftwareConfig) : SoftwareConfig :=
  mkSoftwareConfig j (charms s) (terraform s) (extra s).

(** The call returned. *)
Definition returned {A} (o : outcome A) : Prop :=
  match o with Returned _ => True | Raised _ => False end.

(** [collision_free base fs]: in every section, the keys the fragments
    contribute are pairwise distinct and none of them is a key of [base]. *)
Definition collision_free (base : accum) (fs : dict SoftwareConfig) : Prop :=
  forall kind,
    NoDup (feature_keys kind fs)
    /\ (forall k, k ∈ feature_keys kind fs -> k ∉ dict_keys (acc_section kind base)).

(** ** The manifest-write step, further notions *)

(** What [is_skip] hands to [yaml.safe_load] for a stored item:
    [latest_manifest.get("data", {})]. *)
Definition stored_data (item : dict pyval) : pyval :=
  match dict_get item "data" with
  | Some data => data
  | None => PDict []
  end.

(** ** The features *)

(** The exceptions the feature code adds to those of the core; [Builtin]
    carries an exception of the core. *)
Inductive feature_exn : Type :=
  | KeyError (key : string)
  | TerraformException (msg : string)
  | ClickException (msg : string)
  | Builtin (e : pyexn).

Inductive feature_outcome (A : Type) : Type :=
  | Yields (a : A)
  | Throws (e : feature_exn).
Arguments Yields {A} a.
Arguments Throws {A} e.

Definition and_next {A B} (c : feature_outcome A) (k : A -> feature_outcome B)
    : feature_outcome B :=
  match c with
  | Yields a => k a
  | Throws e => Throws e
  end.

Notation "x <-- c ;; k" := (and_next c (fun x => k))
  (at level 100, c at next level, right associativity, only parsing).

(** Truthiness, as [if v:] tests it. *)
Definition py_truthy (v : pyval) : bool :=
  match v with
  | PNone => false
  | PBool b => b
  | PInt n => negb (Z.eqb n 0)
  | PStr s => negb (String.eqb s "")
  | PPath _ => true
  | PList xs => match xs with [] => false | _ => true end
  | PDict items => match items with [] => false | _ => true end
  | PObj _ _ => true
  end.

(** [d.update(items)] *)
Definition dict_update {V} (d : dict V) (items : list (string * V)) : dict V :=
  fold_left (fun acc kv => dict_set acc (fst kv) (snd kv)) items d.

(** *** [CaasConfigureStep] *)

Module CaasConfigureStep.
Section Run.
(** [model_dump] of a value, which raises [AttributeError] on a value without
    that method; the entry ["caas_config"] of the terraform helper's variable
    map, from attribute name to terraform variable name ([None] when the map
    has no such entry); and the helper's [update_tfvars_and_apply_tf]. *)
Variable model_dump : pyval -> feature_outcome pyval.
Variable caas_tfvar_map : option (dict string).
Variable update_tfvars_and_apply_tf : Manifest -> dict pyval -> feature_outcome unit.

(** The loop over the variable map: an attribute is forwarded under its
    variable name when its value is truthy. [dumped.get] needs a dict. *)
Fixpoint collect_overrides (dumped : pyval) (vars : dict string)
    (override_tfvars : dict pyval) : feature_outcome (dict pyval) :=
  match vars with
  | [] => Yields override_tfvars
  | (caas_config_attribute, tfvar_name) :: rest =>
      match dumped with
      | PDict d =>
          let value :=
            match dict_get d caas_config_attribute with
            | Some v => v
            | None => PNone
            end in
          if py_truthy value
          then collect_overrides dumped rest (dict_set override_tfvars tfvar_name value)
          else collect_overrides dumped rest override_tfvars
      | _ => Throws (Builtin (AttributeError "object has no attribute 'get'"))
      end
  end.

(** The inner [try] block, before its [except AttributeError: pass]. *)
Definition read_overrides (manifest : Manifest) : feature_outcome (dict pyval) :=
  match dict_get (extra (software manifest)) "caas_config" with
  | None => Throws (KeyError "caas_config")
  | Some caas_config =>
      manifest_caas_config <-- model_dump caas_config ;;
      collect_overrides manifest_caas_config
        (match caas_tfvar_map with Some vars => vars | None => [] end) []
  end.

(** [run]: the outcome and the overrides of every terraform application. *)
Definition run (manifest : Manifest) : feature_outcome Result * list (dict pyval) :=
  let apply override_tfvars :=
    match update_tfvars_and_apply_tf manifest override_tfvars with
    | Yields _ => (Yields (mkResult COMPLETED None), [override_tfvars])
    | Throws (TerraformException msg) =>
        (Yields (mkResult FAILED (Some (PStr msg))), [override_tfvars])
    | Throws e => (Throws e, [override_tfvars])
    end in
  match read_overrides manifest with
  | Yields override_tfvars => apply override_tfvars
  | Throws (Builtin (AttributeError _)) => apply []
  | Throws (TerraformException msg) =>
      (Yields (mkResult FAILED (Some (PStr msg))), [])
  | Throws e => (Throws e, [])
  end.
End Run.
End CaasConfigureStep.

(** *** [CaasFeature], [DnsFeature], [SecretsFeature] *)

(** A command of a click group: its name and the method behind it. *)
Record command : Type := mkCommand {
  command_name : string;
  command_method : string
}.

(** [except ClusterServiceUnavailableException: enabled = False] *)
Definition enabled_or_false (enabled : feature_outcome bool) : feature_outcome bool :=
  match enabled with
  | Throws (Builtin (ClusterServiceUnavailableException _)) => Yields false
  | other => other
  end.

Module CaasFeature.
Section Feature.
Variable OPENSTACK_CHANNEL : string.
(** The directory of the feature's module, [Path(__file__).parent]. *)
Variable feature_dir : list string.
(** [self.tfplan], set by the base class. *)
Variable tfplan : string.

Definition configure_plan : string := "caas-setup".

Definition manifest_defaults : SoftwareConfig :=
  mkSoftwareConfig JujuManifest_default
    (dict_of_items [("magnum-k8s", CharmManifest (Some OPENSTACK_CHANNEL))])
    (dict_of_items
       [(configure_plan, TerraformManifest (feature_dir ++ ["etc"; configure_plan]))])
    [].

Definition manifest_attributes_tfvar_map : dict pyval :=
  dict_of_items
    [(tfplan,
      PDict [("charms",
              PDict [("magnum-k8s",
                      PDict [("channel", PStr "magnum-channel");
                             ("revision", PStr "magnum-revision");
                             ("config", PStr "magnum-config")])])]);
     (configure_plan,
      PDict [("caas_config",
              PDict [("image_name", PStr "image-name");
                     ("image_url", PStr "image-source-url");
                     ("container_format", PStr "image-container-format");
                     ("disk_format", PStr "image-disk-format");
                     ("properties", PStr "image-properties")])])].

(** [commands]: [super().commands()] and the property [enabled] are the
    base class's. *)
Definition commands (super_commands : feature_outcome (dict (list command)))
    (enabled : feature_outcome bool) : feature_outcome (dict (list command)) :=
  commands <-- super_commands ;;
  enabled <-- enabled_or_false enabled ;;
  if enabled
  then Yields (dict_update commands [("configure", [mkCommand "caas" "configure"])])
  else Yields commands.
End Feature.
End CaasFeature.

Module SecretsFeature.
Section Feature.
Variable OPENSTACK_CHANNEL : string.
Variable tfplan : string.

Definition manifest_defaults : SoftwareConfig :=
  mkSoftwareConfig JujuManifest_default
    (dict_of_items [("barbican-k8s", CharmManifest (Some OPENSTACK_CHANNEL))]) [] [].

Definition manifest_attributes_tfvar_map : dict pyval :=
  dict_of_items
    [(tfplan,
      PDict [("charms",
              PDict [("barbican-k8s",
                      PDict [("channel", PStr "barbican-channel");
                             ("revision", PStr "barbican-revision");
                             ("config", PStr "barbican-config")])])])].
End Feature.
End SecretsFeature.

(** Python's white space among the first 256 code points, which is what a
    character of a [string] stands for here. *)
Definition is_space (c : Ascii.ascii) : bool :=
  let n := Ascii.N_of_ascii c in
  ((9 <=? n) && (n <=? 13) || (28 <=? n) && (n <=? 32)
   || (n =? 133) || (n =? 160))%N.

Definition starts_word (s : string) : bool :=
  match s with
  | String c _ => negb (is_space c)
  | EmptyString => false
  end.

(** [s.split()]: the maximal runs of characters that are not white space. *)
Fixpoint str_split (s : string) : list string :=
  match s with
  | EmptyString => []
  | String c s' =>
      if is_space c then str_split s'
      else if starts_word s' then
        match str_split s' with
        | t :: ts => String c t :: ts
        | [] => [String c EmptyString]
        end
      else String c EmptyString :: str_split s'
  end.

(** [s[-1]], where there is one. *)
Fixpoint str_last (s : string) : option Ascii.ascii :=
  match s with
  | EmptyString => None
  | String c EmptyString => Some c
  | String _ s' => str_last s'
  end.

Definition ends_with_dot (s : string) : bool :=
  match str_last s with
  | Some c => Ascii.eqb c "."%char
  | None => false
  end.

(** [dangling s]: some word of [s] ends in a character other than a dot:
    that character is not white space and is followed by white space or by
    the end of [s]. *)
Definition dangling (s : string) : Prop :=
  exists pre c post,
    s = pre +:+ String c post
    /\ is_space c = false /\ c <> "."%char /\ starts_word post = false.

Module DnsFeature.
Record t : Type := mk { nameservers : option string }.

Section Feature.
Variable OPENSTACK_CHANNEL BIND_CHANNEL : string.
Variable tfplan : string.
(** [repr] of a string, for the error message, and the base class's
    [enable_feature]. *)
Variable repr_str : string -> string.
Variable super_enable_feature : t -> feature_outcome t.

Definition manifest_defaults : SoftwareConfig :=
  mkSoftwareConfig JujuManifest_default
    (dict_of_items
       [("designate-k8s", CharmManifest (Some OPENSTACK_CHANNEL));
        ("designate-bind-k8s", CharmManifest (Some BIND_CHANNEL))])
    [] [].

Definition manifest_attributes_tfvar_map : dict pyval :=
  dict_of_items
    [(tfplan,
      PDict [("charms",
              PDict [("designate-k8s",
                      PDict [("channel", PStr "designate-channel");
                             ("revision", PStr "designate-revision");
                             ("config", PStr "designate-config")]);
                     ("designate-bind-k8s",
                      PDict [("channel", PStr "bind-channel");
                             ("revision", PStr "bind-revision");
                             ("config", PStr "bind-config")])])])].

(** The loop of [enable_feature] over the words of its argument. *)
Fixpoint check_nameservers (nameservers_split : list string) : feature_outcome unit :=
  match nameservers_split with
  | [] => Yields tt
  | nameserver :: rest =>
      match str_last nameserver with
      | None => Throws (Builtin (PyException "string index out of range"))
      | Some c =>
          if Ascii.eqb c "."%char
          then check_nameservers rest
          else Throws (ClickException
                 ("Nameservers must be fully qualified domain names ending with a dot. "
                    +:+ repr_str nameserver +:+ " is not valid."))
      end
  end.

Definition enable_feature (self : t) (nameservers : string) : feature_outcome t :=
  _ <-- check_nameservers (str_split nameservers) ;;
  super_enable_feature (mk (Some nameservers)).

Definition commands (super_commands : feature_outcome (dict (list command)))
    (enabled : feature_outcome bool) : feature_outcome (dict (list command)) :=
  commands <-- super_commands ;;
  enabled <-- enabled_or_false enabled ;;
  if enabled
  then Yields (dict_update commands
                 [("init", [mkCommand "dns" "dns_groups"]);
                  ("init.dns", [mkCommand "address" "dns_address"])])
  else Yields commands.
End Feature.
End DnsFeature.

(** ** Reading a variable map *)

(** The mapping found in [m] under [plan] and then under [section] (empty
    when there is none). *)
Definition tfvar_section (m : dict pyval) (plan section : string) : dict pyval :=
  match dict_get m plan with
  | Some (PDict p) =>
      match dict_get p section with
      | Some (PDict s) => s
      | _ => []
      end
  | _ => []
  end.

(** The terraform variable names a map mentions: its string leaves. *)
Fixpoint tfvar_names (v : pyval) : list string :=
  match v with
  | PStr s => [s]
  | PDict items =>
      (fix go (items : list (string * pyval)) : list string :=
         match items with
         | [] => []
         | kv :: rest => tfvar_names (snd kv) ++ go rest
         end) items
  | _ => []
  end.

(** The attributes of an instance. *)
Definition attr_names (v : pyval) : list string :=
  match v with
  | PObj _ attrs => dict_keys attrs
  | _ => []
  end.

(** ** More of the example machine *)

Module Sample.
(** The files of [Example], and an empty manifest file. *)
Definition read_file (path : list string) : outcome string :=
  if bool_decide (path = ["home"; "ubuntu"; "empty.yml"]) then Returned ""
  else Example.read_file path.

Definition charm_versions : dict string := [("keystone-k8s", "2024.1/stable")].

Definition terraform_dirs : dict string :=
  [("sunbeam-machine-plan", "deploy-sunbeam-machine")].

Definition features : dict SoftwareConfig :=
  [("caas", CaasFeature.manifest_defaults "2024.1/stable" ["features"; "caas"]);
   ("dns", DnsFeature.manifest_defaults "2024.1/stable" "9/stable");
   ("secrets", SecretsFeature.manifest_defaults "2024.1/stable")].

(** [BaseModel.model_dump()] in its default mode: nested models and
    dataclasses become dicts, containers are dumped element by element. *)
Fixpoint dump_value (v : pyval) : pyval :=
  match v with
  | PList xs => PList (map dump_value xs)
  | PDict items => PDict (map (fun kv => (fst kv, dump_value (snd kv))) items)
  | PObj _ attrs => PDict (map (fun kv => (fst kv, dump_value (snd kv))) attrs)
  | _ => v
  end.

(** [v.model_dump()]. The method belongs to the [BaseModel] classes.
    [CaasConfig] is declared with [pydantic.dataclasses.dataclass], which
    gives it none, and [None], scalars, paths, lists and dicts have none
    either: on these the attribute lookup raises [AttributeError]. *)
Definition model_dump (v : pyval) : feature_outcome pyval :=
  match v with
  | PObj CaasConfigCls _ =>
      Throws (Builtin (AttributeError
                         "'CaasConfig' object has no attribute 'model_dump'"))
  | PObj _ _ => Yields (dump_value v)
  | _ => Throws (Builtin (AttributeError "object has no attribute 'model_dump'"))
  end.

Definition caas_tfvars : dict string :=
  [("image_name", "image-name"); ("image_url", "image-source-url");
   ("container_format", "image-container-format");
   ("disk_format", "image-disk-format"); ("properties", "image-properties")].

Definition apply_ok (m : Manifest) (overrides : dict pyval) : feature_outcome unit :=
  Yields tt.

Definition repr_str (s : string) : string := "'" +:+ s +:+ "'".

Definition super_enable_feature (self : DnsFeature.t) : feature_outcome DnsFeature.t :=
  Yields self.
End Sample.

(** * Properties *)

(** ** Dictionaries *)

Section DictFacts.
Context {V : Type}.
Implicit Types (d : dict V) (k : string) (v : V).

Lemma dict_get_None d k : dict_get d k = None <-> k ∉ dict_keys d.
Proof.
  induction d as [|[k' v'] d IH]; simpl.
  - split; [intros _; apply not_elem_of_nil | done].
  - destruct (String.eqb_spec k k') as [->|Hne].
    + split; [done | intros H; exfalso; apply H; left].
    + rewrite IH, not_elem_of_cons. tauto.
Qed.

Lemma dict_get_Some_elem d k v : dict_get d k = Some v -> (k, v) ∈ d.
Proof.
  induction d as [|[k' v'] d IH]; simpl; [done|].
  destruct (String.eqb_spec k k') as [->|Hne].
  - intros [= ->]. left.
  - intros H. right. auto.
Qed.

Lemma dict_get_is_Some d k : is_Some (dict_get d k) <-> k ∈ dict_keys d.
Proof.
  destruct (dict_get d k) eqn:E.
  - split; [intros _ | eauto].
    destruct (decide (k ∈ dict_keys d)) as [|Hn]; [done|].
    apply dict_get_None in Hn. congruence.
  - split; [intros [? ?]; done|].
    intros Hin. apply dict_get_None in E. done.
Qed.

Lemma dict_contains_true d k : dict_contains k d = true <-> k ∈ dict_keys d.
Proof.
  unfold dict_contains. rewrite <- dict_get_is_Some.
  destruct (dict_get d k); split; eauto; try done.
Qed.

Lemma dict_contains_false d k : dict_contains k d = false <-> k ∉ dict_keys d.
Proof.
  rewrite <- dict_contains_true. destruct (dict_contains k d); naive_solver.
Qed.

Lemma dict_set_fresh d k v : k ∉ dict_keys d -> dict_set d k v = d ++ [(k, v)].
Proof.
  induction d as [|[k' v'] d IH]; simpl; [done|].
  rewrite not_elem_of_cons. intros [Hne Hnin].
  destruct (String.eqb_spec k k'); [done|]. by rewrite IH.
Qed.

Lemma dict_keys_app d d' : dict_keys (d ++ d') = dict_keys d ++ dict_keys d'.
Proof. unfold dict_keys. apply fmap_app. Qed.

Lemma dict_get_elem d k v : dict_wf d -> (k, v) ∈ d -> dict_get d k = Some v.
Proof.
  unfold dict_wf. induction d as [|[k' v'] d IH]; simpl.
  - intros _ H. by apply elem_of_nil in H.
  - rewrite NoDup_cons. intros [Hnin Hnd] Hin.
    apply elem_of_cons in Hin as [[= -> ->]|Hin].
    + by rewrite String.eqb_refl.
    + destruct (String.eqb_spec k k') as [->|Hne]; [|auto].
      exfalso. apply Hnin. unfold dict_keys.
      apply list_elem_of_fmap. by exists (k', v).
Qed.

Lemma dict_set_same d k v : dict_get d k = Some v -> dict_set d k v = d.
Proof.
  induction d as [|[k' v'] d IH]; simpl; [done|].
  destruct (String.eqb_spec k k') as [->|Hne].
  - by intros [= ->].
  - intros H. by rewrite IH.
Qed.

Lemma dict_get_set d k k' v :
  dict_get (dict_set d k v) k' = if String.eqb k' k then Some v else dict_get d k'.
Proof.
  induction d as [|[k0 v0] d IH]; simpl.
  - by destruct (String.eqb k' k).
  - destruct (String.eqb_spec k k0) as [->|Hne]; simpl.
    + by destruct (String.eqb k' k0).
    + destruct (String.eqb_spec k' k0) as [->|Hne'].
      * destruct (String.eqb_spec k0 k); [congruence | done].
      * apply IH.
Qed.
End DictFacts.

(** ** Validation: the subset law *)

Lemma key_set_nil : key_set [] = ∅.
Proof. reflexivity. Qed.

Lemma validate_terraform_keys_spec repr_keys (c d : SoftwareConfig) :
  validate_terraform_keys repr_keys c d =
    if bool_decide (key_set (terraform c) ⊆ key_set (terraform d))
    then Returned tt
    else Raised (ValueError
           ("Manifest Software Terraform keys should be one of "
              +:+ repr_keys (dict_keys (terraform d)) +:+ " ")).
Proof.
  unfold validate_terraform_keys.
  destruct (terraform c) as [|kv t] eqn:E; simpl.
  - rewrite bool_decide_eq_true_2; [done|]. rewrite key_set_nil. set_solver.
  - fold (key_set (terraform d)). by case_bool_decide.
Qed.

Lemma validate_charm_keys_spec repr_keys (c d : SoftwareConfig) :
  validate_charm_keys repr_keys c d =
    if bool_decide (key_set (charms c) ⊆ key_set (charms d))
    then Returned tt
    else Raised (ValueError
           ("Manifest Software charms keys should be one of "
              +:+ repr_keys (dict_keys (charms d)) +:+ " ")).
Proof.
  unfold validate_charm_keys.
  destruct (charms c) as [|kv t] eqn:E; simpl.
  - rewrite bool_decide_eq_true_2; [done|]. rewrite key_set_nil. set_solver.
  - fold (key_set (charms d)). by case_bool_decide.
Qed.

(** C3. [validate_against_default] raises (a [ValueError]) exactly when the
    candidate's charm keys are not a subset of the default's charm keys or its
    terraform keys are not a subset of the default's terraform keys; otherwise,
    empty sections included, it returns; and the [extra] sections of the two
    configurations play no part in the outcome. *)
Theorem validate_against_default_subset_law
    (repr_keys : list string -> string) (c d : SoftwareConfig) :
  ((exists msg, validate_against_default repr_keys c d = Raised (ValueError msg))
     <-> (~ key_set (charms c) ⊆ key_set (charms d)
          \/ ~ key_set (terraform c) ⊆ key_set (terraform d)))
  /\ ((key_set (charms c) ⊆ key_set (charms d)
       /\ key_set (terraform c) ⊆ key_set (terraform d))
      <-> validate_against_default repr_keys c d = Returned tt)
  /\ (forall e e' : dict pyval,
        validate_against_default repr_keys
          (mkSoftwareConfig (juju c) (charms c) (terraform c) e)
          (mkSoftwareConfig (juju d) (charms d) (terraform d) e')
        = validate_against_default repr_keys c d).
Proof.
  split_and!.
  - unfold validate_against_default.
    rewrite validate_terraform_keys_spec, validate_charm_keys_spec.
    do 2 case_bool_decide; simpl; split;
      try (intros [msg [=]]); try tauto; eauto.
  - unfold validate_against_default.
    rewrite validate_terraform_keys_spec, validate_charm_keys_spec.
    do 2 case_bool_decide; simpl; split; try tauto; try done.
  - intros e e'. unfold validate_against_default.
    by rewrite !validate_terraform_keys_spec, !validate_charm_keys_spec.
Qed.

(** ** Assembly of the default configuration *)

Lemma add_entries_spec kind feature (items acc : dict pyval) :
  dict_wf items ->
  (add_entries kind feature items acc = Returned (acc ++ items)
   /\ forall k, k ∈ dict_keys items -> k ∉ dict_keys acc)
  \/ (exists k, k ∈ dict_keys items /\ k ∈ dict_keys acc
        /\ add_entries kind feature items acc
           = Raised (ValueError (override_msg kind feature k))).
Proof.
  unfold dict_wf. revert acc.
  induction items as [|[k v] items IH]; intros acc Hnd; simpl.
  - left. rewrite app_nil_r. split; [done|]. intros k Hk. by apply elem_of_nil in Hk.
  - apply NoDup_cons in Hnd as [Hk Hnd].
    destruct (dict_contains k acc) eqn:E.
    + right. exists k. apply dict_contains_true in E. split_and!; [left | done | done].
    + apply dict_contains_false in E. rewrite (dict_set_fresh _ _ _ E).
      destruct (IH (acc ++ [(k, v)]) Hnd) as [[Hr Hfresh]|(k' & Hin & Hacc & Hr)].
      * left. rewrite Hr, <- app_assoc. split; [done|].
        intros k' Hk'. apply elem_of_cons in Hk' as [->|Hk']; [done|].
        specialize (Hfresh k' Hk'). rewrite dict_keys_app in Hfresh.
        intros Hc. apply Hfresh. apply elem_of_app. by left.
      * right. exists k'. rewrite dict_keys_app in Hacc.
        apply elem_of_app in Hacc as [Hacc|Hacc].
        -- split_and!; [by right | done | done].
        -- simpl in Hacc. apply list_elem_of_singleton in Hacc as ->. done.
Qed.

Lemma feature_keys_cons kind f sw (fs : dict SoftwareConfig) :
  feature_keys kind ((f, sw) :: fs)
  = dict_keys (section_of kind sw) ++ feature_keys kind fs.
Proof. reflexivity. Qed.

Lemma feature_entries_cons kind f sw (fs : dict SoftwareConfig) :
  feature_entries kind ((f, sw) :: fs) = section_of kind sw ++ feature_entries kind fs.
Proof. reflexivity. Qed.

Lemma collides_head base kind f sw fs k :
  k ∈ dict_keys (section_of kind sw) ->
  k ∈ dict_keys (acc_section kind base) ->
  collides base kind ((f, sw) :: fs) f k.
Proof.
  intros Hk Hb. exists [], sw, fs. split_and!; [done | done |].
  apply elem_of_app. by left.
Qed.

Lemma collides_tail base base' kind f0 sw0 fs f k :
  (forall kd, acc_section kd base' = acc_section kd base ++ section_of kd sw0) ->
  collides base' kind fs f k ->
  collides base kind ((f0, sw0) :: fs) f k.
Proof.
  intros Hb (pre & sw & post & -> & Hk & Hin).
  exists ((f0, sw0) :: pre), sw, post. split_and!; [done | done |].
  rewrite Hb, dict_keys_app, <- app_assoc in Hin. by rewrite feature_keys_cons.
Qed.

Lemma collides_inv base base' kind f0 sw0 fs f k :
  (forall kd, acc_section kd base' = acc_section kd base ++ section_of kd sw0) ->
  collides base kind ((f0, sw0) :: fs) f k ->
  (k ∈ dict_keys (section_of kind sw0) /\ k ∈ dict_keys (acc_section kind base))
  \/ collides base' kind fs f k.
Proof.
  intros Hb (pre & sw & post & Heq & Hk & Hin).
  destruct pre as [|[f1 sw1] pre]; simpl in Heq.
  - injection Heq as <- <- <-. left. split; [done|].
    unfold feature_keys in Hin. simpl in Hin. by rewrite app_nil_r in Hin.
  - injection Heq as <- <- ->. right.
    exists pre, sw, post. split_and!; [done | done |].
    rewrite Hb, dict_keys_app, <- app_assoc. by rewrite feature_keys_cons in Hin.
Qed.

Lemma add_features_spec (fs : dict SoftwareConfig) (acc : accum) :
  fragments_wf fs ->
  ((forall kind f k, ~ collides acc kind fs f k)
   /\ add_features fs acc
      = Returned (mkAccum (acc_charms acc ++ feature_entries KCharms fs)
                          (acc_terraform acc ++ feature_entries KTerraform fs)
                          (acc_extra acc ++ feature_entries KExtra fs)))
  \/ (exists kind f k,
        collides acc kind fs f k
        /\ add_features fs acc = Raised (ValueError (override_msg kind f k))).
Proof.
  unfold fragments_wf. revert acc.
  induction fs as [|[f0 sw0] fs IH]; intros acc Hwf.
  - left. split.
    + intros kind f k (pre & sw & post & Heq & _). by destruct pre.
    + simpl. unfold feature_entries. simpl. rewrite !app_nil_r. by destruct acc.
  - apply Forall_cons in Hwf as [(Hc & Ht & He) Hwf]. simpl in Hc, Ht, He.
    simpl.
    destruct (add_entries_spec KCharms f0 (charms sw0) (acc_charms acc) Hc)
      as [[-> Hfc]|(k & Hk & Hacc & ->)]; simpl;
      [|right; exists KCharms, f0, k; split; [by apply collides_head | done]].
    destruct (add_entries_spec KTerraform f0 (terraform sw0) (acc_terraform acc) Ht)
      as [[-> Hft]|(k & Hk & Hacc & ->)]; simpl;
      [|right; exists KTerraform, f0, k; split; [by apply collides_head | done]].
    destruct (add_entries_spec KExtra f0 (extra sw0) (acc_extra acc) He)
      as [[-> Hfe]|(k & Hk & Hacc & ->)]; simpl;
      [|right; exists KExtra, f0, k; split; [by apply collides_head | done]].
    set (acc' := mkAccum (acc_charms acc ++ charms sw0)
                         (acc_terraform acc ++ terraform sw0)
                         (acc_extra acc ++ extra sw0)).
    assert (Hb : forall kd, acc_section kd acc' = acc_section kd acc ++ section_of kd sw0)
      by (by intros []).
    destruct (IH acc' Hwf) as [[Hno ->]|(kind & f & k & Hcol & ->)].
    + left. split.
      * intros kind f k Hcol.
        destruct (collides_inv _ _ _ _ _ _ _ _ Hb Hcol) as [[Hk Hacc]|Hcol'].
        -- destruct kind; simpl in *; [by eapply Hfc | by eapply Hft | by eapply Hfe].
        -- by eapply Hno.
      * unfold acc'. simpl. by rewrite <- !app_assoc.
    + right. exists kind, f, k. split; [|done]. by eapply collides_tail.
Qed.

(** C2. Assembling the default configuration from well-formed fragments: if
    some fragment contributes a charm, plan or extra key that the accumulated
    configuration (core defaults and earlier fragments) already has, the
    assembly raises a [ValueError] whose message names such a feature and
    key; if no contributed key is present already, it returns the core
    defaults followed by the entries of every fragment, section by section. *)
Theorem get_default_collision_law
    (MANIFEST_CHARM_VERSIONS TERRAFORM_DIR_NAMES : dict string)
    (snap_root : list string) (fs : dict SoftwareConfig) :
  fragments_wf fs ->
  let base := mkAccum (core_charms MANIFEST_CHARM_VERSIONS)
                      (core_terraform TERRAFORM_DIR_NAMES snap_root) [] in
  let assembled :=
    get_default MANIFEST_CHARM_VERSIONS TERRAFORM_DIR_NAMES snap_root (Some fs) in
  ((exists kind f k, collides base kind fs f k) ->
   exists kind f k,
     collides base kind fs f k
     /\ assembled = Raised (ValueError (override_msg kind f k)))
  /\ (~ (exists kind f k, collides base kind fs f k) ->
      assembled
      = Returned
          (mkSoftwareConfig JujuManifest_default
             (core_charms MANIFEST_CHARM_VERSIONS ++ feature_entries KCharms fs)
             (core_terraform TERRAFORM_DIR_NAMES snap_root
                ++ feature_entries KTerraform fs)
             (feature_entries KExtra fs))).
Proof.
  intros Hwf base assembled. subst assembled. unfold get_default. fold base.
  destruct (add_features_spec fs base Hwf) as [[Hno ->]|(kind & f & k & Hcol & ->)];
    simpl.
  - split.
    + intros (kind & f & k & Hcol). by destruct (Hno kind f k).
    + done.
  - split.
    + intros _. by exists kind, f, k.
    + intros Hno. destruct Hno. by exists kind, f, k.
Qed.

(** ** Merging: the key-by-key law *)

(** Structural induction on values, through lists and dictionaries. *)
Lemma pyval_nested_ind (P : pyval -> Prop) :
  P PNone ->
  (forall b, P (PBool b)) ->
  (forall n, P (PInt n)) ->
  (forall s, P (PStr s)) ->
  (forall p, P (PPath p)) ->
  (forall xs, Forall P xs -> P (PList xs)) ->
  (forall items, Forall (fun kv => P (snd kv)) items -> P (PDict items)) ->
  (forall cls attrs, Forall (fun kv => P (snd kv)) attrs -> P (PObj cls attrs)) ->
  forall v, P v.
Proof.
  intros HN HB HI HS HP HL HD HO.
  fix IH 1. intros [| b | n | s | p | xs | items | cls attrs].
  - exact HN.
  - apply HB.
  - apply HI.
  - apply HS.
  - apply HP.
  - apply HL. induction xs as [|x xs IHxs]; constructor; [apply IH | exact IHxs].
  - apply HD. induction items as [|[k x] items IHi]; constructor;
      [apply IH | exact IHi].
  - apply HO. induction attrs as [|[k x] attrs IHa]; constructor;
      [apply IH | exact IHa].
Qed.

Lemma merge_value_spec (dv v : pyval) :
  merge_value dv v =
    match dv, v with
    | PDict d, PDict u => PDict (merge_dict d u)
    | _, _ => v
    end.
Proof. destruct v, dv; reflexivity. Qed.

Lemma merged_entry_merge_value b o :
  merged_entry b o = merged_entry_with merge_value b o.
Proof.
  destruct b as [x|], o as [y|]; simpl; try done.
  - rewrite merge_value_spec. by destruct x, y.
  - by destruct x.
Qed.

Lemma merge_dict_with_get mv (d u : dict pyval) k :
  dict_wf u ->
  dict_get (merge_dict_with mv d u) k
  = merged_entry_with mv (dict_get d k) (dict_get u k).
Proof.
  unfold dict_wf, merge_dict_with. revert d.
  induction u as [|[k0 v0] u IH]; intros d Hnd.
  - simpl. by destruct (dict_get d k).
  - change (NoDup (k0 :: dict_keys u)) in Hnd.
    apply NoDup_cons in Hnd as [Hk0 Hnd].
    cbn [fold_left fst snd]. rewrite (IH _ Hnd). cbn [dict_get].
    apply dict_get_None in Hk0.
    destruct (String.eqb_spec k k0) as [->|Hne].
    + rewrite Hk0.
      destruct (dict_get d k0) as [dv|]; rewrite dict_get_set, String.eqb_refl; done.
    + assert (String.eqb k k0 = false) as Hf by (by apply String.eqb_neq).
      destruct (dict_get d k0) as [dv|]; rewrite dict_get_set, Hf; done.
Qed.

Lemma merge_dict_get (d u : dict pyval) k :
  dict_wf u ->
  dict_get (merge_dict d u) k = merged_entry (dict_get d k) (dict_get u k).
Proof.
  intros Hwf. rewrite merged_entry_merge_value. by apply merge_dict_with_get.
Qed.

Lemma str_items_PStr (l : list string) : str_items (map PStr l) = Some l.
Proof. induction l as [|s l IH]; simpl; [done|]. by rewrite IH. Qed.

Lemma merge_juju (a b : JujuManifest) :
  JujuManifest_init (merge_dict (juju_model_dump a) (juju_model_dump b)) = Returned b.
Proof.
  unfold JujuManifest_init, juju_field, merge_dict, merge_dict_with, juju_model_dump.
  simpl. rewrite !str_items_PStr. simpl. by destruct b.
Qed.

(** C4. For well-formed [override], [merge base override] returns a
    configuration in which, section by section, a key of [base] only holds
    [base]'s value, a key of [override] only holds [override]'s value, a key
    of both holds the recursive merge when both values are mappings and
    [override]'s value otherwise; the recursive merge obeys the same law at
    every level; the two list-valued [juju] fields, present on both sides,
    are [override]'s. *)
Theorem merge_key_law (base override : SoftwareConfig) :
  software_wf override ->
  exists r,
    merge base override = Returned r
    /\ juju r = juju override
    /\ (forall kind k,
          dict_get (section_of kind r) k
          = merged_entry (dict_get (section_of kind base) k)
                         (dict_get (section_of kind override) k))
    /\ (forall (b o : dict pyval) k,
          dict_wf o ->
          dict_get (merge_dict b o) k = merged_entry (dict_get b k) (dict_get o k)).
Proof.
  intros (Hc & Ht & He). unfold merge. rewrite merge_juju. simpl.
  eexists. split; [reflexivity|]. split_and!.
  - done.
  - intros [] k; simpl; unfold deepcopy; by apply merge_dict_get.
  - intros b o k Ho. by apply merge_dict_get.
Qed.

(** ** Merging: idempotence *)

Lemma merge_dict_with_self mv (d : dict pyval) :
  dict_wf d ->
  Forall (fun kv => mv (snd kv) (snd kv) = snd kv) d ->
  merge_dict_with mv d d = d.
Proof.
  intros Hwf Hall. unfold merge_dict_with.
  assert (Hgen : forall u, (forall kv, kv ∈ u -> kv ∈ d) ->
            fold_left
              (fun acc kv =>
                 match dict_get acc (fst kv) with
                 | Some dv => dict_set acc (fst kv) (mv dv (snd kv))
                 | None => dict_set acc (fst kv) (snd kv)
                 end) u d = d).
  { induction u as [|[k v] u IH]; intros Hsub; simpl; [done|].
    assert (Hin : (k, v) ∈ d) by (apply Hsub; left).
    rewrite (dict_get_elem _ _ _ Hwf Hin).
    rewrite Forall_forall in Hall. specialize (Hall _ Hin). simpl in Hall.
    rewrite Hall, dict_set_same by (by apply dict_get_elem).
    apply IH. intros kv Hkv. apply Hsub. by right. }
  by apply Hgen.
Qed.

Lemma wf_items (items : dict pyval) :
  fold_right (fun kv P => pyval_wf (snd kv) /\ P) True items
  <-> Forall (fun kv => pyval_wf (snd kv)) items.
Proof.
  induction items as [|kv items IH]; simpl.
  - split; [constructor | done].
  - rewrite Forall_cons, IH. done.
Qed.

Lemma merge_value_self (v : pyval) : pyval_wf v -> merge_value v v = v.
Proof.
  induction v as [| | | | | xs _ | items IH | cls attrs _] using pyval_nested_ind;
    try done.
  intros [Hnd Hall]. rewrite merge_value_spec. f_equal.
  apply merge_dict_with_self; [done|].
  apply wf_items in Hall.
  rewrite Forall_forall in IH, Hall. apply Forall_forall.
  intros kv Hkv. apply IH; auto.
Qed.

Lemma merge_dict_self (d : dict pyval) : dict_deep_wf d -> merge_dict d d = d.
Proof.
  intros Hwf. pose proof (merge_value_self (PDict d) Hwf) as H.
  rewrite merge_value_spec in H. congruence.
Qed.

Lemma merge_self (x : SoftwareConfig) : software_deep_wf x -> merge x x = Returned x.
Proof.
  intros (Hc & Ht & He). unfold merge. rewrite merge_juju. simpl.
  unfold deepcopy. rewrite !merge_dict_self by done. by destruct x.
Qed.

(** C7. Merging a configuration with itself gives it back: for a
    [SoftwareConfig] and for a [Manifest] whose dictionaries are well formed
    at every depth, [merge x x] returns [x]. *)
Theorem merge_idempotent :
  (forall x : SoftwareConfig, software_deep_wf x -> merge x x = Returned x)
  /\ (forall m : Manifest, manifest_deep_wf m -> Manifest_merge m m = Returned m).
Proof.
  split; [apply merge_self|].
  intros m [Hd Hs]. unfold Manifest_merge. rewrite (merge_self _ Hs). simpl.
  unfold deepcopy. rewrite merge_dict_self by done. by destruct m.
Qed.

(** ** The manifest-write step *)

Section StepFacts.
Variable safe_load : string -> outcome pyval.
Variable safe_dump : pyval -> outcome string.
Variable risk_str : RiskLevel -> string.
Variable assign_id : list (dict pyval) -> pyval.
Variable snap_root : list string.
Variable infer_risk : RiskLevel.
Variable read_file : list string -> outcome string.

Local Abbreviation load := (load_manifests safe_load risk_str snap_root infer_risk read_file).
Local Abbreviation skip := (is_skip safe_load risk_str snap_root infer_risk read_file).
Local Abbreviation embedded_path := (embedded_manifest_path risk_str snap_root infer_risk).

Lemma get_latest_manifest_available db item :
  get_latest_manifest db = Returned item -> available db = true.
Proof. unfold get_latest_manifest. by destruct (available db). Qed.

Lemma dict_get_truthy {V} (d : dict V) k v : dict_get d k = Some v -> dict_truthy d = true.
Proof. by destruct d. Qed.

Lemma load_manifests_trace self :
  exists tr, snd (load self) = EvReadFile embedded_path :: tr.
Proof.
  unfold load_manifests.
  destruct (x <- read_file _ ;; safe_load x) as [emb|e]; [|by eexists].
  destruct (manifest_file self) as [file|].
  - destruct (x <- read_file file ;; safe_load x); by eexists.
  - destruct (clear self); by eexists.
Qed.

(** C1. Once the first phase of [is_skip] has computed the step [self1]:
    with a desired content, a latest stored manifest whose data parses to an
    equal value makes [is_skip] return [SKIPPED] and a different one makes it
    return [COMPLETED]; with a desired content and no stored manifest it
    returns [COMPLETED]; with no explicit content, no stored manifest and a
    tier other than stable, a non-empty embedded default becomes the desired
    content and it returns [COMPLETED]. [run] then serializes the desired
    content and, on a store that accepts the write, appends it, returns
    [COMPLETED] with the identifier the store assigned, and the new item is
    the latest one. *)
Theorem is_skip_content_equality
    (db : ClusterDB) (self self1 : AddManifestStep) (embedded : pyval)
    (tr : list event) :
  load self = (Returned (embedded, self1), tr) ->
  (forall item data stored,
      is_None (manifest_content self1) = false ->
      get_latest_manifest db = Returned item ->
      dict_get item "data" = Some (PStr data) ->
      safe_load data = Returned stored ->
      skip db self
      = (Returned (mkResult
                     (if py_eqb stored (manifest_content self1)
                      then SKIPPED else COMPLETED) None),
         self1, tr ++ [EvGetLatestManifest]))
  /\ (forall m,
        is_None (manifest_content self1) = false ->
        get_latest_manifest db = Raised (ManifestItemNotFoundException m) ->
        skip db self
        = (Returned (mkResult COMPLETED None), self1, tr ++ [EvGetLatestManifest]))
  /\ (forall m,
        is_None (manifest_content self1) = true ->
        get_latest_manifest db = Raised (ManifestItemNotFoundException m) ->
        risk_is_stable infer_risk = false ->
        is_None embedded = false ->
        skip db self
        = (Returned (mkResult COMPLETED None),
           set_manifest_content self1 embedded, tr ++ [EvGetLatestManifest]))
  /\ (forall (step : AddManifestStep) (db2 : ClusterDB) data,
        available db2 = true ->
        safe_dump (manifest_content step) = Returned data ->
        let id := assign_id (manifest_items db2) in
        let item := [("manifestid", id); ("data", PStr data)] in
        let db3 := mkClusterDB true (manifest_items db2 ++ [item]) in
        run safe_dump assign_id db2 step
        = (Returned (mkResult COMPLETED (Some id)), db3, [EvAddManifest data])
        /\ get_latest_manifest db3 = Returned item).
Proof.
  intros Hload. split_and!.
  - intros item data stored Hc Hl Hd Hs. unfold is_skip. rewrite Hload, Hl.
    unfold compare_with_latest. rewrite Hc, (dict_get_truthy _ _ _ Hd), Hd.
    simpl. rewrite Hs. simpl. by destruct (py_eqb _ _).
  - intros m Hc Hl. unfold is_skip. rewrite Hload, Hl, Hc.
    unfold compare_with_latest. by rewrite Hc.
  - intros m Hc Hl Hr He. unfold is_skip. rewrite Hload, Hl, Hc, Hr.
    unfold compare_with_latest. simpl. by rewrite He.
  - intros step db2 data Ha Hd id item db3. split.
    + unfold run, add_manifest. by rewrite Hd, Ha.
    + unfold get_latest_manifest. simpl. by rewrite last_snoc.
Qed.

(** C5 as the code has it. With no manifest file and no clear request, an
    embedded manifest for the tier that loads, a store without a manifest and
    the stable tier: [is_skip] returns [SKIPPED], the step holds no content
    and the only accesses are the read of the embedded file and the query of
    the store; nothing is written. *)
Theorem is_skip_stable_no_seed (db : ClusterDB) (bytes : string) (embedded : pyval) m :
  infer_risk = STABLE ->
  read_file embedded_path = Returned bytes ->
  safe_load bytes = Returned embedded ->
  get_latest_manifest db = Raised (ManifestItemNotFoundException m) ->
  skip db (AddManifestStep_init None false)
  = (Returned (mkResult SKIPPED None), AddManifestStep_init None false,
     [EvReadFile embedded_path; EvGetLatestManifest]).
Proof.
  intros Hr Hf Hp Hl. unfold is_skip, load_manifests. simpl.
  rewrite Hf. simpl. rewrite Hp, Hl. simpl. by rewrite Hr.
Qed.

(** C10. Every call of [is_skip] starts by reading the embedded manifest of
    the inferred tier; if that file cannot be read ([IOError]) or is not
    valid YAML ([YAMLError]), the call returns [FAILED] with the error's
    message whatever the manifest file, the clear request and the store, and
    the read of the embedded file is its only access. *)
Theorem is_skip_embedded_first (db : ClusterDB) (self : AddManifestStep) :
  (exists tr, snd (skip db self) = EvReadFile embedded_path :: tr)
  /\ (forall msg,
        read_file embedded_path = Raised (IOError msg) ->
        skip db self
        = (Returned (mkResult FAILED (Some (PStr msg))), self,
           [EvReadFile embedded_path]))
  /\ (forall bytes msg,
        read_file embedded_path = Returned bytes ->
        safe_load bytes = Raised (YAMLError msg) ->
        skip db self
        = (Returned (mkResult FAILED (Some (PStr msg))), self,
           [EvReadFile embedded_path])).
Proof.
  split_and!.
  - destruct (load_manifests_trace self) as [tr Htr]. unfold is_skip.
    destruct (load self) as [[[emb self1]|e] tr0]; simpl in Htr; subst tr0.
    + destruct (get_latest_manifest db) as [item|[]]; simpl; try by eexists.
      destruct (is_None (manifest_content self1)); [|by eexists].
      destruct (risk_is_stable infer_risk); by eexists.
    + destruct (is_load_error e); by eexists.
  - intros msg Hf. unfold is_skip, load_manifests. by rewrite Hf.
  - intros bytes msg Hf Hp. unfold is_skip, load_manifests. rewrite Hf. simpl.
    by rewrite Hp.
Qed.

(** [run] itself never raises. *)
Lemma run_never_raises (db : ClusterDB) (self : AddManifestStep) :
  exists r, fst (fst (run safe_dump assign_id db self)) = Returned r.
Proof.
  unfold run. destruct (safe_dump _); [|by eexists].
  destruct (add_manifest _ _ _) as [[id db']|e]; by eexists.
Qed.

(** The parse of the stored manifest is outside both [try] blocks of
    [is_skip]: its failure leaves the call as an exception. *)
Lemma is_skip_stored_parse_error
    (db : ClusterDB) (self self1 : AddManifestStep) (embedded : pyval)
    (tr : list event) item data e :
  load self = (Returned (embedded, self1), tr) ->
  is_None (manifest_content self1) = false ->
  get_latest_manifest db = Returned item ->
  dict_get item "data" = Some (PStr data) ->
  safe_load data = Raised e ->
  skip db self = (Raised e, self1, tr ++ [EvGetLatestManifest]).
Proof.
  intros Hload Hc Hl Hd Hs. unfold is_skip. rewrite Hload, Hl.
  unfold compare_with_latest. rewrite Hc, (dict_get_truthy _ _ _ Hd), Hd.
  simpl. by rewrite Hs.
Qed.
End StepFacts.

(** C6, where the code departs from it. The user's manifest loads and the
    store is reachable, but the latest stored manifest is not valid YAML:
    [is_skip] does not return a [FAILED] result, the [YAMLError] of the
    parse leaves the call. *)
Theorem is_skip_raises_on_stored_manifest :
  is_skip Example.safe_load Example.risk_str Example.snap_root STABLE
    Example.read_file
    (mkClusterDB true [Example.stored "software: {"])
    (AddManifestStep_init (Some ["home"; "ubuntu"; "manifest.yml"]) false)
  = (Raised (YAMLError "could not find expected ':'"),
     mkAddManifestStep (Some ["home"; "ubuntu"; "manifest.yml"]) false
       (PDict [("software", PDict [])]),
     [EvReadFile (Example.snap_root ++ ["etc"; "manifests"; "stable.yml"]);
      EvReadFile ["home"; "ubuntu"; "manifest.yml"];
      EvGetLatestManifest]).
Proof. vm_compute. reflexivity. Qed.

(** C5 fails as stated: on the stable tier, with no manifest file, no clear
    request and an empty store, a snap whose embedded manifest cannot be read
    makes [is_skip] return [FAILED], not [SKIPPED]. *)
Lemma is_skip_stable_no_seed_counterexample :
  get_latest_manifest (mkClusterDB true [])
  = Raised (ManifestItemNotFoundException "ManifestItem not found")
  /\ is_skip Example.safe_load Example.risk_str Example.snap_root STABLE
       Example.read_file_broken
       (mkClusterDB true [])
       (AddManifestStep_init None false)
     = (Returned (mkResult FAILED (Some (PStr "[Errno 2] No such file or directory"))),
        AddManifestStep_init None false,
        [EvReadFile (Example.snap_root ++ ["etc"; "manifests"; "stable.yml"])]).
Proof. split; vm_compute; reflexivity. Qed.

(** ** The caas section of a manifest *)

Section CaasFacts.
Variable CaasConfig_init : dict pyval -> outcome pyval.
Variable py_repr : pyval -> string.

Local Abbreviation add_section := (add_manifest_section CaasConfig_init py_repr).

End CaasFacts.

(** ** Merging on the heap: the operands are left alone *)

Section HeapFacts.
Import Heap.

Lemma hoare_ret {A} (I : heap -> Prop) (a : A) (Q : A -> Prop) :
  Q a -> hoare I (ret a) Q.
Proof. intros Hq h HI. split; [done|]. by intros a' [= <-]. Qed.

Lemma hoare_raise {A} (I : heap -> Prop) e (Q : A -> Prop) :
  hoare I (raise e) Q.
Proof. intros h HI. split; [done|]. by intros a' [=]. Qed.

Lemma hoare_bind {A B} (I : heap -> Prop) (c : M A) (k : A -> M B)
    (Q : A -> Prop) (R : B -> Prop) :
  hoare I c Q -> (forall a, Q a -> hoare I (k a) R) -> hoare I (and_then c k) R.
Proof.
  intros Hc Hk h HI. unfold and_then. destruct (Hc h HI) as [HI' Hq].
  destruct (c h) as [[a|e] h']; simpl in *.
  - apply Hk; auto.
  - split; [done|]. by intros b [=].
Qed.

Lemma hoare_weaken {A} (I : heap -> Prop) (c : M A) (Q Q' : A -> Prop) :
  hoare I c Q -> (forall a, Q a -> Q' a) -> hoare I c Q'.
Proof. intros Hc Hw h HI. destruct (Hc h HI) as [HI' Hq]. split; auto. Qed.

Lemma hoare_cond {A} (I : heap -> Prop) (b : heap -> bool) (c1 c2 : M A)
    (Q : A -> Prop) :
  hoare I c1 Q -> hoare I c2 Q -> hoare I (fun h => if b h then c1 h else c2 h) Q.
Proof. intros H1 H2 h HI. destruct (b h); auto. Qed.

Lemma reach_atom h a l : ~ reach h (RImm a) l.
Proof. intros H. remember (RImm a) as r eqn:E. induction H; [done | auto]. Qed.

Lemma reach_closed n h r l :
  closed_above n h -> fresh n r -> reach h r l -> n <= l.
Proof.
  intros Hcl Hf H. induction H as [l | r l l' c _ IH Hc Hin]; [done|].
  eapply Hcl; [apply (IH Hf) | done | done].
Qed.

Lemma shift_ref_locs n r l : l ∈ ref_locs (shift_ref n r) -> n <= l.
Proof.
  destruct r as [a|l0]; simpl; [by intros ?%elem_of_nil|].
  intros ->%list_elem_of_singleton. lia.
Qed.

Lemma shift_cell_fresh n c : cell_fresh n (shift_cell n c).
Proof.
  intros l. unfold cell_locs. rewrite list_elem_of_bind.
  intros (r & Hl & Hr).
  assert (exists r0, r = shift_ref n r0) as [r0 ->].
  { destruct c as [xs|items|cls attrs]; simpl in Hr.
    - apply list_elem_of_fmap in Hr as (r0 & -> & _). by exists r0.
    - rewrite <- list_fmap_compose in Hr.
      apply list_elem_of_fmap in Hr as (kv & -> & _). by exists (snd kv).
    - rewrite <- list_fmap_compose in Hr.
      apply list_elem_of_fmap in Hr as (kv & -> & _). by exists (snd kv). }
  by eapply shift_ref_locs.
Qed.

Lemma cell_fresh_weaken n m c : n <= m -> cell_fresh m c -> cell_fresh n c.
Proof. intros Hle Hc l Hl. specialize (Hc l Hl). lia. Qed.

Section Isolated.
Variable h0 : heap.

Lemma isolated_refl : isolated h0 h0.
Proof.
  split_and!; [done | by intros l c |].
  intros l c Hle Hl. apply lookup_lt_Some in Hl. lia.
Qed.

Lemma isolated_extend h cs :
  isolated h0 h -> Forall (cell_fresh (length h0)) cs -> isolated h0 (h ++ cs).
Proof.
  intros (Hlen & Hpre & Hcl) Hcs. split_and!.
  - rewrite length_app. lia.
  - intros l c Hl. apply lookup_app_l_Some. by apply Hpre.
  - intros l c Hle Hl. apply lookup_app_Some in Hl as [Hl|[_ Hl]].
    + by eapply Hcl.
    + rewrite Forall_forall in Hcs. apply Hcs. by eapply list_elem_of_lookup_2.
Qed.

Lemma isolated_read r : hoare (isolated h0) (read r) (fun _ => True).
Proof.
  intros h HI. unfold read. destruct r as [a|l]; [by split|].
  destruct (h !! l); by split.
Qed.

Lemma isolated_read_fresh r :
  fresh (length h0) r -> hoare (isolated h0) (read r) (cell_fresh (length h0)).
Proof.
  intros Hf h HI. unfold read. destruct r as [a|l]; [split; [done | by intros ? [=]]|].
  destruct (h !! l) as [c|] eqn:E; simpl; (split; [done|]); [|by intros ? [=]].
  intros c' [= <-]. destruct HI as (_ & _ & Hcl). by eapply Hcl.
Qed.

Lemma isolated_alloc c :
  cell_fresh (length h0) c -> hoare (isolated h0) (alloc c) (fresh (length h0)).
Proof.
  intros Hc h HI. unfold alloc. simpl. split.
  - apply isolated_extend; [done|]. by constructor.
  - intros r [= <-]. simpl. by destruct HI as [? _].
Qed.

Lemma isolated_deepcopy r : hoare (isolated h0) (deepcopy r) (fresh (length h0)).
Proof.
  intros h HI. unfold deepcopy. destruct r as [a|l]; simpl.
  - split; [done|]. by intros ? [= <-].
  - split.
    + apply isolated_extend; [done|]. apply Forall_fmap, Forall_forall.
      intros c _. simpl. eapply cell_fresh_weaken; [|apply shift_cell_fresh].
      by destruct HI as [? _].
    + intros ? [= <-]. simpl. destruct HI as [? _]. lia.
Qed.

Lemma isolated_local f d u :
  local f -> fresh (length h0) d -> fresh (length h0) u ->
  hoare (isolated h0) (f d u) (fresh (length h0)).
Proof.
  intros Hloc Hd Hu h (Hlen & Hpre & Hcl).
  destruct (Hloc d u h) as (Hgrow & Hkeep & Hnew & Hres).
  assert (Hin : forall l, within h d u l -> length h0 <= l).
  { intros l [Hl|[Hl|Hl]];
      [lia | exact (reach_closed _ _ _ _ Hcl Hd Hl) | exact (reach_closed _ _ _ _ Hcl Hu Hl)]. }
  split; [split_and!|].
  - lia.
  - intros l c Hl. apply Hkeep; [by apply Hpre|].
    intros Hw%Hin. apply lookup_lt_Some in Hl. lia.
  - intros l c Hle Hl. destruct (Hnew l c Hl) as [Hold|Hlocs].
    + by eapply Hcl.
    + intros l' Hl'. by apply Hin, Hlocs.
  - intros [a|l] Hr; simpl; [done|]. by apply Hin, Hres.
Qed.

Lemma cell_fresh_refs n c : Forall (fresh n) (cell_refs c) -> cell_fresh n c.
Proof.
  intros Hall l. unfold cell_locs. rewrite list_elem_of_bind.
  intros (r & Hl & Hr). rewrite Forall_forall in Hall. specialize (Hall r Hr).
  destruct r as [a|l0]; simpl in *; [by apply elem_of_nil in Hl|].
  by apply list_elem_of_singleton in Hl as ->.
Qed.

Lemma str_list_fresh n (l : list string) :
  cell_fresh n (CList ((fun s => RImm (AStr s)) <$> l)).
Proof.
  apply cell_fresh_refs. simpl. apply Forall_fmap, Forall_forall. by intros s _.
Qed.

Lemma isolated_getattr obj name :
  hoare (isolated h0) (getattr obj name) (fun _ => True).
Proof.
  unfold getattr. eapply hoare_bind; [apply isolated_read|]. intros c _.
  destruct c as [xs|items|cls attrs]; try apply hoare_raise.
  destruct (dict_get attrs name); [by apply hoare_ret | apply hoare_raise].
Qed.

Lemma isolated_copy_str_list r :
  hoare (isolated h0) (copy_str_list r) (fresh (length h0)).
Proof.
  unfold copy_str_list. eapply hoare_bind; [apply isolated_read|]. intros c _.
  destruct c as [xs|items|cls attrs]; try apply hoare_raise.
  destruct (str_atoms xs); [|apply hoare_raise].
  apply isolated_alloc, str_list_fresh.
Qed.

Lemma isolated_juju_model_dump j :
  hoare (isolated h0) (juju_model_dump j) (fresh (length h0)).
Proof.
  unfold juju_model_dump.
  eapply hoare_bind; [apply isolated_getattr|]. intros b _.
  eapply hoare_bind; [apply isolated_copy_str_list|]. intros b' Hb.
  eapply hoare_bind; [apply isolated_getattr|]. intros s _.
  eapply hoare_bind; [apply isolated_copy_str_list|]. intros s' Hs.
  apply isolated_alloc, cell_fresh_refs. simpl. by repeat constructor.
Qed.

Lemma isolated_juju_field items name :
  hoare (isolated h0) (juju_field items name) (fresh (length h0)).
Proof.
  unfold juju_field. destruct (dict_get items name).
  - apply isolated_copy_str_list.
  - apply isolated_alloc, cell_fresh_refs. constructor.
Qed.

Lemma isolated_JujuManifest_init kw :
  hoare (isolated h0) (JujuManifest_init kw) (fresh (length h0)).
Proof.
  unfold JujuManifest_init. eapply hoare_bind; [apply isolated_read|]. intros c _.
  destruct c as [xs|items|cls attrs]; try apply hoare_raise.
  eapply hoare_bind; [apply isolated_juju_field|]. intros b Hb.
  eapply hoare_bind; [apply isolated_juju_field|]. intros s Hs.
  apply isolated_alloc, cell_fresh_refs. simpl. by repeat constructor.
Qed.

Lemma isolated_SoftwareConfig_init juju charms terraform extra :
  fresh (length h0) juju -> fresh (length h0) charms ->
  fresh (length h0) terraform -> fresh (length h0) extra ->
  hoare (isolated h0) (SoftwareConfig_init juju charms terraform extra)
        (fresh (length h0)).
Proof.
  intros Hj Hc Ht He. unfold SoftwareConfig_init.
  eapply hoare_bind; [by apply isolated_read_fresh|]. intros c Hfresh.
  destruct c as [xs|items|cls attrs]; try apply hoare_raise.
  eapply hoare_bind; [by apply isolated_alloc|]. intros e Hef.
  apply isolated_alloc, cell_fresh_refs. simpl. by repeat constructor.
Qed.

Lemma isolated_Manifest_init deployment software :
  fresh (length h0) deployment -> fresh (length h0) software ->
  hoare (isolated h0) (Manifest_init deployment software) (fresh (length h0)).
Proof.
  intros Hd Hs. apply isolated_alloc, cell_fresh_refs. simpl. by repeat constructor.
Qed.

Section WithMergeDict.
Variable merge_dict : ref -> ref -> M ref.
Hypothesis merge_dict_local : local merge_dict.

Lemma isolated_getattr_known obj name r0 :
  attr_of h0 obj name = Some r0 ->
  hoare (isolated h0) (getattr obj name) (fun r => r = r0).
Proof.
  intros Hattr h HI. unfold attr_of in Hattr.
  destruct obj as [a|l]; [done|].
  destruct (h0 !! l) as [[xs|items|cls attrs]|] eqn:E; try done.
  destruct HI as (Hlen & Hpre & Hcl).
  unfold getattr, and_then, read. rewrite (Hpre _ _ E), Hattr. simpl.
  split; [done|]. by intros r [= <-].
Qed.

Lemma isolated_extra obj :
  extra_set h0 obj -> hoare (isolated h0) (extra obj) (fun _ => True).
Proof.
  intros (e & Hattr & Hne). unfold extra.
  eapply hoare_bind; [by apply isolated_getattr_known|]. intros r ->.
  destruct e as [[]|l]; try done; by apply hoare_ret.
Qed.

Lemma isolated_merge self other :
  extra_set h0 self -> extra_set h0 other ->
  hoare (isolated h0) (merge merge_dict self other) (fresh (length h0)).
Proof.
  intros Hself Hother. unfold merge.
  eapply hoare_bind; [apply isolated_getattr|]. intros sj _.
  eapply hoare_bind; [apply isolated_juju_model_dump|]. intros sd Hsd.
  eapply hoare_bind; [apply isolated_getattr|]. intros oj _.
  eapply hoare_bind; [apply isolated_juju_model_dump|]. intros od Hod.
  eapply hoare_bind; [by apply isolated_local|]. intros jd Hjd.
  eapply hoare_bind; [apply isolated_JujuManifest_init|]. intros juju Hjuju.
  eapply hoare_bind; [apply isolated_getattr|]. intros sc _.
  eapply hoare_bind; [apply isolated_deepcopy|]. intros sc' Hsc.
  eapply hoare_bind; [apply isolated_getattr|]. intros oc _.
  eapply hoare_bind; [apply isolated_deepcopy|]. intros oc' Hoc.
  eapply hoare_bind; [by apply isolated_local|]. intros charms Hcharms.
  eapply hoare_bind; [apply isolated_getattr|]. intros st _.
  eapply hoare_bind; [apply isolated_deepcopy|]. intros st' Hst.
  eapply hoare_bind; [apply isolated_getattr|]. intros ot _.
  eapply hoare_bind; [apply isolated_deepcopy|]. intros ot' Hot.
  eapply hoare_bind; [by apply isolated_local|]. intros terraform Hterraform.
  eapply hoare_bind; [by apply isolated_extra|]. intros se _.
  eapply hoare_bind; [apply isolated_deepcopy|]. intros se' Hse.
  eapply hoare_bind; [by apply isolated_extra|]. intros oe _.
  eapply hoare_bind; [apply isolated_deepcopy|]. intros oe' Hoe.
  eapply hoare_bind; [by apply isolated_local|]. intros extra Hextra.
  by apply isolated_SoftwareConfig_init.
Qed.

Lemma isolated_Manifest_merge self other :
  software_extra_set h0 self -> software_extra_set h0 other ->
  hoare (isolated h0) (Manifest_merge merge_dict self other) (fresh (length h0)).
Proof.
  intros (ss0 & Hss & Hself) (os0 & Hos & Hother). unfold Manifest_merge.
  eapply hoare_bind; [apply isolated_getattr|]. intros sd _.
  eapply hoare_bind; [apply isolated_deepcopy|]. intros sd' Hsd.
  eapply hoare_bind; [apply isolated_getattr|]. intros od _.
  eapply hoare_bind; [apply isolated_deepcopy|]. intros od' Hod.
  eapply hoare_bind; [by apply isolated_local|]. intros deployment Hdep.
  eapply hoare_bind; [by apply isolated_getattr_known|]. intros ss ->.
  eapply hoare_bind; [by apply isolated_getattr_known|]. intros os ->.
  eapply hoare_bind; [by apply isolated_merge|]. intros software Hsw.
  by apply isolated_Manifest_init.
Qed.
End WithMergeDict.
End Isolated.

Lemma hoare_isolated_run (c : M ref) (h : heap) :
  hoare (isolated h) c (fresh (length h)) ->
  preserves h (snd (c h))
  /\ forall r l, fst (c h) = Returned r -> reach (snd (c h)) r l -> length h <= l.
Proof.
  intros Hc. destruct (Hc h (isolated_refl h)) as [(Hlen & Hpre & Hcl) Hres].
  split; [done|]. intros r l Hr Hreach.
  eapply reach_closed; [exact Hcl | by apply Hres | done].
Qed.

(** C8. Whatever [merge_dict] does within the objects it is handed, for
    operands that are configurations as pydantic builds them,
    [SoftwareConfig.merge] and [Manifest.merge] leave every object that
    existed before the call as it was, so both operands and all their nested
    structures keep their values; and when the call returns, no object that
    can be reached from the result existed before the call: the result
    shares no object with either operand. *)
Theorem merge_leaves_operands_alone
    (merge_dict : ref -> ref -> M ref) (self other : ref) (h : heap) :
  local merge_dict ->
  (extra_set h self -> extra_set h other ->
   preserves h (snd (merge merge_dict self other h))
   /\ forall r l,
        fst (merge merge_dict self other h) = Returned r ->
        reach (snd (merge merge_dict self other h)) r l -> length h <= l)
  /\ (software_extra_set h self -> software_extra_set h other ->
      preserves h (snd (Manifest_merge merge_dict self other h))
      /\ forall r l,
           fst (Manifest_merge merge_dict self other h) = Returned r ->
           reach (snd (Manifest_merge merge_dict self other h)) r l ->
           length h <= l).
Proof.
  intros Hloc. split; intros Hs Ho; apply hoare_isolated_run.
  - by apply isolated_merge.
  - by apply isolated_Manifest_merge.
Qed.

(** *** The in-place [merge_dict] is local *)

Section Confined.
Variable h0 : heap.
Variables d0 u0 : ref.

Local Abbreviation S := (within h0 d0 u0).
Local Abbreviation J := (confined h0 S).

Lemma within_successor l c l' :
  S l -> h0 !! l = Some c -> l' ∈ cell_locs c -> S l'.
Proof.
  intros [Hl|[Hl|Hl]] Hc Hin.
  - apply lookup_lt_Some in Hc. lia.
  - right; left. by eapply reach_step.
  - right; right. by eapply reach_step.
Qed.

Lemma confined_refl : J h0.
Proof. split_and!; [done | by intros l c | by left]. Qed.

Lemma cell_within_ref c r :
  cell_within S c -> r ∈ cell_refs c -> ref_within S r.
Proof.
  intros Hc Hr. destruct r as [a|l]; simpl; [done|].
  apply Hc. unfold cell_locs. apply list_elem_of_bind. exists (RLoc l).
  split; [by apply list_elem_of_singleton | done].
Qed.

Lemma cell_within_refs c :
  Forall (ref_within S) (cell_refs c) -> cell_within S c.
Proof.
  intros Hall l. unfold cell_locs. rewrite list_elem_of_bind.
  intros (r & Hl & Hr). rewrite Forall_forall in Hall. specialize (Hall r Hr).
  destruct r as [a|l0]; simpl in *; [by apply elem_of_nil in Hl|].
  by apply list_elem_of_singleton in Hl as ->.
Qed.

Lemma confined_read r :
  ref_within S r -> hoare J (read r) (cell_within S).
Proof.
  intros Hr h HJ. unfold read. destruct r as [a|l]; [split; [done | by intros ? [=]]|].
  destruct (h !! l) as [c|] eqn:E; simpl; (split; [done|]); [|by intros ? [=]].
  intros c' [= <-]. destruct HJ as (_ & _ & Hnew).
  destruct (Hnew l c E) as [Hold|Hin]; [|done].
  intros l' Hl'. by eapply within_successor.
Qed.

Lemma confined_write r c :
  ref_within S r -> cell_within S c -> hoare J (write r c) (fun _ => True).
Proof.
  intros Hr Hc h HJ. unfold write. destruct r as [a|l]; [by split|].
  case_decide as Hlt; cbn [fst snd]; [|by split]. split; [|done].
  destruct HJ as (Hlen & Hkeep & Hnew). split_and!.
  - by rewrite length_insert.
  - intros l' c' Hl' HS. rewrite list_lookup_insert_ne; [by apply Hkeep|].
    intros ->. by apply HS.
  - intros l' c' Hl'. destruct (decide (l = l')) as [<-|Hne].
    + rewrite list_lookup_insert_eq in Hl' by done. injection Hl' as <-. by right.
    + rewrite list_lookup_insert_ne in Hl' by done. by apply Hnew.
Qed.

Lemma dict_get_ref (items : dict ref) k r :
  dict_get items k = Some r -> r ∈ snd <$> items.
Proof.
  intros H%dict_get_Some_elem. apply list_elem_of_fmap. by exists (k, r).
Qed.

Lemma dict_set_refs (items : dict ref) k v r :
  r ∈ snd <$> dict_set items k v -> r = v \/ r ∈ snd <$> items.
Proof.
  induction items as [|[k' v'] items IH]; simpl.
  - intros ->%list_elem_of_singleton. by left.
  - destruct (String.eqb k k'); simpl; rewrite !elem_of_cons.
    + intros [->|H]; [by left | right; by right].
    + intros [->|H]; [right; by left|]. destruct (IH H) as [->|?]; [by left|].
      right; by right.
Qed.

Lemma confined_merge_dict_inplace fuel :
  forall d u, ref_within S d -> ref_within S u ->
    hoare J (merge_dict_inplace fuel d u) (ref_within S).
Proof.
  induction fuel as [|fuel IH]; intros d u Hd Hu; simpl; [apply hoare_raise|].
  eapply hoare_bind; [by apply confined_read|]. intros uc Huc.
  destruct uc as [xs|items|cls attrs]; try apply hoare_raise.
  eapply hoare_bind; [|intros _ _; by apply hoare_ret].
  assert (Hitems : Forall (fun kv => ref_within S (snd kv)) items).
  { apply Forall_forall. intros kv Hkv. eapply cell_within_ref; [exact Huc|].
    simpl. by apply list_elem_of_fmap_2. }
  clear Huc.
  assert (Hacc : hoare J (ret tt) (fun _ => True)) by (by apply hoare_ret).
  revert Hacc. generalize (ret tt : M unit). 
  induction Hitems as [|kv items Hkv _ IHitems]; intros acc Hacc; simpl; [done|].
  apply IHitems.
  eapply hoare_bind; [exact Hacc|]. intros _ _.
  eapply hoare_bind; [by apply confined_read|]. intros dc Hdc.
  destruct dc as [xs|ditems|cls attrs]; try apply hoare_raise.
  eapply hoare_bind with (Q := ref_within S).
  { destruct (dict_get ditems (fst kv)) as [dv|] eqn:E; [|by apply hoare_ret].
    apply hoare_cond; [|by apply hoare_ret].
    apply IH; [|done]. eapply cell_within_ref; [exact Hdc|].
    simpl. by eapply dict_get_ref. }
  intros v Hv.
  eapply hoare_bind; [by apply confined_read|]. intros dc' Hdc'.
  destruct dc' as [xs|ditems'|cls attrs]; try apply hoare_raise.
  apply confined_write; [done|]. apply cell_within_refs. simpl.
  apply Forall_forall. intros r [->|Hr]%dict_set_refs; [done|].
  by eapply cell_within_ref.
Qed.
End Confined.

Lemma merge_dict_inplace_local fuel : local (merge_dict_inplace fuel).
Proof.
  intros d u h.
  assert (Hd : ref_within (within h d u) d).
  { destruct d as [a|l]; simpl; [done|]. right; left. constructor. }
  assert (Hu : ref_within (within h d u) u).
  { destruct u as [a|l]; simpl; [done|]. right; right. constructor. }
  destruct (confined_merge_dict_inplace h d u fuel d u Hd Hu h (confined_refl h d u))
    as [(Hlen & Hkeep & Hnew) Hres].
  split_and!; [done | done | done |].
  intros l Hl. by apply (Hres _ Hl).
Qed.
End HeapFacts.

(** ** The laws at work on the example machine *)

Lemma merge_leaves_operands_alone_witness :
  Heap.local (Heap.merge_dict_inplace 16)
  /\ Heap.extra_set Example.objects (Heap.RLoc 8)
  /\ Heap.extra_set Example.objects (Heap.RLoc 16)
  /\ (exists l,
        fst (Heap.merge (Heap.merge_dict_inplace 16) (Heap.RLoc 8) (Heap.RLoc 16)
               Example.objects)
        = Returned (Heap.RLoc l))
  /\ Heap.preserves Example.objects
       (snd (Heap.merge (Heap.merge_dict_inplace 16) (Heap.RLoc 8) (Heap.RLoc 16)
               Example.objects)).
Proof.
  assert (Ha : Heap.extra_set Example.objects (Heap.RLoc 8))
    by (exists (Heap.RLoc 7); split; [reflexivity | discriminate]).
  assert (Hb : Heap.extra_set Example.objects (Heap.RLoc 16))
    by (exists (Heap.RLoc 15); split; [reflexivity | discriminate]).
  split; [apply merge_dict_inplace_local|].
  split; [exact Ha|]. split; [exact Hb|].
  split; [eexists; vm_compute; reflexivity|].
  exact (proj1 (proj1 (merge_leaves_operands_alone (Heap.merge_dict_inplace 16)
                         (Heap.RLoc 8) (Heap.RLoc 16) Example.objects
                         (merge_dict_inplace_local 16)) Ha Hb)).
Defined.

Lemma validate_against_default_subset_law_witness :
  (exists msg,
     validate_against_default Example.repr_keys Example.rival_fragment
       (mkSoftwareConfig JujuManifest_default [] [] [])
     = Raised (ValueError msg))
  <-> (~ key_set (charms Example.rival_fragment) ⊆ key_set []
       \/ ~ key_set (terraform Example.rival_fragment) ⊆ key_set []).
Proof.
  exact (proj1 (validate_against_default_subset_law Example.repr_keys
                  Example.rival_fragment
                  (mkSoftwareConfig JujuManifest_default [] [] []))).
Defined.

Lemma get_default_collision_law_witness :
  fragments_wf [("caas", Example.caas_fragment); ("rival", Example.rival_fragment)]
  /\ exists kind f k,
       collides (mkAccum (core_charms [("keystone-k8s", "2024.1/stable")])
                         (core_terraform [("sunbeam-machine-plan", "deploy-sunbeam-machine")]
                            Example.snap_root) [])
         kind [("caas", Example.caas_fragment); ("rival", Example.rival_fragment)] f k
       /\ get_default [("keystone-k8s", "2024.1/stable")]
            [("sunbeam-machine-plan", "deploy-sunbeam-machine")] Example.snap_root
            (Some [("caas", Example.caas_fragment); ("rival", Example.rival_fragment)])
          = Raised (ValueError (override_msg kind f k)).
Proof.
  assert (Hwf : fragments_wf
                  [("caas", Example.caas_fragment); ("rival", Example.rival_fragment)]).
  { repeat constructor; simpl; by apply (bool_decide_unpack _). }
  split; [exact Hwf|].
  apply (get_default_collision_law [("keystone-k8s", "2024.1/stable")]
           [("sunbeam-machine-plan", "deploy-sunbeam-machine")] Example.snap_root
           [("caas", Example.caas_fragment); ("rival", Example.rival_fragment)] Hwf).
  exists KCharms, "rival", "magnum-k8s".
  exists [("caas", Example.caas_fragment)], Example.rival_fragment, [].
  split_and!; [reflexivity | |]; by apply (bool_decide_unpack _).
Defined.

Lemma merge_key_law_witness :
  software_wf Example.revision_layer
  /\ exists r,
       merge Example.channel_layer Example.revision_layer = Returned r
       /\ dict_get (extra r) "caas_config"
          = Some (PDict [("image_name", PStr "fedora"); ("properties", PDict []);
                         ("image_url", PStr "http://images/fedora.qcow2")]).
Proof.
  assert (Hwf : software_wf Example.revision_layer).
  { repeat split; simpl; by apply (bool_decide_unpack _). }
  split; [exact Hwf|].
  destruct (merge_key_law Example.channel_layer Example.revision_layer Hwf)
    as (r & Hr & _ & Hget & _).
  exists r. split; [exact Hr|]. exact (Hget KExtra "caas_config").
Defined.

Lemma merge_idempotent_witness :
  software_deep_wf Example.channel_layer
  /\ merge Example.channel_layer Example.channel_layer = Returned Example.channel_layer.
Proof.
  assert (Hwf : software_deep_wf Example.channel_layer).
  { repeat split; simpl; by apply (bool_decide_unpack _). }
  split; [exact Hwf|]. exact (proj1 merge_idempotent Example.channel_layer Hwf).
Defined.

Lemma is_skip_content_equality_witness :
  load_manifests Example.safe_load Example.risk_str Example.snap_root STABLE
    Example.read_file
    (AddManifestStep_init (Some ["home"; "ubuntu"; "manifest.yml"]) false)
  = (Returned
       (PDict [("deployment", PDict [])],
        mkAddManifestStep (Some ["home"; "ubuntu"; "manifest.yml"]) false
          (PDict [("software", PDict [])])),
     [EvReadFile (Example.snap_root ++ ["etc"; "manifests"; "stable.yml"]);
      EvReadFile ["home"; "ubuntu"; "manifest.yml"]])
  /\ is_skip Example.safe_load Example.risk_str Example.snap_root STABLE
       Example.read_file
       (mkClusterDB true [Example.stored "software: {}"])
       (AddManifestStep_init (Some ["home"; "ubuntu"; "manifest.yml"]) false)
     = (Returned (mkResult SKIPPED None),
        mkAddManifestStep (Some ["home"; "ubuntu"; "manifest.yml"]) false
          (PDict [("software", PDict [])]),
        [EvReadFile (Example.snap_root ++ ["etc"; "manifests"; "stable.yml"]);
         EvReadFile ["home"; "ubuntu"; "manifest.yml"];
         EvGetLatestManifest]).
Proof.
  assert (Hload :
    load_manifests Example.safe_load Example.risk_str Example.snap_root STABLE
      Example.read_file
      (AddManifestStep_init (Some ["home"; "ubuntu"; "manifest.yml"]) false)
    = (Returned
         (PDict [("deployment", PDict [])],
          mkAddManifestStep (Some ["home"; "ubuntu"; "manifest.yml"]) false
            (PDict [("software", PDict [])])),
       [EvReadFile (Example.snap_root ++ ["etc"; "manifests"; "stable.yml"]);
        EvReadFile ["home"; "ubuntu"; "manifest.yml"]]))
    by (vm_compute; reflexivity).
  split; [exact Hload|].
  exact (proj1 (is_skip_content_equality Example.safe_load Example.safe_dump
                  Example.risk_str Example.assign_id Example.snap_root STABLE
                  Example.read_file
                  (mkClusterDB true [Example.stored "software: {}"])
                  _ _ _ _ Hload)
           (Example.stored "software: {}") "software: {}"
           (PDict [("software", PDict [])])
           eq_refl eq_refl eq_refl eq_refl).
Defined.

Lemma is_skip_stable_no_seed_witness :
  Example.read_file (embedded_manifest_path Example.risk_str Example.snap_root STABLE)
  = Returned "deployment: {}"
  /\ get_latest_manifest (mkClusterDB true [])
     = Raised (ManifestItemNotFoundException "ManifestItem not found")
  /\ is_skip Example.safe_load Example.risk_str Example.snap_root STABLE
       Example.read_file (mkClusterDB true []) (AddManifestStep_init None false)
     = (Returned (mkResult SKIPPED None), AddManifestStep_init None false,
        [EvReadFile (embedded_manifest_path Example.risk_str Example.snap_root STABLE);
         EvGetLatestManifest]).
Proof.
  split; [vm_compute; reflexivity|]. split; [reflexivity|].
  apply (is_skip_stable_no_seed Example.safe_load Example.risk_str Example.snap_root
           STABLE Example.read_file (mkClusterDB true []) "deployment: {}"
           (PDict [("deployment", PDict [])]) "ManifestItem not found").
  - reflexivity.
  - vm_compute; reflexivity.
  - vm_compute; reflexivity.
  - reflexivity.
Defined.

Lemma is_skip_embedded_first_witness :
  Example.read_file_broken
    (embedded_manifest_path Example.risk_str Example.snap_root (NonStable "edge"))
  = Raised (IOError "[Errno 2] No such file or directory")
  /\ is_skip Example.safe_load Example.risk_str Example.snap_root (NonStable "edge")
       Example.read_file_broken
       (mkClusterDB true [Example.stored "software: {}"])
       (AddManifestStep_init (Some ["home"; "ubuntu"; "manifest.yml"]) true)
     = (Returned (mkResult FAILED (Some (PStr "[Errno 2] No such file or directory"))),
        AddManifestStep_init (Some ["home"; "ubuntu"; "manifest.yml"]) true,
        [EvReadFile
           (embedded_manifest_path Example.risk_str Example.snap_root (NonStable "edge"))]).
Proof.
  split; [reflexivity|].
  exact (proj1 (proj2 (is_skip_embedded_first Example.safe_load Example.risk_str
                         Example.snap_root (NonStable "edge") Example.read_file_broken
                         (mkClusterDB true [Example.stored "software: {}"])
                         (AddManifestStep_init (Some ["home"; "ubuntu"; "manifest.yml"]) true)))
           "[Errno 2] No such file or directory" eq_refl).
Defined.


(** * Further properties of the code *)

(** ** The assembled default as a universe of keys *)

Lemma add_entries_returned kind feature (items acc acc' : dict pyval) :
  add_entries kind feature items acc = Returned acc' ->
  dict_keys acc' = dict_keys acc ++ dict_keys items.
Proof.
  revert acc. induction items as [|[k v] items IH]; intros acc; simpl.
  - intros [= <-]. by rewrite app_nil_r.
  - destruct (dict_contains k acc) eqn:E; [done|].
    apply dict_contains_false in E. rewrite (dict_set_fresh _ _ _ E).
    intros H%IH. rewrite H, dict_keys_app. simpl. by rewrite <- app_assoc.
Qed.

Lemma add_features_returned (fs : dict SoftwareConfig) (acc acc' : accum) :
  add_features fs acc = Returned acc' ->
  forall kind,
    dict_keys (acc_section kind acc')
    = dict_keys (acc_section kind acc) ++ feature_keys kind fs.
Proof.
  revert acc. induction fs as [|[f sw] fs IH]; intros acc H kind.
  - injection H as <-. unfold feature_keys. simpl. by rewrite app_nil_r.
  - rewrite feature_keys_cons. simpl in H.
    destruct (add_entries KCharms f (charms sw) (acc_charms acc)) as [c|] eqn:Ec;
      [|done]. simpl in H.
    destruct (add_entries KTerraform f (terraform sw) (acc_terraform acc)) as [t|] eqn:Et;
      [|done]. simpl in H.
    destruct (add_entries KExtra f (extra sw) (acc_extra acc)) as [e|] eqn:Ee;
      [|done]. simpl in H.
    rewrite (IH _ H kind), app_assoc. f_equal.
    destruct kind; simpl; by eapply add_entries_returned.
Qed.

Lemma feature_keys_elem kind (fs : dict SoftwareConfig) f sw k :
  (f, sw) ∈ fs -> k ∈ dict_keys (section_of kind sw) -> k ∈ feature_keys kind fs.
Proof.
  intros Hin Hk. unfold feature_keys. apply list_elem_of_bind. by exists (f, sw).
Qed.

Lemma key_set_elem (d : dict pyval) k : k ∈ key_set d <-> k ∈ dict_keys d.
Proof. unfold key_set. by rewrite elem_of_list_to_set. Qed.

Lemma validate_against_default_ok repr_keys (c d : SoftwareConfig) :
  validate_against_default repr_keys c d = Returned tt
  <-> key_set (charms c) ⊆ key_set (charms d)
      /\ key_set (terraform c) ⊆ key_set (terraform d).
Proof.
  unfold validate_against_default.
  rewrite validate_terraform_keys_spec, validate_charm_keys_spec.
  do 2 case_bool_decide; simpl; split; try tauto; try done.
Qed.

(** X1. Whatever [get_default] assembles is a universe for its parts: every
    fragment it was given validates against the result, and so do the core
    defaults (the assembly of no feature) and the result itself. *)
Theorem assembled_default_validates_parts
    (repr_keys : list string -> string)
    (MANIFEST_CHARM_VERSIONS TERRAFORM_DIR_NAMES : dict string)
    (snap_root : list string) (fs : dict SoftwareConfig) (d : SoftwareConfig) :
  get_default MANIFEST_CHARM_VERSIONS TERRAFORM_DIR_NAMES snap_root (Some fs)
  = Returned d ->
  (forall f sw, (f, sw) ∈ fs -> validate_against_default repr_keys sw d = Returned tt)
  /\ (forall core,
        get_default MANIFEST_CHARM_VERSIONS TERRAFORM_DIR_NAMES snap_root None
        = Returned core ->
        validate_against_default repr_keys core d = Returned tt)
  /\ validate_against_default repr_keys d d = Returned tt.
Proof.
  unfold get_default.
  destruct (add_features fs _) as [acc|] eqn:E; [|done]. simpl. intros [= <-].
  pose proof (add_features_returned _ _ _ E KCharms) as Hc.
  pose proof (add_features_returned _ _ _ E KTerraform) as Ht.
  simpl in Hc, Ht. split_and!.
  - intros f sw Hin. apply validate_against_default_ok. simpl. split.
    + intros k Hkc%key_set_elem. apply key_set_elem. rewrite Hc.
      apply elem_of_app. right. by eapply (feature_keys_elem KCharms).
    + intros k Hkt%key_set_elem. apply key_set_elem. rewrite Ht.
      apply elem_of_app. right. by eapply (feature_keys_elem KTerraform).
  - intros core [= <-]. apply validate_against_default_ok. simpl. split.
    + intros k Hkc%key_set_elem. apply key_set_elem. rewrite Hc.
      apply elem_of_app. by left.
    + intros k Hkt%key_set_elem. apply key_set_elem. rewrite Ht.
      apply elem_of_app. by left.
  - by apply validate_against_default_ok.
Qed.

(** X2. Validation orders configurations: every configuration validates
    against itself, and a configuration that validates against a default which
    in turn validates against a larger default validates against the larger
    one. *)
Theorem validate_against_default_preorder
    (repr_keys : list string -> string) (a b c : SoftwareConfig) :
  validate_against_default repr_keys a a = Returned tt
  /\ (validate_against_default repr_keys a b = Returned tt ->
      validate_against_default repr_keys b c = Returned tt ->
      validate_against_default repr_keys a c = Returned tt).
Proof.
  rewrite !validate_against_default_ok. split; [done|].
  intros [H1 H2] [H3 H4].
  split; [by transitivity (key_set (charms b)) | by transitivity (key_set (terraform b))].
Qed.

(** X3. Which error validation reports. Unknown terraform keys are reported
    first, with the message that lists the default's terraform keys, whether
    or not the charm keys are known; unknown charm keys are reported, with the
    message that lists the default's charm keys, only when every terraform key
    is known. *)
Theorem validate_against_default_error_order
    (repr_keys : list string -> string) (c d : SoftwareConfig) :
  (~ key_set (terraform c) ⊆ key_set (terraform d) ->
   validate_against_default repr_keys c d
   = Raised (ValueError
       ("Manifest Software Terraform keys should be one of "
          +:+ repr_keys (dict_keys (terraform d)) +:+ " ")))
  /\ (key_set (terraform c) ⊆ key_set (terraform d) ->
      ~ key_set (charms c) ⊆ key_set (charms d) ->
      validate_against_default repr_keys c d
      = Raised (ValueError
          ("Manifest Software charms keys should be one of "
             +:+ repr_keys (dict_keys (charms d)) +:+ " "))).
Proof.
  unfold validate_against_default.
  rewrite validate_terraform_keys_spec, validate_charm_keys_spec.
  split.
  - intros Ht. by rewrite bool_decide_eq_false_2.
  - intros Ht Hc. rewrite bool_decide_eq_true_2 by done. simpl.
    by rewrite bool_decide_eq_false_2.
Qed.

Lemma add_features_with_juju (j : string -> JujuManifest)
    (fs : dict SoftwareConfig) (acc : accum) :
  add_features ((fun fsw => (fst fsw, with_juju (j (fst fsw)) (snd fsw))) <$> fs) acc
  = add_features fs acc.
Proof.
  revert acc. induction fs as [|[f sw] fs IH]; intros acc; simpl; [done|].
  destruct (add_entries KCharms f (charms sw) (acc_charms acc)); [|done]. simpl.
  destruct (add_entries KTerraform f (terraform sw) (acc_terraform acc)); [|done]. simpl.
  destruct (add_entries KExtra f (extra sw) (acc_extra acc)); [|done]. simpl.
  apply IH.
Qed.

(** X4. Features cannot contribute juju arguments: the assembly never reads
    the [juju] section of a fragment, so replacing those sections changes
    neither the result nor the error, and a result always carries the default
    (empty) juju arguments; assembling with no feature mapping equals
    assembling with an empty one. *)
Theorem get_default_ignores_fragment_juju
    (MANIFEST_CHARM_VERSIONS TERRAFORM_DIR_NAMES : dict string)
    (snap_root : list string) (fs : dict SoftwareConfig)
    (j : string -> JujuManifest) :
  get_default MANIFEST_CHARM_VERSIONS TERRAFORM_DIR_NAMES snap_root
    (Some ((fun fsw => (fst fsw, with_juju (j (fst fsw)) (snd fsw))) <$> fs))
  = get_default MANIFEST_CHARM_VERSIONS TERRAFORM_DIR_NAMES snap_root (Some fs)
  /\ (forall d,
        get_default MANIFEST_CHARM_VERSIONS TERRAFORM_DIR_NAMES snap_root (Some fs)
        = Returned d ->
        juju d = JujuManifest_default)
  /\ get_default MANIFEST_CHARM_VERSIONS TERRAFORM_DIR_NAMES snap_root None
     = get_default MANIFEST_CHARM_VERSIONS TERRAFORM_DIR_NAMES snap_root (Some []).
Proof.
  unfold get_default. split_and!.
  - by rewrite add_features_with_juju.
  - intros d. destruct (add_features fs _); [|done]. simpl. by intros [= <-].
  - reflexivity.
Qed.

(** ** The order of the features does not matter *)

Lemma feature_keys_app kind (fs fs' : dict SoftwareConfig) :
  feature_keys kind (fs ++ fs') = feature_keys kind fs ++ feature_keys kind fs'.
Proof. unfold feature_keys. apply bind_app. Qed.

Lemma collision_free_no_collision base (fs : dict SoftwareConfig) :
  collision_free base fs -> forall kind f k, ~ collides base kind fs f k.
Proof.
  intros Hfree kind f k (pre & sw & post & -> & Hk & Hin).
  destruct (Hfree kind) as [Hnd Hbase].
  rewrite feature_keys_app, feature_keys_cons in Hnd, Hbase.
  apply elem_of_app in Hin as [Hin|Hin].
  - apply (Hbase k); [|done]. apply elem_of_app. right. apply elem_of_app. by left.
  - apply NoDup_app in Hnd as (_ & Hdisj & _). apply (Hdisj k Hin).
    apply elem_of_app. by left.
Qed.

Lemma no_collision_collision_free base (fs : dict SoftwareConfig) :
  fragments_wf fs ->
  (forall kind f k, ~ collides base kind fs f k) -> collision_free base fs.
Proof.
  unfold fragments_wf.
  induction fs as [|[f sw] fs IH] using rev_ind; intros Hwf Hno kind.
  - split; [constructor | by intros k ?%elem_of_nil].
  - apply Forall_app in Hwf as [Hwf Hsw]. apply (proj1 (Forall_singleton _ _)) in Hsw.
    assert (Hno' : forall kind f k, ~ collides base kind fs f k).
    { intros kd f' k' (pre & sw' & post & -> & Hk & Hin).
      apply (Hno kd f' k'). exists pre, sw', (post ++ [(f, sw)]).
      split_and!; [by rewrite <- app_assoc | done | done]. }
    destruct (IH Hwf Hno' kind) as [Hnd Hbase].
    assert (Hfresh : forall k, k ∈ dict_keys (section_of kind sw) ->
              k ∉ dict_keys (acc_section kind base) ++ feature_keys kind fs).
    { intros k Hk Hin. apply (Hno kind f k). by exists fs, sw, []. }
    rewrite feature_keys_app. unfold feature_keys at 2. simpl. rewrite app_nil_r.
    split.
    + apply NoDup_app. split_and!; [done | |].
      * intros k Hk1 Hk2. apply (Hfresh k Hk2). apply elem_of_app. by right.
      * unfold software_wf in Hsw. simpl in Hsw.
        destruct Hsw as (Hc & Ht & He). by destruct kind.
    + intros k [Hk|Hk]%elem_of_app; [by apply Hbase|].
      intros Hin. apply (Hfresh k Hk). apply elem_of_app. by left.
Qed.

Lemma feature_keys_Permutation kind (fs fs' : dict SoftwareConfig) :
  fs ≡ₚ fs' -> feature_keys kind fs ≡ₚ feature_keys kind fs'.
Proof. intros H. unfold feature_keys. by rewrite H. Qed.

Lemma feature_entries_Permutation kind (fs fs' : dict SoftwareConfig) :
  fs ≡ₚ fs' -> feature_entries kind fs ≡ₚ feature_entries kind fs'.
Proof. intros H. unfold feature_entries. by rewrite H. Qed.

Lemma collision_free_Permutation base (fs fs' : dict SoftwareConfig) :
  fs ≡ₚ fs' -> collision_free base fs -> collision_free base fs'.
Proof.
  intros Hp Hfree kind. destruct (Hfree kind) as [Hnd Hbase].
  pose proof (feature_keys_Permutation kind _ _ Hp) as Hk. split.
  - by rewrite <- Hk.
  - intros k Hin. apply Hbase. by rewrite Hk.
Qed.

Lemma add_features_returns_iff (fs : dict SoftwareConfig) (acc : accum) :
  fragments_wf fs ->
  collision_free acc fs
  <-> add_features fs acc
      = Returned (mkAccum (acc_charms acc ++ feature_entries KCharms fs)
                          (acc_terraform acc ++ feature_entries KTerraform fs)
                          (acc_extra acc ++ feature_entries KExtra fs)).
Proof.
  intros Hwf.
  destruct (add_features_spec fs acc Hwf) as [[Hno Hr]|(kind & f & k & Hcol & Hr)].
  - split; [done|]. intros _. by apply no_collision_collision_free.
  - split; [|by rewrite Hr].
    intros Hfree. by destruct (collision_free_no_collision _ _ Hfree kind f k).
Qed.

(** X5. The order in which the features are handed to [get_default] does not
    matter: for well-formed fragments, the assembly of a reordered mapping
    succeeds exactly when the assembly of the original one does, and the two
    results hold the same entries in every section. *)
Theorem get_default_order_irrelevant
    (MANIFEST_CHARM_VERSIONS TERRAFORM_DIR_NAMES : dict string)
    (snap_root : list string) (fs fs' : dict SoftwareConfig) :
  fragments_wf fs ->
  fs ≡ₚ fs' ->
  (returned (get_default MANIFEST_CHARM_VERSIONS TERRAFORM_DIR_NAMES snap_root (Some fs))
   <-> returned (get_default MANIFEST_CHARM_VERSIONS TERRAFORM_DIR_NAMES snap_root
                   (Some fs')))
  /\ (forall d d',
        get_default MANIFEST_CHARM_VERSIONS TERRAFORM_DIR_NAMES snap_root (Some fs)
        = Returned d ->
        get_default MANIFEST_CHARM_VERSIONS TERRAFORM_DIR_NAMES snap_root (Some fs')
        = Returned d' ->
        forall kind, section_of kind d ≡ₚ section_of kind d').
Proof.
  intros Hwf Hp.
  assert (Hwf' : fragments_wf fs') by (unfold fragments_wf; by rewrite <- Hp).
  set (base := mkAccum (core_charms MANIFEST_CHARM_VERSIONS)
                       (core_terraform TERRAFORM_DIR_NAMES snap_root) []).
  pose proof (add_features_returns_iff fs base Hwf) as H1.
  pose proof (add_features_returns_iff fs' base Hwf') as H2.
  unfold get_default. fold base.
  destruct (add_features_spec fs base Hwf) as [[Hno Hr]|(kind & f & k & Hcol & Hr)];
    destruct (add_features_spec fs' base Hwf') as [[Hno' Hr']|(kind' & f' & k' & Hcol' & Hr')];
    rewrite Hr, Hr'; simpl.
  - split; [done|]. intros d d' [= <-] [= <-] kind.
    destruct kind; simpl; by rewrite (feature_entries_Permutation _ _ _ Hp).
  - exfalso. apply H1 in Hr. apply (collision_free_Permutation _ _ _ Hp) in Hr.
    by destruct (collision_free_no_collision _ _ Hr kind' f' k').
  - exfalso. apply H2 in Hr'. symmetry in Hp.
    apply (collision_free_Permutation _ _ _ Hp) in Hr'.
    by destruct (collision_free_no_collision _ _ Hr' kind f k).
  - split; [done|]. by intros d d' [=].
Qed.

(** ** The manifest-write step: inputs, failures and the store *)

Section StepMore.
Variable safe_load : string -> outcome pyval.
Variable safe_dump : pyval -> outcome string.
Variable risk_str : RiskLevel -> string.
Variable assign_id : list (dict pyval) -> pyval.
Variable snap_root : list string.
Variable infer_risk : RiskLevel.
Variable read_file : list string -> outcome string.

Local Abbreviation load := (load_manifests safe_load risk_str snap_root infer_risk read_file).
Local Abbreviation skip := (is_skip safe_load risk_str snap_root infer_risk read_file).
Local Abbreviation compare := (compare_with_latest safe_load).
Local Abbreviation embedded_path := (embedded_manifest_path risk_str snap_root infer_risk).

Lemma compare_with_latest_content (s s' : AddManifestStep) latest :
  manifest_content s = manifest_content s' -> compare s latest = compare s' latest.
Proof. unfold compare_with_latest. by intros ->. Qed.

(** X6. A manifest file takes precedence over a clear request: when a file is
    given, [is_skip] gives the same result, leaves the same desired content
    and makes the same accesses whether or not [clear] is set. *)
Theorem is_skip_file_overrides_clear
    (db : ClusterDB) (file : list string) (content : pyval) :
  let with_clear := skip db (mkAddManifestStep (Some file) true content) in
  let without := skip db (mkAddManifestStep (Some file) false content) in
  fst (fst with_clear) = fst (fst without)
  /\ manifest_content (snd (fst with_clear)) = manifest_content (snd (fst without))
  /\ snd with_clear = snd without.
Proof.
  unfold is_skip, load_manifests. simpl.
  destruct (x <- read_file embedded_path ;; safe_load x) as [emb|e]; simpl;
    [|by destruct (is_load_error e)].
  destruct (x <- read_file file ;; safe_load x) as [c|e]; simpl;
    [|by destruct (is_load_error e)].
  destruct (get_latest_manifest db) as [item|[]]; simpl; try done.
  unfold set_manifest_content. simpl.
  destruct (is_None c) eqn:Ec; simpl; [|done].
  destruct (risk_is_stable infer_risk); simpl; [done|].
  unfold compare_with_latest. simpl. by destruct (is_None emb).
Qed.

(** X7. A manifest file that cannot be read or is not valid YAML makes
    [is_skip] return [FAILED] with the error's message, after the embedded
    manifest and the file were read and before the store is consulted; the
    step keeps the content it had. *)
Theorem is_skip_manifest_file_error
    (db : ClusterDB) (self : AddManifestStep) (file : list string)
    (bytes : string) (embedded : pyval) :
  manifest_file self = Some file ->
  read_file embedded_path = Returned bytes ->
  safe_load bytes = Returned embedded ->
  (forall msg,
      read_file file = Raised (IOError msg) ->
      skip db self
      = (Returned (mkResult FAILED (Some (PStr msg))), self,
         [EvReadFile embedded_path; EvReadFile file]))
  /\ (forall text msg,
        read_file file = Returned text ->
        safe_load text = Raised (YAMLError msg) ->
        skip db self
        = (Returned (mkResult FAILED (Some (PStr msg))), self,
           [EvReadFile embedded_path; EvReadFile file])).
Proof.
  intros Hf He Hp. unfold is_skip, load_manifests. rewrite He. simpl.
  rewrite Hp, Hf. split.
  - intros msg Hr. by rewrite Hr.
  - intros text msg Hr Hs. rewrite Hr. simpl. by rewrite Hs.
Qed.

(** X8. When the manifests load but the store is unreachable, [is_skip]
    returns [FAILED] with the message of the store's exception, whatever the
    desired content and the risk tier. *)
Theorem is_skip_store_unavailable
    (db : ClusterDB) (self self1 : AddManifestStep) (embedded : pyval)
    (tr : list event) (msg : string) :
  load self = (Returned (embedded, self1), tr) ->
  get_latest_manifest db = Raised (ClusterServiceUnavailableException msg) ->
  skip db self
  = (Returned (mkResult FAILED (Some (PStr msg))), self1, tr ++ [EvGetLatestManifest]).
Proof. intros Hl Hg. unfold is_skip. by rewrite Hl, Hg. Qed.

(** X9. The embedded default never replaces a stored manifest: with no
    manifest file and no clear request, as soon as the store holds a manifest
    [is_skip] returns [SKIPPED] on every risk tier, without parsing the stored
    manifest and without any desired content. *)
Theorem is_skip_keeps_stored_manifest
    (db : ClusterDB) (bytes : string) (embedded : pyval) (item : dict pyval) :
  read_file embedded_path = Returned bytes ->
  safe_load bytes = Returned embedded ->
  get_latest_manifest db = Returned item ->
  skip db (AddManifestStep_init None false)
  = (Returned (mkResult SKIPPED None), AddManifestStep_init None false,
     [EvReadFile embedded_path; EvGetLatestManifest]).
Proof.
  intros He Hp Hg. unfold is_skip, load_manifests. rewrite He. simpl.
  by rewrite Hp, Hg.
Qed.

(** X10. [run] is append-only and all-or-nothing: it never raises and never
    returns [SKIPPED]; when it returns [COMPLETED] the store holds its former
    items followed by one new item whose data is the dump of the desired
    content and whose identifier is the result's message; when it returns
    [FAILED] the store is as it was. *)
Theorem run_append_only (db : ClusterDB) (self : AddManifestStep) :
  exists r,
    fst (fst (run safe_dump assign_id db self)) = Returned r
    /\ result_type r <> SKIPPED
    /\ (result_type r = COMPLETED ->
        exists id data,
          message r = Some id
          /\ safe_dump (manifest_content self) = Returned data
          /\ manifest_items (snd (fst (run safe_dump assign_id db self)))
             = manifest_items db ++ [[("manifestid", id); ("data", PStr data)]])
    /\ (result_type r = FAILED ->
        snd (fst (run safe_dump assign_id db self)) = db).
Proof.
  unfold run. destruct (safe_dump (manifest_content self)) as [data|e] eqn:Ed.
  - unfold add_manifest. destruct (available db); simpl.
    + eexists. split; [done|]. split_and!; [done | | done].
      intros _. by eexists _, _.
    + eexists. split; [done|]. by split_and!.
  - eexists. split; [done|]. by split_and!.
Qed.

(** X11. A manifest file that parses to nothing (an empty document) counts as
    no input at all: [is_skip] returns the same result and leaves the same
    desired content as for a step with no file and no clear request, even if
    [clear] was set; on a non-stable tier with an empty store this seeds the
    embedded default. *)
Theorem is_skip_empty_manifest_file
    (db : ClusterDB) (file : list string) (text : string) (cl : bool) :
  read_file file = Returned text ->
  safe_load text = Returned PNone ->
  let with_file := skip db (mkAddManifestStep (Some file) cl PNone) in
  let without := skip db (AddManifestStep_init None false) in
  fst (fst with_file) = fst (fst without)
  /\ manifest_content (snd (fst with_file)) = manifest_content (snd (fst without)).
Proof.
  intros Hr Hs. unfold is_skip, load_manifests. simpl.
  destruct (x <- read_file embedded_path ;; safe_load x) as [emb|e]; simpl;
    [|by destruct (is_load_error e)].
  rewrite Hr. simpl. rewrite Hs.
  destruct (get_latest_manifest db) as [item|[]]; simpl; try done.
  destruct (risk_is_stable infer_risk); simpl; [done|].
  unfold compare_with_latest. simpl. by destruct (is_None emb).
Qed.

(** X12. When [is_skip] can raise. If opening or reading a file fails only
    with [IOError] and the YAML parser only with [YAMLError], the call raises
    exactly when both manifests load, there is a desired content, the store
    returns a non-empty latest item and parsing that item's data raises; the
    exception is the parser's. *)
Theorem is_skip_raises_iff
    (db : ClusterDB) (self : AddManifestStep) (e : pyexn) :
  (forall p e', read_file p = Raised e' -> is_load_error e' = true) ->
  (forall s e', safe_load s = Raised e' -> is_load_error e' = true) ->
  fst (fst (skip db self)) = Raised e
  <-> exists embedded self1 tr item,
        load self = (Returned (embedded, self1), tr)
        /\ get_latest_manifest db = Returned item
        /\ is_None (manifest_content self1) = false
        /\ dict_truthy item = true
        /\ safe_load_value safe_load (stored_data item) = Raised e.
Proof.
  intros Hrf Hsl.
  assert (Hload : forall e' tr, load self = (Raised e', tr) -> is_load_error e' = true).
  { unfold load_manifests. intros e' tr.
    destruct (read_file embedded_path) as [bytes|e0] eqn:E0; simpl.
    - destruct (safe_load bytes) as [emb|e1] eqn:E1.
      + destruct (manifest_file self) as [file|]; [|by destruct (clear self)].
        destruct (read_file file) as [text|e2] eqn:E2; simpl.
        * destruct (safe_load text) as [c|e3] eqn:E3; [done|].
          intros [= <- _]. by eapply Hsl.
        * intros [= <- _]. by eapply Hrf.
      + intros [= <- _]. by eapply Hsl.
    - intros [= <- _]. by eapply Hrf. }
  unfold is_skip.
  destruct (load self) as [[[emb self1]|e0] tr] eqn:El.
  - destruct (get_latest_manifest db) as [item|e1] eqn:Eg.
    + simpl. unfold compare_with_latest. fold (stored_data item).
      destruct (is_None (manifest_content self1)) eqn:En; simpl.
      * split; [done|]. intros (? & ? & ? & ? & [= <- <- <-] & [= <-] & Hn & _).
        congruence.
      * destruct (dict_truthy item) eqn:Et; simpl.
        -- destruct (safe_load_value safe_load (stored_data item)) as [v|e2] eqn:Ev;
             simpl.
           ++ split; [by destruct (py_eqb _ _)|].
              intros (? & ? & ? & ? & [= <- <- <-] & [= <-] & _ & _ & Hv). congruence.
           ++ split.
              ** intros [= <-]. by exists emb, self1, tr, item.
              ** intros (? & ? & ? & ? & [= <- <- <-] & [= <-] & _ & _ & Hv). congruence.
        -- split; [done|].
           intros (? & ? & ? & ? & [= <- <- <-] & [= <-] & _ & Ht & _). congruence.
    + unfold get_latest_manifest in Eg. destruct (available db).
      * destruct (last (manifest_items db)); [done|]. injection Eg as <-. simpl.
        split; [|by intros (? & ? & ? & ? & _ & [=] & _)].
        destruct (is_None (manifest_content self1)) eqn:En; simpl.
        -- destruct (risk_is_stable infer_risk); simpl; [done|].
           unfold compare_with_latest. simpl. by destruct (is_None emb).
        -- unfold compare_with_latest. by rewrite En.
      * injection Eg as <-. simpl.
        split; [done | by intros (? & ? & ? & ? & _ & [=] & _)].
  - rewrite (Hload _ _ eq_refl). simpl.
    split; [done | by intros (? & ? & ? & ? & [=] & _)].
Qed.

(** X13. The step is idempotent. If [is_skip] asked for a run, [run] stored
    the manifest, and the YAML library reads back what it dumped as an equal
    value, then a new step with the same inputs on the updated store returns
    [SKIPPED]. *)
Theorem is_skip_after_run
    (manifest_file : option (list string)) (clear : bool)
    (db db' : ClusterDB) (self1 : AddManifestStep) (tr tr' : list event)
    (id : pyval) :
  skip db (AddManifestStep_init manifest_file clear)
  = (Returned (mkResult COMPLETED None), self1, tr) ->
  run safe_dump assign_id db self1
  = (Returned (mkResult COMPLETED (Some id)), db', tr') ->
  (forall data,
      safe_dump (manifest_content self1) = Returned data ->
      exists v, safe_load data = Returned v
                /\ py_eqb v (manifest_content self1) = true) ->
  fst (fst (skip db' (AddManifestStep_init manifest_file clear)))
  = Returned (mkResult SKIPPED None).
Proof.
  intros Hskip Hrun Hrt. unfold run in Hrun.
  destruct (safe_dump (manifest_content self1)) as [data|] eqn:Ed; [|done].
  unfold add_manifest in Hrun. destruct (available db) eqn:Ea; [|done].
  injection Hrun as <- <- <-.
  destruct (Hrt data eq_refl) as (v & Hv & Heq).
  unfold is_skip in *.
  destruct (load (AddManifestStep_init manifest_file clear))
    as [[[emb s1]|e] tr0] eqn:El; [|by destruct (is_load_error e)].
  unfold get_latest_manifest at 1. simpl. rewrite last_snoc. simpl.
  unfold compare_with_latest at 1.
  destruct (is_None (manifest_content s1)) eqn:En; [done|]. simpl.
  assert (s1 = self1) as ->.
  { destruct (get_latest_manifest db) as [it|[]]; try done.
    - by injection Hskip as _ <- _.
    - simpl in Hskip. by injection Hskip as _ <- _. }
  rewrite Hv. simpl. by rewrite Heq.
Qed.
End StepMore.

(** ** The caas section: what a second call and the rest of the manifest see *)

Section CaasMore.
Variable CaasConfig_init : dict pyval -> outcome pyval.
Variable py_repr : pyval -> string.

Local Abbreviation add_section := (add_manifest_section CaasConfig_init py_repr).

Lemma dict_keys_set {V} (d : dict V) k v :
  dict_keys (dict_set d k v)
  = if dict_contains k d then dict_keys d else dict_keys d ++ [k].
Proof.
  unfold dict_contains. induction d as [|[k' v'] d IH]; simpl; [done|].
  destruct (String.eqb_spec k k') as [->|Hne]; simpl; [done|].
  rewrite IH. by destruct (dict_get d k).
Qed.

Lemma set_extra_frame (sc : SoftwareConfig) (c : pyval) :
  let sc' := set_extra sc "caas_config" c in
  juju sc' = juju sc /\ charms sc' = charms sc /\ terraform sc' = terraform sc
  /\ (forall k, k <> "caas_config" -> dict_get (extra sc') k = dict_get (extra sc) k)
  /\ dict_keys (extra sc')
     = (if dict_contains "caas_config" (extra sc) then dict_keys (extra sc)
        else dict_keys (extra sc) ++ ["caas_config"]).
Proof.
  simpl. split_and!; try done.
  - intros k Hk. rewrite dict_get_set.
    by destruct (String.eqb_spec k "caas_config").
  - apply dict_keys_set.
Qed.

(** X14. [add_manifest_section] touches nothing but the ["caas_config"] entry:
    when it returns, the juju, charms and terraform sections are the ones it
    was given, every other extra key keeps its value, and the keys of [extra]
    are the former keys, with ["caas_config"] added last if it was absent. *)
Theorem add_manifest_section_frame (sc sc' : SoftwareConfig) :
  add_section sc = Returned sc' ->
  juju sc' = juju sc /\ charms sc' = charms sc /\ terraform sc' = terraform sc
  /\ (forall k, k <> "caas_config" -> dict_get (extra sc') k = dict_get (extra sc) k)
  /\ dict_keys (extra sc')
     = (if dict_contains "caas_config" (extra sc) then dict_keys (extra sc)
        else dict_keys (extra sc) ++ ["caas_config"]).
Proof.
  unfold add_manifest_section, dict_contains.
  destruct (dict_get (extra sc) "caas_config") as [v|] eqn:E.
  - destruct (is_None v).
    + intros [= <-]. pose proof (set_extra_frame sc CaasConfig_default) as H.
      unfold dict_contains in H. by rewrite E in H.
    + destruct (is_CaasConfig v); [by intros [= <-]|].
      destruct v; try done.
      destruct (CaasConfig_init items) as [c|]; [|done]. simpl. intros [= <-].
      pose proof (set_extra_frame sc c) as H.
      unfold dict_contains in H. by rewrite E in H.
  - simpl. intros [= <-]. pose proof (set_extra_frame sc CaasConfig_default) as H.
    unfold dict_contains in H. by rewrite E in H.
Qed.

(** X15. [add_manifest_section] normalises once and for all: provided the
    [CaasConfig] constructor returns [CaasConfig] instances, after a call
    that returned, the entry under ["caas_config"] is a [CaasConfig]
    instance and a second call returns the configuration unchanged. *)
Theorem add_manifest_section_idempotent (sc sc' : SoftwareConfig) :
  (forall kw c, CaasConfig_init kw = Returned c -> is_CaasConfig c = true) ->
  add_section sc = Returned sc' ->
  (exists attrs,
      dict_get (extra sc') "caas_config" = Some (PObj CaasConfigCls attrs))
  /\ add_section sc' = Returned sc'.
Proof.
  intros Hinit H.
  assert (Hinst : exists attrs,
            dict_get (extra sc') "caas_config" = Some (PObj CaasConfigCls attrs)).
  { unfold add_manifest_section in H.
    destruct (dict_get (extra sc) "caas_config") as [v|] eqn:E.
    - destruct (is_None v).
      + injection H as <-. simpl. rewrite dict_get_set. simpl. by eexists.
      + destruct (is_CaasConfig v) eqn:Ec.
        * injection H as <-. rewrite E. destruct v as [| | | | | | |[] attrs]; try done.
          by eexists.
        * destruct v; try done.
          destruct (CaasConfig_init items) as [c|] eqn:Ei; [|done]. simpl in H.
          injection H as <-. simpl. rewrite dict_get_set. simpl.
          specialize (Hinit _ _ Ei). destruct c as [| | | | | | |[] attrs]; try done.
          by eexists.
    - simpl in H. injection H as <-. simpl. rewrite dict_get_set. simpl. by eexists. }
  split; [done|]. destruct Hinst as [attrs Hattrs].
  unfold add_manifest_section. by rewrite Hattrs.
Qed.
End CaasMore.

(** ** [CaasConfigureStep.run] *)

Section CaasConfigureFacts.
Variable model_dump : pyval -> feature_outcome pyval.
Variable caas_tfvar_map : option (dict string).
Variable update_tfvars_and_apply_tf : Manifest -> dict pyval -> feature_outcome unit.

Local Abbreviation run :=
  (CaasConfigureStep.run model_dump caas_tfvar_map update_tfvars_and_apply_tf).
Local Abbreviation collect := CaasConfigureStep.collect_overrides.

(** X16. The outcomes of [CaasConfigureStep.run]. Without a ["caas_config"]
    entry in the manifest the [KeyError] of the lookup leaves the call and
    terraform is not applied; an [AttributeError] while the overrides are read
    is swallowed and terraform is applied with no override; terraform is
    applied at most once; and a returned result is [COMPLETED] exactly when
    the application returned, [FAILED] with the message of a
    [TerraformException] otherwise, never [SKIPPED]. *)
Theorem caas_configure_run_outcomes (manifest : Manifest) :
  (dict_get (extra (software manifest)) "caas_config" = None ->
   run manifest = (Throws (KeyError "caas_config"), []))
  /\ (forall cfg msg,
        dict_get (extra (software manifest)) "caas_config" = Some cfg ->
        model_dump cfg = Throws (Builtin (AttributeError msg)) ->
        snd (run manifest) = [[]])
  /\ length (snd (run manifest)) <= 1
  /\ (forall r,
        fst (run manifest) = Yields r ->
        (r = mkResult COMPLETED None
         /\ exists o, snd (run manifest) = [o]
                      /\ update_tfvars_and_apply_tf manifest o = Yields tt)
        \/ (exists msg, r = mkResult FAILED (Some (PStr msg)))).
Proof.
  unfold CaasConfigureStep.run, CaasConfigureStep.read_overrides. split_and!.
  - by intros ->.
  - intros cfg msg -> Hd. rewrite Hd. simpl.
    by destruct (update_tfvars_and_apply_tf manifest []) as [u|[]].
  - repeat case_match; simpl; lia.
  - intros r. repeat case_match; simpl; intros Hr; simplify_eq;
      try (right; by eexists).
    all: left; split; [done|]; eexists; split; [done|].
    all: match goal with H : update_tfvars_and_apply_tf _ _ = Yields ?u |- _ =>
           destruct u; exact H end.
Qed.

End CaasConfigureFacts.

(** ** [add_manifest_section] followed by [CaasConfigureStep.run] *)

Section CaasPipeline.
Variable CaasConfig_init : dict pyval -> outcome pyval.
Variable py_repr : pyval -> string.
Variable model_dump : pyval -> feature_outcome pyval.
Variable caas_tfvar_map : option (dict string).
Variable update_tfvars_and_apply_tf : Manifest -> dict pyval -> feature_outcome unit.

Local Abbreviation add_section := (add_manifest_section CaasConfig_init py_repr).
Local Abbreviation run :=
  (CaasConfigureStep.run model_dump caas_tfvar_map update_tfvars_and_apply_tf).

Lemma add_manifest_section_installs_instance (sc sc' : SoftwareConfig) :
  (forall kw c, CaasConfig_init kw = Returned c -> is_CaasConfig c = true) ->
  add_section sc = Returned sc' ->
  exists attrs, dict_get (extra sc') "caas_config" = Some (PObj CaasConfigCls attrs).
Proof.
  intros Hinit H. unfold add_manifest_section in H.
  destruct (dict_get (extra sc) "caas_config") as [v|] eqn:E.
  - destruct (is_None v).
    + injection H as <-. simpl. rewrite dict_get_set. simpl. by eexists.
    + destruct (is_CaasConfig v) eqn:Ec.
      * injection H as <-. rewrite E. destruct v as [| | | | | | |[] attrs]; try done.
        by eexists.
      * destruct v; try done.
        destruct (CaasConfig_init items) as [c|] eqn:Ei; [|done]. simpl in H.
        injection H as <-. simpl. rewrite dict_get_set. simpl.
        specialize (Hinit _ _ Ei). destruct c as [| | | | | | |[] attrs]; try done.
        by eexists.
  - simpl in H. injection H as <-. simpl. rewrite dict_get_set. simpl. by eexists.
Qed.

(** X17. The image settings of the manifest do not reach terraform.
    [CaasConfig] is a pydantic dataclass, whose instances have no
    [model_dump]: the lookup of the method raises [AttributeError]. So, the
    constructor returning [CaasConfig] instances, on a manifest whose software
    section went through [add_manifest_section], [run] applies terraform
    exactly once and with no override, whatever the ["caas_config"] entry
    holds and whatever the variable map is; its outcome is that of this one
    application. *)
Theorem caas_configure_run_after_add_manifest_section
    (sc sc' : SoftwareConfig) (deployment : dict pyval) :
  (forall attrs, exists msg,
      model_dump (PObj CaasConfigCls attrs) = Throws (Builtin (AttributeError msg))) ->
  (forall kw c, CaasConfig_init kw = Returned c -> is_CaasConfig c = true) ->
  add_section sc = Returned sc' ->
  snd (run (mkManifest deployment sc')) = [[]]
  /\ fst (run (mkManifest deployment sc'))
     = match update_tfvars_and_apply_tf (mkManifest deployment sc') [] with
       | Yields _ => Yields (mkResult COMPLETED None)
       | Throws (TerraformException msg) => Yields (mkResult FAILED (Some (PStr msg)))
       | Throws e => Throws e
       end.
Proof.
  intros Hdump Hinit Hadd.
  destruct (add_manifest_section_installs_instance sc sc' Hinit Hadd) as [attrs Hattrs].
  destruct (Hdump attrs) as [msg Hmsg].
  unfold CaasConfigureStep.run, CaasConfigureStep.read_overrides.
  cbn [software]. rewrite Hattrs, Hmsg. simpl.
  by destruct (update_tfvars_and_apply_tf (mkManifest deployment sc') []) as [u|[]].
Qed.
End CaasPipeline.

(** ** [DnsFeature.enable_feature]: the nameservers argument *)

Lemma str_last_cons c (t : string) : t <> "" -> str_last (String c t) = str_last t.
Proof. by destruct t. Qed.

Lemma str_last_None (t : string) : str_last t = None -> t = "".
Proof.
  induction t as [|a t IH]; [done|]. destruct t as [|b t]; [done|].
  intros H. by specialize (IH H).
Qed.

Lemma ends_with_dot_cons c (t : string) :
  t <> "" -> ends_with_dot (String c t) = ends_with_dot t.
Proof. intros Ht. unfold ends_with_dot. by rewrite str_last_cons. Qed.

Lemma str_split_starts_word (s : string) :
  starts_word s = true -> exists t ts, str_split s = t :: ts /\ t <> "".
Proof.
  destruct s as [|c s]; simpl; [done|]. intros Hc%negb_true_iff. rewrite Hc.
  destruct (starts_word s); [|by eexists _, _].
  destruct (str_split s); by eexists _, _.
Qed.

Lemma str_split_nonempty (s : string) : Forall (fun t => t <> "") (str_split s).
Proof.
  induction s as [|c s IH]; simpl; [constructor|].
  destruct (is_space c); [done|].
  destruct (starts_word s).
  - destruct (str_split s) as [|t ts]; [by repeat constructor|].
    apply Forall_cons in IH as [_ IH]. by constructor.
  - by constructor.
Qed.

Lemma dangling_nil : ~ dangling "".
Proof. intros (pre & c & post & H & _). by destruct pre. Qed.

Lemma dangling_cons c (s : string) :
  dangling (String c s)
  <-> (is_space c = false /\ c <> "."%char /\ starts_word s = false) \/ dangling s.
Proof.
  split.
  - intros (pre & c0 & post & Heq & Hs & Hd & Hw).
    destruct pre as [|a pre]; simpl in Heq; injection Heq as -> ->.
    + by left.
    + right. by exists pre, c0, post.
  - intros [(Hs & Hd & Hw)|(pre & c0 & post & -> & Hs & Hd & Hw)].
    + by exists "", c, s.
    + by exists (String c pre), c0, post.
Qed.

Lemma str_split_dangling (s : string) :
  Exists (fun t => ends_with_dot t = false) (str_split s) <-> dangling s.
Proof.
  induction s as [|c s IH]; simpl.
  - split; [by intros ?%Exists_nil | by intros ?%dangling_nil].
  - rewrite dangling_cons. destruct (is_space c) eqn:Ec.
    + rewrite IH. split; [by right | by intros [(? & _)|?]].
    + destruct (starts_word s) eqn:Ew.
      * destruct (str_split_starts_word s Ew) as (t & ts & Hsplit & Ht).
        rewrite Hsplit in *. rewrite <- IH, !Exists_cons, ends_with_dot_cons by done.
        split; [by right | by intros [(_ & _ & ?)|?]].
      * rewrite Exists_cons, IH. unfold ends_with_dot. simpl.
        destruct (Ascii.eqb_spec c "."%char) as [->|Hne].
        -- split; [intros [?|?]; [done | by right] | intros [(_ & ? & _)|?]; [done | by right]].
        -- split; [intros [_|?]; [by left | by right] | intros [_|?]; [by left | by right]].
Qed.

Section DnsFacts.
Variable repr_str : string -> string.
Variable super_enable_feature : DnsFeature.t -> feature_outcome DnsFeature.t.

Local Abbreviation check := (DnsFeature.check_nameservers repr_str).
Local Abbreviation enable := (DnsFeature.enable_feature repr_str super_enable_feature).

Lemma check_nameservers_spec (tokens : list string) :
  Forall (fun t => t <> "") tokens ->
  (Forall (fun t => ends_with_dot t = true) tokens /\ check tokens = Yields tt)
  \/ (exists t,
        t ∈ tokens /\ ends_with_dot t = false
        /\ check tokens
           = Throws (ClickException
               ("Nameservers must be fully qualified domain names ending with a dot. "
                  +:+ repr_str t +:+ " is not valid."))).
Proof.
  induction tokens as [|t ts IH]; intros Hne; simpl.
  - left. by split.
  - apply Forall_cons in Hne as [Ht Hne]. unfold ends_with_dot in *.
    destruct (str_last t) as [c|] eqn:El; [|by apply str_last_None in El].
    destruct (Ascii.eqb c "."%char) eqn:Ec.
    + destruct (IH Hne) as [[Hall ->]|(t' & Hin & Hbad & ->)].
      * left. split; [|done]. constructor; [by rewrite El | done].
      * right. exists t'. split_and!; [by right | done | done].
    + right. exists t. split_and!; [left | by rewrite El | done].
Qed.

Lemma str_append_elem pre c post :
  c ∈ String.list_ascii_of_string (pre +:+ String c post).
Proof. induction pre as [|a pre IH]; simpl; [left | by right]. Qed.

(** X18. [enable_feature] accepts its argument exactly when every word of it
    ends with a dot. If a word of [nameservers] ends in another character,
    the call raises a [ClickException] naming such a word and the base class
    is not reached; otherwise the base class's [enable_feature] runs on the
    feature whose [nameservers] is the argument as given. In particular an
    empty or blank argument is accepted. *)
Theorem enable_feature_nameservers (self : DnsFeature.t) (nameservers : string) :
  (dangling nameservers ->
   exists t,
     t ∈ str_split nameservers /\ ends_with_dot t = false
     /\ enable self nameservers
        = Throws (ClickException
            ("Nameservers must be fully qualified domain names ending with a dot. "
               +:+ repr_str t +:+ " is not valid.")))
  /\ (~ dangling nameservers ->
      enable self nameservers = super_enable_feature (DnsFeature.mk (Some nameservers)))
  /\ ((forall c, c ∈ String.list_ascii_of_string nameservers -> is_space c = true) ->
      enable self nameservers = super_enable_feature (DnsFeature.mk (Some nameservers))).
Proof.
  assert (Hacc : ~ dangling nameservers ->
            enable self nameservers
            = super_enable_feature (DnsFeature.mk (Some nameservers))).
  { intros Hnd. unfold DnsFeature.enable_feature.
    destruct (check_nameservers_spec _ (str_split_nonempty nameservers))
      as [[_ ->]|(t & Hin & Hbad & _)]; [done|].
    destruct Hnd. apply str_split_dangling. apply Exists_exists. by exists t. }
  split_and!; [|exact Hacc|].
  - intros Hd. unfold DnsFeature.enable_feature.
    destruct (check_nameservers_spec _ (str_split_nonempty nameservers))
      as [[Hall _]|(t & Hin & Hbad & ->)]; [|by exists t].
    apply str_split_dangling, Exists_exists in Hd as (t & Hin & Hbad).
    rewrite Forall_forall in Hall. rewrite (Hall t Hin) in Hbad. done.
  - intros Hblank. apply Hacc. intros (pre & c & post & -> & Hs & _).
    rewrite (Hblank c (str_append_elem pre c post)) in Hs. done.
Qed.
End DnsFacts.

(** ** The commands of a feature *)

(** X19. For the caas and the dns feature alike, a cluster service that is
    unavailable when [enabled] is queried counts as a disabled feature:
    [commands] then returns the base class's commands as they are. When the
    feature is enabled, the groups it registers hold exactly its own
    commands, replacing whatever the base class had under those names, and
    every other group is the base class's. *)
Theorem commands_of_feature
    (base : dict (list command)) (msg : string) :
  CaasFeature.commands (Yields base)
    (Throws (Builtin (ClusterServiceUnavailableException msg))) = Yields base
  /\ DnsFeature.commands (Yields base)
       (Throws (Builtin (ClusterServiceUnavailableException msg))) = Yields base
  /\ CaasFeature.commands (Yields base) (Yields false) = Yields base
  /\ DnsFeature.commands (Yields base) (Yields false) = Yields base
  /\ (exists r,
        CaasFeature.commands (Yields base) (Yields true) = Yields r
        /\ dict_get r "configure" = Some [mkCommand "caas" "configure"]
        /\ forall k, k <> "configure" -> dict_get r k = dict_get base k)
  /\ (exists r,
        DnsFeature.commands (Yields base) (Yields true) = Yields r
        /\ dict_get r "init" = Some [mkCommand "dns" "dns_groups"]
        /\ dict_get r "init.dns" = Some [mkCommand "address" "dns_address"]
        /\ forall k, k <> "init" -> k <> "init.dns" -> dict_get r k = dict_get base k).
Proof.
  split_and!; try done.
  - eexists. split; [reflexivity|]. unfold dict_update. simpl. split.
    + by rewrite dict_get_set.
    + intros k Hk. rewrite dict_get_set. by destruct (String.eqb_spec k "configure").
  - eexists. split; [reflexivity|]. unfold dict_update. simpl. split_and!.
    + by rewrite !dict_get_set.
    + by rewrite !dict_get_set.
    + intros k Hk1 Hk2. rewrite !dict_get_set.
      destruct (String.eqb_spec k "init.dns"); [done|].
      by destruct (String.eqb_spec k "init").
Qed.

(** ** The features of the repository, assembled *)

Lemma dict_keys_of_items_fold {V} (items : list (string * V)) (d : dict V) k :
  k ∈ dict_keys (fold_left (fun d kv => dict_set d (fst kv) (snd kv)) items d)
  <-> k ∈ dict_keys d \/ k ∈ fst <$> items.
Proof.
  revert d. induction items as [|[k0 v0] items IH]; intros d; simpl.
  - split; [by left | intros [?|?%elem_of_nil]; done].
  - rewrite IH, dict_keys_set, elem_of_cons. simpl.
    destruct (dict_contains k0 d) eqn:E.
    + apply dict_contains_true in E. split; [tauto|].
      intros [?|[->|?]]; [by left | by left | by right].
    + rewrite elem_of_app, list_elem_of_singleton. tauto.
Qed.

Lemma dict_keys_of_items {V} (items : list (string * V)) k :
  k ∈ dict_keys (dict_of_items items) <-> k ∈ fst <$> items.
Proof.
  unfold dict_of_items. rewrite dict_keys_of_items_fold.
  split; [intros [?%elem_of_nil|?]; done | by right].
Qed.

(** X20. The caas, dns and secrets features assemble without collision over
    any core tables that do not already name their charms or the caas plan,
    and only over such tables: [get_default] returns on their three
    fragments exactly when none of ["magnum-k8s"], ["designate-k8s"],
    ["designate-bind-k8s"], ["barbican-k8s"] is a core charm and
    ["caas-setup"] is not a core plan. *)
Theorem features_assemble
    (MANIFEST_CHARM_VERSIONS TERRAFORM_DIR_NAMES : dict string)
    (snap_root feature_dir : list string) (OPENSTACK_CHANNEL BIND_CHANNEL : string) :
  returned
    (get_default MANIFEST_CHARM_VERSIONS TERRAFORM_DIR_NAMES snap_root
       (Some [("caas", CaasFeature.manifest_defaults OPENSTACK_CHANNEL feature_dir);
              ("dns", DnsFeature.manifest_defaults OPENSTACK_CHANNEL BIND_CHANNEL);
              ("secrets", SecretsFeature.manifest_defaults OPENSTACK_CHANNEL)]))
  <-> (forall k,
         k ∈ ["magnum-k8s"; "designate-k8s"; "designate-bind-k8s"; "barbican-k8s"] ->
         k ∉ dict_keys MANIFEST_CHARM_VERSIONS)
      /\ "caas-setup" ∉ dict_keys TERRAFORM_DIR_NAMES.
Proof.
  set (fs := [("caas", CaasFeature.manifest_defaults OPENSTACK_CHANNEL feature_dir);
              ("dns", DnsFeature.manifest_defaults OPENSTACK_CHANNEL BIND_CHANNEL);
              ("secrets", SecretsFeature.manifest_defaults OPENSTACK_CHANNEL)]).
  set (base := mkAccum (core_charms MANIFEST_CHARM_VERSIONS)
                       (core_terraform TERRAFORM_DIR_NAMES snap_root) []).
  assert (Hwf : fragments_wf fs).
  { repeat constructor; simpl; by apply (bool_decide_unpack _). }
  assert (Hcore_c : forall k, k ∈ dict_keys (core_charms MANIFEST_CHARM_VERSIONS)
                              <-> k ∈ dict_keys MANIFEST_CHARM_VERSIONS).
  { intros k. unfold core_charms. rewrite dict_keys_of_items.
    unfold dict_keys. by rewrite <- list_fmap_compose. }
  assert (Hcore_t : forall k, k ∈ dict_keys (core_terraform TERRAFORM_DIR_NAMES snap_root)
                              <-> k ∈ dict_keys TERRAFORM_DIR_NAMES).
  { intros k. unfold core_terraform. rewrite dict_keys_of_items.
    unfold dict_keys. by rewrite <- list_fmap_compose. }
  assert (Hfree : collision_free base fs
            <-> (forall k,
                   k ∈ ["magnum-k8s"; "designate-k8s"; "designate-bind-k8s"; "barbican-k8s"] ->
                   k ∉ dict_keys MANIFEST_CHARM_VERSIONS)
                /\ "caas-setup" ∉ dict_keys TERRAFORM_DIR_NAMES).
  { split.
    - intros Hfree. split.
      + intros k Hk Hin. destruct (Hfree KCharms) as [_ Hb].
        apply (Hb k); [exact Hk | by apply Hcore_c].
      + intros Hin. destruct (Hfree KTerraform) as [_ Hb].
        apply (Hb "caas-setup"); [by left | by apply Hcore_t].
    - intros [Hc Ht] kind. destruct kind.
      + split; [by apply (bool_decide_unpack _)|].
        intros k Hk Hin. apply (Hc k Hk). by apply Hcore_c.
      + split; [by apply (bool_decide_unpack _)|].
        intros k Hk Hin. apply list_elem_of_singleton in Hk as ->.
        apply Ht. by apply Hcore_t.
      + split; [constructor|]. by intros k Hk%elem_of_nil. }
  rewrite <- Hfree, (add_features_returns_iff fs base Hwf).
  unfold get_default. fold base.
  destruct (add_features_spec fs base Hwf) as [[_ ->]|(kind & f & k & _ & ->)];
    simpl; split; done.
Qed.

(** ** Variable maps against defaults *)

(** X21. The variable maps match the defaults they belong to. Unless the
    caas feature's plan is itself named ["caas-setup"], each of the three
    features maps, under its plan, exactly the charms of its
    [manifest_defaults], each with the three declared fields of a
    [CharmManifest]; the caas map gives a variable to exactly the fields of
    [CaasConfig]; and no terraform variable name is used twice across the
    three maps. If the caas plan is named ["caas-setup"], the second entry of
    the dict literal replaces the first and the charm variables are lost. *)
Theorem tfvar_maps_match_defaults
    (OPENSTACK_CHANNEL BIND_CHANNEL tfplan : string) (feature_dir : list string) :
  (tfplan <> "caas-setup" ->
   dict_keys (tfvar_section (CaasFeature.manifest_attributes_tfvar_map tfplan)
                tfplan "charms")
   = dict_keys (charms (CaasFeature.manifest_defaults OPENSTACK_CHANNEL feature_dir)))
  /\ dict_keys (tfvar_section (DnsFeature.manifest_attributes_tfvar_map tfplan)
                  tfplan "charms")
     = dict_keys (charms (DnsFeature.manifest_defaults OPENSTACK_CHANNEL BIND_CHANNEL))
  /\ dict_keys (tfvar_section (SecretsFeature.manifest_attributes_tfvar_map tfplan)
                  tfplan "charms")
     = dict_keys (charms (SecretsFeature.manifest_defaults OPENSTACK_CHANNEL))
  /\ (forall m charm v,
        m ∈ [CaasFeature.manifest_attributes_tfvar_map tfplan;
             DnsFeature.manifest_attributes_tfvar_map tfplan;
             SecretsFeature.manifest_attributes_tfvar_map tfplan] ->
        dict_get (tfvar_section m tfplan "charms") charm = Some v ->
        exists fields,
          v = PDict fields
          /\ dict_keys fields = attr_names (CharmManifest (Some OPENSTACK_CHANNEL)))
  /\ dict_keys (tfvar_section (CaasFeature.manifest_attributes_tfvar_map tfplan)
                  "caas-setup" "caas_config")
     = attr_names CaasConfig_default
  /\ NoDup (tfvar_names (PDict (CaasFeature.manifest_attributes_tfvar_map tfplan))
            ++ tfvar_names (PDict (DnsFeature.manifest_attributes_tfvar_map tfplan))
            ++ tfvar_names (PDict (SecretsFeature.manifest_attributes_tfvar_map tfplan)))
  /\ tfvar_section (CaasFeature.manifest_attributes_tfvar_map "caas-setup")
       "caas-setup" "charms" = [].
Proof.
  assert (Hrefl : String.eqb tfplan tfplan = true) by apply String.eqb_refl.
  unfold CaasFeature.manifest_attributes_tfvar_map,
    DnsFeature.manifest_attributes_tfvar_map,
    SecretsFeature.manifest_attributes_tfvar_map,
    CaasFeature.configure_plan, dict_of_items, tfvar_section.
  cbn [fold_left fst snd dict_set dict_get].
  destruct (String.eqb_spec "caas-setup" tfplan) as [<-|Hne].
  - simpl. split_and!; try done.
    + intros m charm v Hm.
      repeat (apply elem_of_cons in Hm as [->|Hm]); [| | |by apply elem_of_nil in Hm];
        simpl; [done | |];
        intros Hv; repeat case_match; simplify_eq; by eexists.
    + by apply (bool_decide_unpack _).
  - assert (String.eqb "caas-setup" tfplan = false) as Hf by (by apply String.eqb_neq).
    cbn [fold_left fst snd dict_set dict_get]. rewrite ?Hrefl, ?Hf.
    cbn [fold_left fst snd dict_set dict_get]. rewrite ?Hrefl, ?Hf. simpl.
    split_and!; try done.
    + intros m charm v Hm.
      repeat (apply elem_of_cons in Hm as [->|Hm]); [| | |by apply elem_of_nil in Hm];
        cbn [dict_get]; rewrite ?Hrefl; simpl;
        intros Hv; repeat case_match; simplify_eq; by eexists.
    + by apply (bool_decide_unpack _).
Qed.

(** ** The property [SoftwareConfig.extra] on the heap *)

Section ExtraProperty.
Import Heap.

(** X22. The property [extra] of an instance. When [__pydantic_extra__] is
    set, the property returns that object and changes nothing. When it is
    [None], the property creates an empty dict, stores it in the instance and
    returns it; no other object changes, and every later access returns that
    same dict without changing anything. Without the attribute the access
    raises [AttributeError] and changes nothing. *)
Theorem extra_property (h : heap) (l : nat) (cls : pyclass) (attrs : dict ref) :
  h !! l = Some (CObj cls attrs) ->
  (forall e,
      dict_get attrs "__pydantic_extra__" = Some e -> e <> RImm ANone ->
      extra (RLoc l) h = (Returned e, h))
  /\ (dict_get attrs "__pydantic_extra__" = Some (RImm ANone) ->
      let e := RLoc (length h) in
      let h' := <[l := CObj cls (dict_set attrs "__pydantic_extra__" e)]>
                  (h ++ [CDict []]) in
      extra (RLoc l) h = (Returned e, h')
      /\ extra (RLoc l) h' = (Returned e, h')
      /\ h' !! length h = Some (CDict [])
      /\ forall l', l' <> l -> l' < length h -> h' !! l' = h !! l')
  /\ (dict_get attrs "__pydantic_extra__" = None ->
      extra (RLoc l) h = (Raised (AttributeError "__pydantic_extra__"), h)).
Proof.
  intros Hl. pose proof (lookup_lt_Some _ _ _ Hl) as Hlt. split_and!.
  - intros e He Hne. unfold extra, getattr, and_then, read. rewrite Hl, He. simpl.
    by destruct e as [[]|].
  - intros He e h'.
    assert (Hl' : (h ++ [CDict []]) !! l = Some (CObj cls attrs))
      by (by apply lookup_app_l_Some).
    assert (Hlt' : l < length (h ++ [CDict []])) by (rewrite length_app; simpl; lia).
    assert (Hh' : h' !! l = Some (CObj cls (dict_set attrs "__pydantic_extra__" e)))
      by (by apply list_lookup_insert_eq).
    split_and!.
    + unfold extra, getattr, setattr, and_then, read, alloc, write.
      rewrite Hl, He. simpl. rewrite Hl'. by rewrite decide_True.
    + unfold extra, getattr, and_then, read. rewrite Hh', dict_get_set. done.
    + unfold h'. rewrite list_lookup_insert_ne by lia.
      rewrite lookup_app_r by lia. by rewrite Nat.sub_diag.
    + intros l' Hne Hl'lt. unfold h'. rewrite list_lookup_insert_ne by done.
      by rewrite lookup_app_l.
  - intros He. unfold extra, getattr, and_then, read. by rewrite Hl, He.
Qed.
End ExtraProperty.

(** ** The further properties on the example machine *)

Lemma assembled_default_validates_parts_witness :
  exists d,
    get_default Sample.charm_versions Sample.terraform_dirs Example.snap_root
      (Some Sample.features) = Returned d
    /\ validate_against_default Example.repr_keys
         (DnsFeature.manifest_defaults "2024.1/stable" "9/stable") d
       = Returned tt.
Proof.
  destruct (get_default Sample.charm_versions Sample.terraform_dirs Example.snap_root
              (Some Sample.features)) as [d|e] eqn:E;
    [|vm_compute in E; discriminate].
  exists d. split; [reflexivity|].
  apply (proj1 (assembled_default_validates_parts Example.repr_keys
                  Sample.charm_versions Sample.terraform_dirs Example.snap_root
                  Sample.features d E) "dns").
  right. left.
Defined.

Lemma validate_against_default_preorder_witness :
  validate_against_default Example.repr_keys Example.caas_fragment Example.caas_fragment
  = Returned tt.
Proof.
  exact (proj1 (validate_against_default_preorder Example.repr_keys
                  Example.caas_fragment Example.caas_fragment Example.caas_fragment)).
Defined.

Lemma validate_against_default_error_order_witness :
  ~ key_set (terraform Example.caas_fragment) ⊆ key_set (terraform Example.rival_fragment)
  /\ validate_against_default Example.repr_keys Example.caas_fragment
       Example.rival_fragment
     = Raised (ValueError
         ("Manifest Software Terraform keys should be one of "
            +:+ Example.repr_keys (dict_keys (terraform Example.rival_fragment)) +:+ " ")).
Proof.
  assert (H : ~ key_set (terraform Example.caas_fragment)
                ⊆ key_set (terraform Example.rival_fragment)).
  { apply (bool_decide_unpack _). vm_compute. exact I. }
  split; [exact H|].
  exact (proj1 (validate_against_default_error_order Example.repr_keys
                  Example.caas_fragment Example.rival_fragment) H).
Defined.

Lemma get_default_ignores_fragment_juju_witness :
  get_default Sample.charm_versions Sample.terraform_dirs Example.snap_root
    (Some ((fun fsw => (fst fsw, with_juju (mkJujuManifest ["--debug"] []) (snd fsw)))
             <$> Sample.features))
  = get_default Sample.charm_versions Sample.terraform_dirs Example.snap_root
      (Some Sample.features).
Proof.
  exact (proj1 (get_default_ignores_fragment_juju Sample.charm_versions
                  Sample.terraform_dirs Example.snap_root Sample.features
                  (fun _ => mkJujuManifest ["--debug"] []))).
Defined.

Lemma get_default_order_irrelevant_witness :
  fragments_wf Sample.features
  /\ Sample.features ≡ₚ reverse Sample.features
  /\ (returned (get_default Sample.charm_versions Sample.terraform_dirs
                  Example.snap_root (Some Sample.features))
      <-> returned (get_default Sample.charm_versions Sample.terraform_dirs
                      Example.snap_root (Some (reverse Sample.features)))).
Proof.
  assert (Hwf : fragments_wf Sample.features).
  { repeat constructor; simpl; by apply (bool_decide_unpack _). }
  assert (Hp : Sample.features ≡ₚ reverse Sample.features)
    by (symmetry; apply reverse_Permutation).
  split; [exact Hwf|]. split; [exact Hp|].
  exact (proj1 (get_default_order_irrelevant Sample.charm_versions
                  Sample.terraform_dirs Example.snap_root
                  Sample.features (reverse Sample.features) Hwf Hp)).
Defined.

Lemma is_skip_file_overrides_clear_witness :
  fst (fst (is_skip Example.safe_load Example.risk_str Example.snap_root STABLE
              Example.read_file (mkClusterDB true [])
              (mkAddManifestStep (Some ["home"; "ubuntu"; "manifest.yml"]) true PNone)))
  = fst (fst (is_skip Example.safe_load Example.risk_str Example.snap_root STABLE
                Example.read_file (mkClusterDB true [])
                (mkAddManifestStep (Some ["home"; "ubuntu"; "manifest.yml"]) false PNone))).
Proof.
  exact (proj1 (is_skip_file_overrides_clear Example.safe_load Example.risk_str
                  Example.snap_root STABLE Example.read_file (mkClusterDB true [])
                  ["home"; "ubuntu"; "manifest.yml"] PNone)).
Defined.

Lemma is_skip_manifest_file_error_witness :
  Example.read_file ["home"; "ubuntu"; "missing.yml"]
  = Raised (IOError "[Errno 2] No such file or directory")
  /\ is_skip Example.safe_load Example.risk_str Example.snap_root STABLE
       Example.read_file (mkClusterDB true [])
       (AddManifestStep_init (Some ["home"; "ubuntu"; "missing.yml"]) false)
     = (Returned (mkResult FAILED (Some (PStr "[Errno 2] No such file or directory"))),
        AddManifestStep_init (Some ["home"; "ubuntu"; "missing.yml"]) false,
        [EvReadFile (embedded_manifest_path Example.risk_str Example.snap_root STABLE);
         EvReadFile ["home"; "ubuntu"; "missing.yml"]]).
Proof.
  split; [vm_compute; reflexivity|].
  apply (proj1 (is_skip_manifest_file_error Example.safe_load Example.risk_str
                  Example.snap_root STABLE Example.read_file (mkClusterDB true [])
                  (AddManifestStep_init (Some ["home"; "ubuntu"; "missing.yml"]) false)
                  ["home"; "ubuntu"; "missing.yml"] "deployment: {}"
                  (PDict [("deployment", PDict [])]) eq_refl eq_refl eq_refl)).
  vm_compute; reflexivity.
Defined.

Lemma is_skip_store_unavailable_witness :
  get_latest_manifest (mkClusterDB false [])
  = Raised (ClusterServiceUnavailableException "Cluster service unavailable")
  /\ fst (fst (is_skip Example.safe_load Example.risk_str Example.snap_root STABLE
                 Example.read_file (mkClusterDB false [])
                 (AddManifestStep_init None true)))
     = Returned (mkResult FAILED (Some (PStr "Cluster service unavailable"))).
Proof.
  split; [reflexivity|].
  rewrite (is_skip_store_unavailable Example.safe_load Example.risk_str
             Example.snap_root STABLE Example.read_file (mkClusterDB false [])
             (AddManifestStep_init None true)
             (mkAddManifestStep None true EMPTY_MANIFEST)
             (PDict [("deployment", PDict [])])
             [EvReadFile (embedded_manifest_path Example.risk_str Example.snap_root STABLE)]
             "Cluster service unavailable" eq_refl eq_refl).
  reflexivity.
Defined.

Lemma is_skip_keeps_stored_manifest_witness :
  get_latest_manifest (mkClusterDB true [Example.stored "software: {}"])
  = Returned (Example.stored "software: {}")
  /\ fst (fst (is_skip Example.safe_load Example.risk_str Example.snap_root
                 (NonStable "edge") Example.read_file
                 (mkClusterDB true [Example.stored "software: {}"])
                 (AddManifestStep_init None false)))
     = Returned (mkResult SKIPPED None).
Proof.
  split; [reflexivity|].
  rewrite (is_skip_keeps_stored_manifest Example.safe_load Example.risk_str
             Example.snap_root (NonStable "edge") Example.read_file
             (mkClusterDB true [Example.stored "software: {}"])
             "deployment: {}" (PDict [("deployment", PDict [])])
             (Example.stored "software: {}") eq_refl eq_refl eq_refl).
  reflexivity.
Defined.

Lemma run_append_only_witness :
  exists r,
    fst (fst (run Example.safe_dump Example.assign_id (mkClusterDB true [])
                (mkAddManifestStep None false (PDict [("software", PDict [])]))))
    = Returned r
    /\ result_type r <> SKIPPED.
Proof.
  destruct (run_append_only Example.safe_dump Example.assign_id (mkClusterDB true [])
              (mkAddManifestStep None false (PDict [("software", PDict [])])))
    as (r & Hr & Hs & _).
  exists r. split; [exact Hr | exact Hs].
Defined.

Lemma is_skip_empty_manifest_file_witness :
  Sample.read_file ["home"; "ubuntu"; "empty.yml"] = Returned ""
  /\ Example.safe_load "" = Returned PNone
  /\ fst (fst (is_skip Example.safe_load Example.risk_str Example.snap_root
                 (NonStable "edge") Sample.read_file (mkClusterDB true [])
                 (mkAddManifestStep (Some ["home"; "ubuntu"; "empty.yml"]) true PNone)))
     = fst (fst (is_skip Example.safe_load Example.risk_str Example.snap_root
                   (NonStable "edge") Sample.read_file (mkClusterDB true [])
                   (AddManifestStep_init None false))).
Proof.
  split; [reflexivity|]. split; [reflexivity|].
  exact (proj1 (is_skip_empty_manifest_file Example.safe_load Example.risk_str
                  Example.snap_root (NonStable "edge") Sample.read_file
                  (mkClusterDB true []) ["home"; "ubuntu"; "empty.yml"] "" true
                  eq_refl eq_refl)).
Defined.

Lemma example_read_file_errors (p : list string) (e : pyexn) :
  Example.read_file p = Raised e -> is_load_error e = true.
Proof.
  unfold Example.read_file. repeat case_bool_decide; try done. by intros [= <-].
Qed.

Lemma example_safe_load_errors (s : string) (e : pyexn) :
  Example.safe_load s = Raised e -> is_load_error e = true.
Proof.
  unfold Example.safe_load. repeat case_match; try done. by intros [= <-].
Qed.

Lemma is_skip_raises_iff_witness :
  (forall p e', Example.read_file p = Raised e' -> is_load_error e' = true)
  /\ (forall s e', Example.safe_load s = Raised e' -> is_load_error e' = true)
  /\ exists embedded self1 tr item,
       load_manifests Example.safe_load Example.risk_str Example.snap_root STABLE
         Example.read_file
         (AddManifestStep_init (Some ["home"; "ubuntu"; "manifest.yml"]) false)
       = (Returned (embedded, self1), tr)
       /\ get_latest_manifest (mkClusterDB true [Example.stored "software: {"])
          = Returned item
       /\ is_None (manifest_content self1) = false
       /\ dict_truthy item = true
       /\ safe_load_value Example.safe_load (stored_data item)
          = Raised (YAMLError "could not find expected ':'").
Proof.
  split; [exact example_read_file_errors|]. split; [exact example_safe_load_errors|].
  apply (proj1 (is_skip_raises_iff Example.safe_load Example.risk_str Example.snap_root
                  STABLE Example.read_file
                  (mkClusterDB true [Example.stored "software: {"])
                  (AddManifestStep_init (Some ["home"; "ubuntu"; "manifest.yml"]) false)
                  (YAMLError "could not find expected ':'")
                  example_read_file_errors example_safe_load_errors)).
  vm_compute. reflexivity.
Defined.

Lemma is_skip_after_run_witness :
  is_skip Example.safe_load Example.risk_str Example.snap_root STABLE Example.read_file
    (mkClusterDB true [])
    (AddManifestStep_init (Some ["home"; "ubuntu"; "manifest.yml"]) false)
  = (Returned (mkResult COMPLETED None),
     mkAddManifestStep (Some ["home"; "ubuntu"; "manifest.yml"]) false
       (PDict [("software", PDict [])]),
     [EvReadFile (Example.snap_root ++ ["etc"; "manifests"; "stable.yml"]);
      EvReadFile ["home"; "ubuntu"; "manifest.yml"];
      EvGetLatestManifest])
  /\ fst (fst (is_skip Example.safe_load Example.risk_str Example.snap_root STABLE
                 Example.read_file
                 (mkClusterDB true [[("manifestid", PInt 0); ("data", PStr "software: {}")]])
                 (AddManifestStep_init (Some ["home"; "ubuntu"; "manifest.yml"]) false)))
     = Returned (mkResult SKIPPED None).
Proof.
  assert (Hskip :
    is_skip Example.safe_load Example.risk_str Example.snap_root STABLE Example.read_file
      (mkClusterDB true [])
      (AddManifestStep_init (Some ["home"; "ubuntu"; "manifest.yml"]) false)
    = (Returned (mkResult COMPLETED None),
       mkAddManifestStep (Some ["home"; "ubuntu"; "manifest.yml"]) false
         (PDict [("software", PDict [])]),
       [EvReadFile (Example.snap_root ++ ["etc"; "manifests"; "stable.yml"]);
        EvReadFile ["home"; "ubuntu"; "manifest.yml"];
        EvGetLatestManifest])) by (vm_compute; reflexivity).
  split; [exact Hskip|].
  apply (is_skip_after_run Example.safe_load Example.safe_dump Example.risk_str
           Example.assign_id Example.snap_root STABLE Example.read_file
           (Some ["home"; "ubuntu"; "manifest.yml"]) false
           (mkClusterDB true [])
           (mkClusterDB true [[("manifestid", PInt 0); ("data", PStr "software: {}")]])
           _ _ [EvAddManifest "software: {}"] (PInt 0) Hskip).
  - vm_compute. reflexivity.
  - intros data Hd. vm_compute in Hd. injection Hd as <-.
    exists (PDict [("software", PDict [])]). split; vm_compute; reflexivity.
Defined.

Lemma add_manifest_section_frame_witness :
  add_manifest_section Example.CaasConfig_init Example.py_repr Example.channel_layer
  = Returned
      (set_extra Example.channel_layer "caas_config"
         (PObj CaasConfigCls [("image_name", PStr "fedora"); ("properties", PDict [])]))
  /\ charms
       (set_extra Example.channel_layer "caas_config"
          (PObj CaasConfigCls [("image_name", PStr "fedora"); ("properties", PDict [])]))
     = charms Example.channel_layer.
Proof.
  assert (H : add_manifest_section Example.CaasConfig_init Example.py_repr
                Example.channel_layer
              = Returned
                  (set_extra Example.channel_layer "caas_config"
                     (PObj CaasConfigCls
                        [("image_name", PStr "fedora"); ("properties", PDict [])])))
    by reflexivity.
  split; [exact H|].
  exact (proj1 (proj2 (add_manifest_section_frame Example.CaasConfig_init
                         Example.py_repr Example.channel_layer _ H))).
Defined.

Lemma example_CaasConfig_init_instance (kw : dict pyval) (c : pyval) :
  Example.CaasConfig_init kw = Returned c -> is_CaasConfig c = true.
Proof. by intros [= <-]. Qed.

Lemma add_manifest_section_idempotent_witness :
  (forall kw c, Example.CaasConfig_init kw = Returned c -> is_CaasConfig c = true)
  /\ add_manifest_section Example.CaasConfig_init Example.py_repr Example.channel_layer
     = Returned
         (set_extra Example.channel_layer "caas_config"
            (PObj CaasConfigCls [("image_name", PStr "fedora"); ("properties", PDict [])]))
  /\ add_manifest_section Example.CaasConfig_init Example.py_repr
       (set_extra Example.channel_layer "caas_config"
          (PObj CaasConfigCls [("image_name", PStr "fedora"); ("properties", PDict [])]))
     = Returned
         (set_extra Example.channel_layer "caas_config"
            (PObj CaasConfigCls [("image_name", PStr "fedora"); ("properties", PDict [])])).
Proof.
  assert (H : add_manifest_section Example.CaasConfig_init Example.py_repr
                Example.channel_layer
              = Returned
                  (set_extra Example.channel_layer "caas_config"
                     (PObj CaasConfigCls
                        [("image_name", PStr "fedora"); ("properties", PDict [])])))
    by reflexivity.
  split; [exact example_CaasConfig_init_instance|]. split; [exact H|].
  exact (proj2 (add_manifest_section_idempotent Example.CaasConfig_init
                  Example.py_repr Example.channel_layer _
                  example_CaasConfig_init_instance H)).
Defined.

Lemma caas_configure_run_outcomes_witness :
  dict_get (extra (software (mkManifest [] Example.rival_fragment))) "caas_config" = None
  /\ CaasConfigureStep.run Sample.model_dump (Some Sample.caas_tfvars) Sample.apply_ok
       (mkManifest [] Example.rival_fragment)
     = (Throws (KeyError "caas_config"), []).
Proof.
  split; [reflexivity|].
  exact (proj1 (caas_configure_run_outcomes Sample.model_dump (Some Sample.caas_tfvars)
                  Sample.apply_ok (mkManifest [] Example.rival_fragment)) eq_refl).
Defined.

Lemma sample_model_dump_CaasConfig (attrs : dict pyval) :
  exists msg,
    Sample.model_dump (PObj CaasConfigCls attrs) = Throws (Builtin (AttributeError msg)).
Proof. by eexists. Qed.

Lemma caas_configure_run_after_add_manifest_section_witness :
  add_manifest_section Example.CaasConfig_init Example.py_repr Example.channel_layer
  = Returned
      (set_extra Example.channel_layer "caas_config"
         (PObj CaasConfigCls [("image_name", PStr "fedora"); ("properties", PDict [])]))
  /\ CaasConfigureStep.run Sample.model_dump (Some Sample.caas_tfvars) Sample.apply_ok
       (mkManifest []
          (set_extra Example.channel_layer "caas_config"
             (PObj CaasConfigCls
                [("image_name", PStr "fedora"); ("properties", PDict [])])))
     = (Yields (mkResult COMPLETED None), [[]]).
Proof.
  assert (H : add_manifest_section Example.CaasConfig_init Example.py_repr
                Example.channel_layer
              = Returned
                  (set_extra Example.channel_layer "caas_config"
                     (PObj CaasConfigCls
                        [("image_name", PStr "fedora"); ("properties", PDict [])])))
    by reflexivity.
  split; [exact H|].
  destruct (caas_configure_run_after_add_manifest_section Example.CaasConfig_init
              Example.py_repr Sample.model_dump (Some Sample.caas_tfvars)
              Sample.apply_ok Example.channel_layer _ []
              sample_model_dump_CaasConfig example_CaasConfig_init_instance H)
    as [Hs Hf].
  rewrite (surjective_pairing (CaasConfigureStep.run _ _ _ _)), Hs, Hf.
  reflexivity.
Defined.

Lemma enable_feature_nameservers_witness :
  dangling "ns1.example.com. ns2.example.com"
  /\ exists t,
       t ∈ str_split "ns1.example.com. ns2.example.com"
       /\ ends_with_dot t = false
       /\ DnsFeature.enable_feature Sample.repr_str Sample.super_enable_feature
            (DnsFeature.mk None) "ns1.example.com. ns2.example.com"
          = Throws (ClickException
              ("Nameservers must be fully qualified domain names ending with a dot. "
                 +:+ Sample.repr_str t +:+ " is not valid.")).
Proof.
  assert (Hd : dangling "ns1.example.com. ns2.example.com").
  { exists "ns1.example.com. ns2.example.co", "m"%char, "".
    split_and!; [reflexivity | reflexivity | discriminate | reflexivity]. }
  split; [exact Hd|].
  exact (proj1 (enable_feature_nameservers Sample.repr_str Sample.super_enable_feature
                  (DnsFeature.mk None) "ns1.example.com. ns2.example.com") Hd).
Defined.

Lemma commands_of_feature_witness :
  DnsFeature.commands (Yields [("init", [mkCommand "bootstrap" "bootstrap"])])
    (Throws (Builtin (ClusterServiceUnavailableException "Cluster service unavailable")))
  = Yields [("init", [mkCommand "bootstrap" "bootstrap"])].
Proof.
  exact (proj1 (proj2 (commands_of_feature
                         [("init", [mkCommand "bootstrap" "bootstrap"])]
                         "Cluster service unavailable"))).
Defined.

Lemma features_assemble_witness :
  returned
    (get_default Sample.charm_versions Sample.terraform_dirs Example.snap_root
       (Some [("caas", CaasFeature.manifest_defaults "2024.1/stable" ["features"; "caas"]);
              ("dns", DnsFeature.manifest_defaults "2024.1/stable" "9/stable");
              ("secrets", SecretsFeature.manifest_defaults "2024.1/stable")])).
Proof.
  apply (proj2 (features_assemble Sample.charm_versions Sample.terraform_dirs
                  Example.snap_root ["features"; "caas"] "2024.1/stable" "9/stable")).
  split.
  - intros k Hk. apply (bool_decide_unpack _).
    repeat (apply elem_of_cons in Hk as [->|Hk]); [done | done | done | done |].
    by apply elem_of_nil in Hk.
  - by apply (bool_decide_unpack _).
Defined.

Lemma tfvar_maps_match_defaults_witness :
  "openstack-plan" <> "caas-setup"
  /\ dict_keys (tfvar_section (CaasFeature.manifest_attributes_tfvar_map "openstack-plan")
                  "openstack-plan" "charms")
     = dict_keys (charms (CaasFeature.manifest_defaults "2024.1/stable"
                            ["features"; "caas"])).
Proof.
  assert (H : "openstack-plan" <> "caas-setup") by discriminate.
  split; [exact H|].
  exact (proj1 (tfvar_maps_match_defaults "2024.1/stable" "9/stable" "openstack-plan"
                  ["features"; "caas"]) H).
Defined.

Lemma extra_property_witness :
  Example.objects !! 8
  = Some (Heap.CObj SoftwareConfigCls
            [("juju", Heap.RLoc 2); ("charms", Heap.RLoc 4); ("terraform", Heap.RLoc 5);
             ("__pydantic_extra__", Heap.RLoc 7)])
  /\ Heap.extra (Heap.RLoc 8) Example.objects = (Returned (Heap.RLoc 7), Example.objects).
Proof.
  split; [reflexivity|].
  apply (proj1 (extra_property Example.objects 8 SoftwareConfigCls
                  [("juju", Heap.RLoc 2); ("charms", Heap.RLoc 4);
                   ("terraform", Heap.RLoc 5); ("__pydantic_extra__", Heap.RLoc 7)]
                  eq_refl) (Heap.RLoc 7) eq_refl).
  discriminate.
Defined.
